(** * The transcript flattener of [mob/json_flattener.py]

    A shallow embedding of the class [JSONFlattener]: the structural
    validator, the generic depth-bounded key flattener, the transcript
    projector, the batch driver and the statistics helper, together with
    the properties the specification states about them. The other
    methods of the class, [TranscriptAnalyzer.extract_text_chunks], which
    reads its records, and the ingestion pipeline of
    [mob/document_ingestion.py], which calls it, follow with further
    properties of the code.

    Conventions of the embedding:
    - a value produced by [json.load] is a term of [json]; a Python [dict]
      is an association list in insertion order (lookups take the first
      binding, so a list with a repeated key denotes the dict of its first
      bindings);
    - a Python [str] is a [string], each character standing for one code
      point of the Latin-1 range;
    - a Python [float] is a primitive binary64 [float], a Python [int] is
      a [Z];
    - code that can raise returns an [outcome]; [try ... except Exception]
      is written out where the source has it;
    - the interpreter and the [datetime] module are an interface,
      [PyRuntime], of which a reference instance is given;
    - the lines sent to the logger are part of the model for the validator,
      whose contract names them; elsewhere a log line appears only when
      building it can raise. *)

From Stdlib Require Import ZArith List Bool Lia PeanoNat.
From Stdlib Require Import Ascii String DecimalString.
From Stdlib Require DecimalNat DecimalFacts.
From Stdlib Require Import Floats.
Import ListNotations.

Local Open Scope string_scope.
Local Open Scope Z_scope.

Set Implicit Arguments.

(** ** Exceptions and outcomes *)

Inductive exn : Type :=
| TypeError
| AttributeError
| KeyError
| ValueError
| OverflowError
| ZeroDivisionError
| OSError
| UnicodeDecodeError
| JSONDecodeError.

Inductive outcome (A : Type) : Type :=
| Ret (a : A)
| Raise (e : exn).

Arguments Ret {A} a.
Arguments Raise {A} e.

Definition bind {A B : Type} (m : outcome A) (k : A -> outcome B) : outcome B :=
  match m with
  | Ret a => k a
  | Raise e => Raise e
  end.

Notation "x <- m ;; k" := (bind m (fun x => k))
  (at level 61, m at next level, right associativity).

(** [try: m except Exception as e: handler]. Every member of [exn] is a
    subclass of [Exception]. *)
Definition try_except {A : Type} (m : outcome A) (handler : exn -> outcome A) : outcome A :=
  match m with
  | Ret a => Ret a
  | Raise e => handler e
  end.

(** ** JSON values *)

#[warnings="-register-all"]
Inductive json : Type :=
| JNull
| JBool (b : bool)
| JInt (n : Z)
| JFloat (f : float)
| JStr (s : string)
| JList (l : list json)
| JDict (d : list (string * json)).

Definition pydict : Type := list (string * json).

(** [d.get(k)] and [k in d] on a dict. *)
Fixpoint dict_get (k : string) (d : pydict) : option json :=
  match d with
  | [] => None
  | (k', v) :: d' => if String.eqb k k' then Some v else dict_get k d'
  end.

Definition dict_mem (k : string) (d : pydict) : bool :=
  match dict_get k d with
  | Some _ => true
  | None => false
  end.

(** [d[k]] on a dict. *)
Definition dict_getitem (k : string) (d : pydict) : outcome json :=
  match dict_get k d with
  | Some v => Ret v
  | None => Raise KeyError
  end.

(** Truth value of a JSON value ([bool(x)]). *)
Definition truthy (v : json) : bool :=
  match v with
  | JNull => false
  | JBool b => b
  | JInt n => negb (n =? 0)
  | JFloat f => negb (PrimFloat.eqb f 0%float)
  | JStr s => negb (String.eqb s "")
  | JList l => match l with [] => false | _ => true end
  | JDict d => match d with [] => false | _ => true end
  end.

(** ** The flattener object *)

Record JSONFlattener : Type := {
  separator : string;
  max_depth : Z;
  required_keys : list string;
  transcript_schema : bool
}.

(** [JSONFlattener.__init__]. *)
Definition init (sep : string) (depth : Z) : JSONFlattener :=
  {| separator := sep;
     max_depth := depth;
     required_keys := ["id"; "metadata"];
     transcript_schema := true |}.

(** [JSONFlattener()] with the default arguments. *)
Definition default_flattener : JSONFlattener := init "_" 10.

(** ** Structural validator *)

(** The lines the validator sends to the logger: their level and what they
    report. *)
Inductive log_level : Type := INFO | WARNING | ERROR.

Inductive log_message : Type :=
| MissingRequiredKeys (missing_keys : list string)
| DocumentIdRequired
| MetadataMustBeDictionary
| DetectedTranscriptSchema
| TranscriptChunksMustBeList
| ChunkMustBeDictionary (i : nat)
| ChunkMissingFields (i : nat) (missing_chunk_fields : list string)
| ErrorValidating (e : exn).

Definition log_record : Type := log_level * log_message.

Definition required_chunk_fields : list string := ["speaker"; "start"; "end"; "text"].

(** One turn of the [for i, chunk in enumerate(...)] loop: [false] is the
    early [return False], [true] lets the loop go on. *)
Definition validate_chunk (i : nat) (chunk : json) : list log_record * bool :=
  match chunk with
  | JDict c =>
      match filter (fun field => negb (dict_mem field c)) required_chunk_fields with
      | [] => ([], true)
      | missing_chunk_fields => ([(ERROR, ChunkMissingFields i missing_chunk_fields)], false)
      end
  | _ => ([(ERROR, ChunkMustBeDictionary i)], false)
  end.

Fixpoint validate_chunks (i : nat) (chunks : list json) : list log_record * bool :=
  match chunks with
  | [] => ([], true)
  | chunk :: rest =>
      match validate_chunk i chunk with
      | (_, true) => validate_chunks (S i) rest
      | rejected => rejected
      end
  end.

(** [key in document] when [document] is a list: some element equals the
    string [key]. *)
Definition list_mem_str (key : string) (l : list json) : bool :=
  existsb (fun x => match x with JStr s => String.eqb s key | _ => false end) l.

(** [key in document] when [document] is a string: [key] occurs in it. *)
Definition str_contains (key s : string) : bool :=
  match String.index 0 key s with
  | Some _ => true
  | None => false
  end.

(** The body of the [try] of [validate_document_structure]: the lines it
    logs and how it ends. A dict goes through every check. A list or a
    string answers [key not in document] and, when it holds every required
    key, fails at [document.get]; any other value fails at
    [key not in document]. *)
Definition validate_body (self : JSONFlattener) (document : json)
  : list log_record * outcome bool :=
  match document with
  | JDict doc =>
      match filter (fun key => negb (dict_mem key doc)) (required_keys self) with
      | _ :: _ as missing_keys => ([(WARNING, MissingRequiredKeys missing_keys)], Ret false)
      | [] =>
          if negb (match dict_get "id" doc with Some v => truthy v | None => false end)
          then ([(ERROR, DocumentIdRequired)], Ret false)
          else
            let metadata := match dict_get "metadata" doc with
                            | Some m => m
                            | None => JDict []
                            end in
            match metadata with
            | JDict _ =>
                match dict_get "transcript_chunks" doc with
                | Some (JList chunks) =>
                    let (logs, valid) := validate_chunks 0 chunks in
                    ((INFO, DetectedTranscriptSchema) :: logs, Ret valid)
                | Some _ =>
                    ([(INFO, DetectedTranscriptSchema); (ERROR, TranscriptChunksMustBeList)],
                     Ret false)
                | None => ([], Ret true)
                end
            | _ => ([(ERROR, MetadataMustBeDictionary)], Ret false)
            end
      end
  | JList l =>
      match filter (fun key => negb (list_mem_str key l)) (required_keys self) with
      | _ :: _ as missing_keys => ([(WARNING, MissingRequiredKeys missing_keys)], Ret false)
      | [] => ([], Raise AttributeError)
      end
  | JStr s =>
      match filter (fun key => negb (str_contains key s)) (required_keys self) with
      | _ :: _ as missing_keys => ([(WARNING, MissingRequiredKeys missing_keys)], Ret false)
      | [] => ([], Raise AttributeError)
      end
  | JNull | JBool _ | JInt _ | JFloat _ => ([], Raise TypeError)
  end.

(** The whole call: the body, and the handler of [except Exception], which
    logs the exception and returns [False]. *)
Definition validate_run (self : JSONFlattener) (document : json)
  : list log_record * outcome bool :=
  let (logs, r) := validate_body self document in
  (match r with
   | Ret _ => logs
   | Raise e => (logs ++ [(ERROR, ErrorValidating e)])%list
   end,
   try_except r (fun _ => Ret false)).

(** [JSONFlattener.validate_document_structure]: what it returns, and what
    it logs. *)
Definition validate_document_structure (self : JSONFlattener) (document : json) : outcome bool :=
  snd (validate_run self document).

Definition validate_log (self : JSONFlattener) (document : json) : list log_record :=
  fst (validate_run self document).

(** ** Strings *)

(** [str(n)] for an int. *)
Definition str_of_Z (n : Z) : string := NilZero.string_of_int (Z.to_int n).

(** [str(i)] for an index of [enumerate]. *)
Definition str_of_nat (i : nat) : string := NilZero.string_of_uint (Nat.to_uint i).

Definition is_Z_char (c : ascii) : bool := Ascii.eqb c "Z"%char.

(** Removal of the trailing characters that satisfy [p]. *)
Fixpoint rstrip_chars (p : ascii -> bool) (s : string) : string :=
  match s with
  | EmptyString => EmptyString
  | String c s' =>
      match rstrip_chars p s' with
      | EmptyString => if p c then EmptyString else String c EmptyString
      | r => String c r
      end
  end.

(** [s.rstrip("Z")]: every trailing [Z] is removed. *)
Definition rstrip_Z (s : string) : string := rstrip_chars is_Z_char s.

(** [c.isspace()] on the Latin-1 range. *)
Definition isspace (c : ascii) : bool :=
  let n := N_of_ascii c in
  ((9 <=? n) && (n <=? 13) || (28 <=? n) && (n <=? 32) || (n =? 133) || (n =? 160))%N.

Fixpoint lstrip (s : string) : string :=
  match s with
  | EmptyString => EmptyString
  | String c s' => if isspace c then lstrip s' else s
  end.

Definition rstrip (s : string) : string := rstrip_chars isspace s.

(** [s.strip()]. *)
Definition strip (s : string) : string := rstrip (lstrip s).

(** [c.isalpha()] on the Latin-1 range. *)
Definition isalpha (c : ascii) : bool :=
  let n := N_of_ascii c in
  ((65 <=? n) && (n <=? 90) || (97 <=? n) && (n <=? 122)
   || (n =? 170) || (n =? 181) || (n =? 186)
   || (192 <=? n) && (n <=? 214) || (216 <=? n) && (n <=? 246) || (248 <=? n))%N.

(** [s.replace(a, b)] for one-character [a] and [b]. *)
Fixpoint replace_char (a b : ascii) (s : string) : string :=
  match s with
  | EmptyString => EmptyString
  | String c s' => String (if Ascii.eqb c a then b else c) (replace_char a b s')
  end.

Fixpoint join (sep : string) (l : list string) : string :=
  match l with
  | [] => ""
  | [x] => x
  | x :: rest => x ++ sep ++ join sep rest
  end.

(** ** Numbers *)

(** The numeric values of Python that JSON can hold. A [bool] is an [int]. *)
Inductive num : Type :=
| NInt (n : Z)
| NFloat (f : float).

Definition as_num (v : json) : option num :=
  match v with
  | JBool b => Some (NInt (if b then 1 else 0))
  | JInt n => Some (NInt n)
  | JFloat f => Some (NFloat f)
  | _ => None
  end.

(** ** The Python runtime

    What the flattener takes from the interpreter and from the [datetime]
    module is an interface: the text of a float and of a quoted string,
    [datetime.fromisoformat], [base + timedelta(seconds=x)] and
    [datetime.isoformat]. *)

Class PyRuntime : Type := {
  float_repr : float -> string;
  str_repr : string -> string;
  datetime : Type;
  fromisoformat : string -> outcome datetime;
  add_seconds : datetime -> num -> outcome datetime;
  isoformat : datetime -> string
}.

Section Flattener.

Context {RT : PyRuntime}.

(** [repr(v)] and [str(v)]. *)
Fixpoint py_repr (v : json) : string :=
  match v with
  | JNull => "None"
  | JBool b => if b then "True" else "False"
  | JInt n => str_of_Z n
  | JFloat f => float_repr f
  | JStr s => str_repr s
  | JList l => "[" ++ join ", " (map py_repr l) ++ "]"
  | JDict d =>
      "{" ++ join ", " (map (fun kv : string * json => let (k, x) := kv in
                                       str_repr k ++ ": " ++ py_repr x) d) ++ "}"
  end.

Definition py_str (v : json) : string :=
  match v with
  | JStr s => s
  | _ => py_repr v
  end.

(** ** Generic key flattener *)

(** [JSONFlattener._sanitize_key]. *)
Definition _sanitize_key (self : JSONFlattener) (key : string) : string :=
  let sanitized := (replace_char "." "_" (replace_char "-" "_" (replace_char " " "_" key)))%char in
  match sanitized with
  | String c _ =>
      if negb (isalpha c) && negb (Ascii.eqb c "_"%char) then "field_" ++ sanitized
      else sanitized
  | EmptyString => sanitized
  end.

(** [flattened[k] = v]: the binding of [k] is replaced where it stands, a
    new key goes to the end. *)
Fixpoint dict_set {V : Type} (k : string) (v : V) (d : list (string * V)) : list (string * V) :=
  match d with
  | [] => [(k, v)]
  | (k', v') :: d' =>
      if String.eqb k k' then (k, v) :: d' else (k', v') :: dict_set k v d'
  end.

(** The inner function [_flatten] of [flatten_json]; the dict [flattened]
    of the enclosing call is threaded through. *)
Fixpoint _flatten (self : JSONFlattener) (obj : json) (current_prefix : string)
    (depth : Z) (flattened : list (string * string)) {struct obj} : list (string * string) :=
  if depth >? max_depth self then flattened
  else
    match obj with
    | JDict d =>
        (fix items (d : list (string * json)) (flattened : list (string * string)) :=
           match d with
           | [] => flattened
           | (key, value) :: rest =>
               let sanitized_key := _sanitize_key self key in
               let new_key := if negb (String.eqb current_prefix "")
                              then current_prefix ++ sanitized_key
                              else sanitized_key in
               items rest (_flatten self value new_key (depth + 1) flattened)
           end) d flattened
    | JList l =>
        (fix elems (l : list json) (i : nat) (flattened : list (string * string)) :=
           match l with
           | [] => flattened
           | item :: rest =>
               let new_key := if negb (String.eqb current_prefix "")
                              then current_prefix ++ "[" ++ str_of_nat i ++ "]"
                              else "[" ++ str_of_nat i ++ "]" in
               elems rest (S i) (_flatten self item new_key (depth + 1) flattened)
           end) l 0%nat flattened
    | JNull => dict_set current_prefix "" flattened
    | _ => dict_set current_prefix (py_str obj) flattened
    end.

(** [JSONFlattener.flatten_json]. *)
Definition flatten_json (self : JSONFlattener) (nested_json : json) (prefix : string)
  : list (string * string) :=
  _flatten self nested_json prefix 0 [].

(** ** Transcript projector *)

(** [v[k]] for a string [k]. *)
Definition getitem (v : json) (k : string) : outcome json :=
  match v with
  | JDict d => dict_getitem k d
  | _ => Raise TypeError
  end.

(** [v.rstrip("Z")] and [v.strip()]: only a string has the method. *)
Definition method_rstrip_Z (v : json) : outcome string :=
  match v with
  | JStr s => Ret (rstrip_Z s)
  | _ => Raise AttributeError
  end.

Definition method_strip (v : json) : outcome string :=
  match v with
  | JStr s => Ret (strip s)
  | _ => Raise AttributeError
  end.

(** [(base + timedelta(seconds=x)).isoformat() + "Z"]. *)
Definition offset_isoformat (base : datetime) (x : json) : outcome string :=
  match as_num x with
  | Some n => d <- add_seconds base n ;; Ret (isoformat d ++ "Z")
  | None => Raise TypeError
  end.

(** The dict display of the document-level record; its items are
    evaluated in the order they are written. *)
Definition file_doc_of (raw meta : json) : outcome pydict :=
  id <- getitem raw "id" ;;
  transaction_key <- getitem meta "transaction_key" ;;
  request_id <- getitem meta "request_id" ;;
  sha256 <- getitem meta "sha256" ;;
  created <- getitem meta "created" ;;
  duration <- getitem meta "duration" ;;
  channels <- getitem meta "channels" ;;
  Filename <- getitem meta "Filename" ;;
  videolink <- getitem meta "videolink" ;;
  flattened_transcript <- getitem meta "flattened_transcript" ;;
  Ret [("@search.action", JStr "upload");
       ("id", id);
       ("transaction_key", transaction_key);
       ("request_id", request_id);
       ("sha256", sha256);
       ("created", created);
       ("duration", duration);
       ("channels", channels);
       ("Filename", Filename);
       ("videolink", videolink);
       ("flattened_transcript", flattened_transcript)].

(** The dict display of one chunk-level record. *)
Definition chunk_doc_of (raw meta : json) (base : datetime) (i : nat) (chunk : json)
  : outcome pydict :=
  start <- getitem chunk "start" ;;
  end_ <- getitem chunk "end" ;;
  id <- getitem raw "id" ;;
  parentDocId <- getitem raw "id" ;;
  transaction_key <- getitem meta "transaction_key" ;;
  request_id <- getitem meta "request_id" ;;
  sha256 <- getitem meta "sha256" ;;
  created <- getitem meta "created" ;;
  duration <- getitem meta "duration" ;;
  channels <- getitem meta "channels" ;;
  Filename <- getitem meta "Filename" ;;
  videolink <- getitem meta "videolink" ;;
  speaker <- getitem chunk "speaker" ;;
  start_at <- offset_isoformat base start ;;
  end_at <- offset_isoformat base end_ ;;
  text <- getitem chunk "text" ;;
  text <- method_strip text ;;
  Ret [("@search.action", JStr "upload");
       ("id", JStr (py_str id ++ "_" ++ str_of_nat i));
       ("parentDocId", parentDocId);
       ("transaction_key", transaction_key);
       ("request_id", request_id);
       ("sha256", sha256);
       ("created", created);
       ("duration", duration);
       ("channels", channels);
       ("Filename", Filename);
       ("videolink", videolink);
       ("speaker", speaker);
       ("start_offset", start);
       ("end_offset", end_);
       ("start_at", JStr start_at);
       ("end_at", JStr end_at);
       ("text", JStr text)].

(** The loop [for i, chunk in enumerate(raw["transcript_chunks"])], from
    index [i] on, appending to [docs]. *)
Fixpoint chunk_loop (raw meta : json) (base : datetime) (i : nat) (chunks : list json)
    (docs : list pydict) : outcome (list pydict) :=
  match chunks with
  | [] => Ret docs
  | chunk :: rest =>
      doc <- chunk_doc_of raw meta base i chunk ;;
      chunk_loop raw meta base (S i) rest (docs ++ [doc])
  end.

(** What [enumerate] iterates over. After validation the value of
    [transcript_chunks] is a list; the other cases are never reached. *)
Definition iterate (v : json) : outcome (list json) :=
  match v with
  | JList l => Ret l
  | _ => Raise TypeError
  end.

(** The body of the [try] of [flatten_for_ai_search]. *)
Definition flatten_body (self : JSONFlattener) (raw : json) : outcome (option (list pydict)) :=
  valid <- validate_document_structure self raw ;;
  if negb valid then Ret None
  else
    meta <- getitem raw "metadata" ;;
    created <- getitem meta "created" ;;
    stripped <- method_rstrip_Z created ;;
    base <- fromisoformat stripped ;;
    file_doc <- file_doc_of raw meta ;;
    chunks <- getitem raw "transcript_chunks" ;;
    chunks <- iterate chunks ;;
    docs <- chunk_loop raw meta base 0 chunks [file_doc] ;;
    Ret (Some docs).

(** [JSONFlattener.flatten_for_ai_search]. *)
Definition flatten_for_ai_search (self : JSONFlattener) (raw : json)
  : outcome (option (list pydict)) :=
  try_except (flatten_body self raw) (fun _ => Ret None).

(** ** Batch driver *)

(** A file as the driver sees it: what [json.load] gives when the file is
    opened as UTF-8 and when it is opened as Latin-1. A path that does not
    exist has no file. *)
Record file : Type := {
  load_utf8 : outcome json;
  load_latin1 : outcome json
}.

Definition filesystem : Type := string -> option file.

(** The inner [try ... except UnicodeDecodeError]. *)
Definition load_document (f : file) : outcome json :=
  match load_utf8 f with
  | Raise UnicodeDecodeError => load_latin1 f
  | r => r
  end.

(** The local variables of [batch_flatten_json]. *)
Record batch_state : Type := {
  flattened_documents : list pydict;
  processed_count : Z;
  error_count : Z
}.

Definition count_error (st : batch_state) : batch_state :=
  {| flattened_documents := flattened_documents st;
     processed_count := processed_count st;
     error_count := error_count st + 1 |}.

Definition count_processed (st : batch_state) (docs : list pydict) : batch_state :=
  {| flattened_documents := flattened_documents st ++ docs;
     processed_count := processed_count st + 1;
     error_count := error_count st |}.

(** One turn of the loop over [json_files]. *)
Definition process_file (self : JSONFlattener) (fs : filesystem) (validate_only : bool)
    (st : batch_state) (file_path : string) : batch_state :=
  let attempt :=
    match fs file_path with
    | None => Ret (count_error st)
    | Some f =>
        document_json <- load_document f ;;
        valid <- validate_document_structure self document_json ;;
        if negb valid then Ret (count_error st)
        else if validate_only then Ret (count_processed st [])
        else
          chunk_docs <- flatten_for_ai_search self document_json ;;
          match chunk_docs with
          | Some (doc :: docs) => Ret (count_processed st (doc :: docs))
          | Some [] | None => Ret (count_error st)
          end
    end in
  match attempt with
  | Ret st' => st'
  | Raise _ => count_error st
  end.

Definition batch_loop (self : JSONFlattener) (fs : filesystem) (validate_only : bool)
    (json_files : list string) : batch_state :=
  fold_left (process_file self fs validate_only) json_files
    {| flattened_documents := []; processed_count := 0; error_count := 0 |}.

(** [JSONFlattener.batch_flatten_json]. The success rate of the last log
    line is an int divided by an int. *)
Definition batch_flatten_json (self : JSONFlattener) (fs : filesystem)
    (json_files : list string) (validate_only : bool) : outcome (list pydict) :=
  let st := batch_loop self fs validate_only json_files in
  if processed_count st + error_count st =? 0 then Raise ZeroDivisionError
  else Ret (flattened_documents st).

End Flattener.

(** ** Arithmetic of Python numbers *)

(** [float(n)]: the nearest double, ties to even; an int beyond the range
    of a double raises. *)
Definition float_of_Z (n : Z) : outcome float :=
  let f := SF2Prim (binary_normalize prec emax n 0 false) in
  if PrimFloat.is_infinity f then Raise OverflowError else Ret f.

Definition float_of_num (a : num) : outcome float :=
  match a with
  | NInt n => float_of_Z n
  | NFloat f => Ret f
  end.

(** [a - b] and [a + b]: exact on two ints, in double precision as soon as
    one side is a float. *)
Definition num_sub (a b : num) : outcome num :=
  match a, b with
  | NInt x, NInt y => Ret (NInt (x - y))
  | _, _ => f <- float_of_num a ;; g <- float_of_num b ;; Ret (NFloat (f - g)%float)
  end.

Definition num_add (a b : num) : outcome num :=
  match a, b with
  | NInt x, NInt y => Ret (NInt (x + y))
  | _, _ => f <- float_of_num a ;; g <- float_of_num b ;; Ret (NFloat (f + g)%float)
  end.

(** [a / b] on two ints: the quotient rounded once to the nearest double.
    The quotient is computed with at least 64 significant bits and the
    position of the remainder against half a unit. *)
Definition int_truediv (a b : Z) : outcome float :=
  if b =? 0 then Raise ZeroDivisionError
  else if a =? 0 then Ret (if b <? 0 then (- 0)%float else 0%float)
  else
    let sign := xorb (a <? 0) (b <? 0) in
    let x := Z.abs a in
    let y := Z.abs b in
    let k := Z.max 0 (64 + Z.log2 y - Z.log2 x) in
    let q := Z.shiftl x k / y in
    let r := Z.shiftl x k mod y in
    let loc := if r =? 0 then loc_Exact else loc_Inexact (2 * r ?= y) in
    let f := SF2Prim (binary_round_aux prec emax sign q (- k) loc) in
    if PrimFloat.is_infinity f then Raise OverflowError else Ret f.

(** [a / b]. *)
Definition num_truediv (a b : num) : outcome float :=
  match a, b with
  | NInt x, NInt y => int_truediv x y
  | _, _ =>
      f <- float_of_num a ;;
      g <- float_of_num b ;;
      if PrimFloat.eqb g 0%float then Raise ZeroDivisionError else Ret (f / g)%float
  end.

(** [f == n] for a float and an int compares the exact values. *)
Definition float_eqb_Z (f : float) (n : Z) : bool :=
  match Prim2SF f with
  | S754_zero _ => n =? 0
  | S754_finite s m e =>
      let v := if s then Z.neg m else Z.pos m in
      if 0 <=? e then n =? v * 2 ^ e else n * 2 ^ (- e) =? v
  | _ => false
  end.

Definition num_eqb (a b : num) : bool :=
  match a, b with
  | NInt x, NInt y => x =? y
  | NFloat f, NFloat g => PrimFloat.eqb f g
  | NInt x, NFloat f | NFloat f, NInt x => float_eqb_Z f x
  end.

Definition json_of_num (a : num) : json :=
  match a with
  | NInt n => JInt n
  | NFloat f => JFloat f
  end.

(** [a == b] on hashable values. A NaN equals nothing, itself included:
    the identity of objects is not part of the model. *)
Definition py_eqb (a b : json) : bool :=
  match a, b with
  | JNull, JNull => true
  | JStr s, JStr t => String.eqb s t
  | _, _ =>
      match as_num a, as_num b with
      | Some x, Some y => num_eqb x y
      | _, _ => false
      end
  end.

(** ** Statistics *)

(** [doc.get(k, default)]. *)
Definition dict_get_default (k : string) (default : json) (doc : pydict) : json :=
  match dict_get k doc with
  | Some v => v
  | None => default
  end.

(** [len(v)]. *)
Definition py_len (v : json) : outcome Z :=
  match v with
  | JStr s => Ret (Z.of_nat (String.length s))
  | JList l => Ret (Z.of_nat (List.length l))
  | JDict d => Ret (Z.of_nat (List.length d))
  | _ => Raise TypeError
  end.

(** [sum(len(x) for x in l)]. *)
Fixpoint sum_len (l : list json) (acc : Z) : outcome Z :=
  match l with
  | [] => Ret acc
  | x :: rest => n <- py_len x ;; sum_len rest (acc + n)
  end.

(** [set(l)]: the distinct elements; a list or a dict cannot be hashed. *)
Fixpoint py_set (l : list json) (seen : list json) : outcome (list json) :=
  match l with
  | [] => Ret seen
  | x :: rest =>
      match x with
      | JList _ | JDict _ => Raise TypeError
      | _ => py_set rest (if existsb (py_eqb x) seen then seen else seen ++ [x])
      end
  end.

(** [v - w] on two values of a record: numbers only. *)
Definition py_sub (v w : json) : outcome num :=
  match as_num v, as_num w with
  | Some a, Some b => num_sub a b
  | _, _ => Raise TypeError
  end.

(** The loop that accumulates [total_duration]. *)
Fixpoint duration_loop (chunk_docs : list pydict) (total_duration : num) : outcome num :=
  match chunk_docs with
  | [] => Ret total_duration
  | doc :: rest =>
      let start := dict_get_default "start_offset" (JInt 0) doc in
      let end_ := dict_get_default "end_offset" (JInt 0) doc in
      d <- py_sub end_ start ;;
      total_duration <- num_add total_duration d ;;
      duration_loop rest total_duration
  end.

Definition list_len {A : Type} (l : list A) : Z := Z.of_nat (List.length l).

(** The body of the [try] of [get_document_statistics]. *)
Definition statistics_body (flat_documents : list pydict) : outcome pydict :=
  match flat_documents with
  | [] => Ret [("total_documents", JInt 0)]
  | _ =>
      let file_docs := filter (dict_mem "flattened_transcript") flat_documents in
      let chunk_docs := filter (dict_mem "parentDocId") flat_documents in
      parent_docs <- py_set (map (dict_get_default "parentDocId" (JStr "")) chunk_docs) [] ;;
      total_text_length <- sum_len (map (dict_get_default "text" (JStr "")) chunk_docs) 0 ;;
      speakers <- py_set (map (dict_get_default "speaker" (JStr "")) chunk_docs) [] ;;
      total_duration <- duration_loop chunk_docs (NInt 0) ;;
      avg_duration <- match chunk_docs with
                      | [] => Ret (NInt 0)
                      | _ => f <- num_truediv total_duration (NInt (list_len chunk_docs)) ;;
                             Ret (NFloat f)
                      end ;;
      Ret [("total_documents", JInt (list_len flat_documents));
           ("file_documents", JInt (list_len file_docs));
           ("chunk_documents", JInt (list_len chunk_docs));
           ("unique_parent_docs", JInt (list_len parent_docs));
           ("total_text_length", JInt total_text_length);
           ("unique_speakers", JInt (list_len speakers));
           ("avg_chunk_duration", json_of_num avg_duration);
           ("total_duration", json_of_num total_duration)]
  end.

(** [JSONFlattener.get_document_statistics]. *)
Definition get_document_statistics (flat_documents : list pydict) : outcome pydict :=
  try_except (statistics_body flat_documents) (fun _ => Ret []).

(** ** A reference runtime

    An executable instance of [PyRuntime], on which the flattener can be
    run: naive timestamps [YYYY-MM-DD], optionally followed by one
    separator character and [HH], [HH:MM], [HH:MM:SS], [HH:MM:SS.fff] or
    [HH:MM:SS.ffffff]; a timestamp is the number of microseconds since
    1970-01-01T00:00:00 and lies in the years 1 to 9999. *)

Module ReferenceRuntime.

(** *** Calendar *)

Definition days_from_civil (y m d : Z) : Z :=
  let y' := if m <=? 2 then y - 1 else y in
  let era := y' / 400 in
  let yoe := y' - era * 400 in
  let doy := (153 * (if 2 <? m then m - 3 else m + 9) + 2) / 5 + d - 1 in
  let doe := yoe * 365 + yoe / 4 - yoe / 100 + doy in
  era * 146097 + doe - 719468.

Definition civil_from_days (z : Z) : Z * Z * Z :=
  let z := z + 719468 in
  let era := z / 146097 in
  let doe := z - era * 146097 in
  let yoe := (doe - doe / 1460 + doe / 36524 - doe / 146096) / 365 in
  let doy := doe - (365 * yoe + yoe / 4 - yoe / 100) in
  let mp := (5 * doy + 2) / 153 in
  let d := doy - (153 * mp + 2) / 5 + 1 in
  let m := if mp <? 10 then mp + 3 else mp - 9 in
  (yoe + era * 400 + (if m <=? 2 then 1 else 0), m, d).

Definition is_leap (y : Z) : bool :=
  (y mod 4 =? 0) && (negb (y mod 100 =? 0) || (y mod 400 =? 0)).

Definition days_in_month (y m : Z) : Z :=
  if m =? 2 then (if is_leap y then 29 else 28)
  else if (m =? 4) || (m =? 6) || (m =? 9) || (m =? 11) then 30
  else 31.

Definition us_per_second : Z := 1000000.
Definition us_per_day : Z := 86400 * us_per_second.

Definition min_datetime : Z := days_from_civil 1 1 1 * us_per_day.
Definition max_datetime : Z := days_from_civil 10000 1 1 * us_per_day - 1.

(** [timedelta.max] is 999999999 days, 23:59:59.999999. *)
Definition max_timedelta : Z := 1000000000 * us_per_day - 1.
Definition min_timedelta : Z := - (999999999 * us_per_day).

(** *** Reading a timestamp *)

Definition digit_of (c : ascii) : option Z :=
  let n := Z.of_N (N_of_ascii c) in
  if (48 <=? n) && (n <=? 57) then Some (n - 48) else None.

Fixpoint number_of (s : string) (acc : Z) : option Z :=
  match s with
  | EmptyString => Some acc
  | String c s' =>
      match digit_of c with
      | Some d => number_of s' (10 * acc + d)
      | None => None
      end
  end.

(** The number written by the [len] digits of [s] from position [pos]. *)
Definition field (s : string) (pos len : nat) : option Z :=
  let t := substring pos len s in
  if Nat.eqb (String.length t) len then number_of t 0 else None.

Definition char_is (s : string) (pos : nat) (c : ascii) : bool :=
  match get pos s with
  | Some c' => Ascii.eqb c c'
  | None => false
  end.

Definition parse_date (s : string) : option Z :=
  match field s 0 4, field s 5 2, field s 8 2 with
  | Some y, Some m, Some d =>
      if char_is s 4 "-" && char_is s 7 "-"
         && (1 <=? y) && (1 <=? m) && (m <=? 12) && (1 <=? d) && (d <=? days_in_month y m)
      then Some (days_from_civil y m d)
      else None
  | _, _, _ => None
  end.

(** The time of day in microseconds, from the text after the separator. *)
Definition parse_time (t : string) : option Z :=
  let n := String.length t in
  let hh := field t 0 2 in
  let mm := if Nat.leb 5 n then (if char_is t 2 ":" then field t 3 2 else None) else Some 0 in
  let ss := if Nat.leb 8 n then (if char_is t 5 ":" then field t 6 2 else None) else Some 0 in
  let us := if Nat.eqb n 12 then
              (if char_is t 8 "." then option_map (Z.mul 1000) (field t 9 3) else None)
            else if Nat.eqb n 15 then
              (if char_is t 8 "." then field t 9 6 else None)
            else Some 0 in
  if Nat.eqb n 2 || Nat.eqb n 5 || Nat.eqb n 8 || Nat.eqb n 12 || Nat.eqb n 15 then
    match hh, mm, ss, us with
    | Some h, Some m, Some s, Some u =>
        if (h <? 24) && (m <? 60) && (s <? 60)
        then Some (((h * 60 + m) * 60 + s) * us_per_second + u)
        else None
    | _, _, _, _ => None
    end
  else None.

Definition fromisoformat (s : string) : outcome Z :=
  let n := String.length s in
  let time := if Nat.eqb n 10 then Some 0
              else if Nat.leb 12 n then parse_time (substring 11 (n - 11) s)
              else None in
  match parse_date (substring 0 10 s), time with
  | Some days, Some us => Ret (days * us_per_day + us)
  | _, _ => Raise ValueError
  end.

(** *** Adding seconds *)

(** The nearest integer to [n / d], ties to even, for [d > 0]. *)
Definition round_half_even (n d : Z) : Z :=
  let q := n / d in
  let r := n mod d in
  match 2 * r ?= d with
  | Lt => q
  | Gt => q + 1
  | Eq => if Z.even q then q else q + 1
  end.

(** The exact value of a finite float, as a fraction whose denominator is
    a power of two. *)
Definition exact_value (f : float) : Z * Z :=
  match Prim2SF f with
  | S754_finite s m e =>
      let v := if s then Z.neg m else Z.pos m in
      if 0 <=? e then (v * 2 ^ e, 1) else (v, 2 ^ (- e))
  | _ => (0, 1)
  end.

(** [timedelta(seconds=x)] in microseconds. For a float the whole seconds
    are taken exactly; the fraction is multiplied by a million in double
    precision and the product is rounded to the nearest integer, ties to
    even. *)
Definition timedelta_seconds (x : num) : outcome Z :=
  let check us := if (min_timedelta <=? us) && (us <=? max_timedelta)
                  then Ret us else Raise OverflowError in
  match x with
  | NInt n => check (n * us_per_second)
  | NFloat f =>
      match Prim2SF f with
      | S754_nan => Raise ValueError
      | S754_infinity _ => Raise OverflowError
      | _ =>
          let (n, d) := exact_value f in
          let whole := Z.quot n d in
          let fraction := (f - SF2Prim (binary_normalize prec emax whole 0 false))%float in
          let (n', d') := exact_value (fraction * 1000000)%float in
          check (whole * us_per_second + round_half_even n' d')
      end
  end.

Definition add_seconds (base : Z) (x : num) : outcome Z :=
  delta <- timedelta_seconds x ;;
  let t := base + delta in
  if (min_datetime <=? t) && (t <=? max_datetime) then Ret t else Raise OverflowError.

(** *** Writing a timestamp *)

(** [n] in decimal on at least [width] digits, for [n >= 0]. *)
Definition zero_pad (width : nat) (n : Z) : string :=
  let s := str_of_Z n in
  String.concat "" (repeat "0" (width - String.length s)) ++ s.

Definition isoformat (t : Z) : string :=
  let days := t / us_per_day in
  let rest := t mod us_per_day in
  let '(y, m, d) := civil_from_days days in
  let secs := rest / us_per_second in
  let us := rest mod us_per_second in
  zero_pad 4 y ++ "-" ++ zero_pad 2 m ++ "-" ++ zero_pad 2 d ++ "T"
  ++ zero_pad 2 (secs / 3600) ++ ":" ++ zero_pad 2 (secs / 60 mod 60) ++ ":"
  ++ zero_pad 2 (secs mod 60)
  ++ (if us =? 0 then "" else "." ++ zero_pad 6 us).

(** *** The text of a float

    [repr(x)]: the shortest decimal that reads back as [x], the closest to
    [x] among those, written in positional notation when the decimal point
    falls within the digits or at most sixteen places after, or at most
    three zeros before them, and with an exponent otherwise. *)

Definition pow10 (k : Z) : Z := 10 ^ k.

(** [n / d < 10 ^ k]. *)
Definition below_pow10 (n d k : Z) : bool :=
  if 0 <=? k then n <? pow10 k * d else n * pow10 (- k) <? d.

(** The [k] with [10 ^ (k - 1) <= n / d < 10 ^ k], for [n, d > 0]. *)
Definition decimal_point (n d : Z) : Z :=
  let k0 := (Z.log2 n - Z.log2 d) * 30103 / 100000 in
  match filter (below_pow10 n d) [k0 - 1; k0; k0 + 1; k0 + 2; k0 + 3] with
  | k :: _ => k
  | [] => k0 + 4
  end.

(** Whether the decimal [c * 10 ^ p] reads back as the float [x]. *)
Definition reads_back (x : float) (c p : Z) : bool :=
  match (if 0 <=? p then int_truediv (c * pow10 p) 1 else int_truediv c (pow10 (- p))) with
  | Ret y => PrimFloat.eqb x y
  | Raise _ => false
  end.

(** The candidates with [digits] significant digits for [n / d], the
    closer first. *)
Definition candidates (n d k digits : Z) : list Z :=
  let p := digits - k in
  let a := if 0 <=? p then n * pow10 p else n in
  let b := if 0 <=? p then d else d * pow10 (- p) in
  let lo := a / b in
  match 2 * (a mod b) ?= b with
  | Lt => [lo; lo + 1]
  | Gt => [lo + 1; lo]
  | Eq => if Z.even lo then [lo; lo + 1] else [lo + 1; lo]
  end.

Fixpoint shortest (x : float) (n d k : Z) (digits : list Z) : Z * Z :=
  match digits with
  | [] => (0, 0)
  | g :: rest =>
      match filter (fun c => reads_back x c (k - g)) (candidates n d k g) with
      | c :: _ => (c, k - g)
      | [] => shortest x n d k rest
      end
  end.

(** Trailing zeros of the digits move into the exponent. *)
Fixpoint strip_zeros (fuel : nat) (c p : Z) : Z * Z :=
  match fuel with
  | O => (c, p)
  | S fuel' => if (c mod 10 =? 0) && negb (c =? 0) then strip_zeros fuel' (c / 10) (p + 1) else (c, p)
  end.

Definition zeros (n : Z) : string := String.concat "" (repeat "0" (Z.to_nat n)).

Definition format_digits (ds : string) (decpt : Z) : string :=
  let nd := Z.of_nat (String.length ds) in
  if (16 <? decpt) || (decpt <? -3) then
    let e := decpt - 1 in
    substring 0 1 ds
    ++ (if 1 <? nd then "." ++ substring 1 (String.length ds - 1) ds else "")
    ++ "e" ++ (if e <? 0 then "-" else "+") ++ zero_pad 2 (Z.abs e)
  else if decpt <=? 0 then "0." ++ zeros (- decpt) ++ ds
  else if nd <=? decpt then ds ++ zeros (decpt - nd) ++ ".0"
  else substring 0 (Z.to_nat decpt) ds ++ "."
       ++ substring (Z.to_nat decpt) (String.length ds - Z.to_nat decpt) ds.

Definition float_repr (x : float) : string :=
  match Prim2SF x with
  | S754_nan => "nan"
  | S754_infinity s => if s then "-inf" else "inf"
  | S754_zero s => if s then "-0.0" else "0.0"
  | S754_finite s m e =>
      let n := if 0 <=? e then Z.pos m * 2 ^ e else Z.pos m in
      let d := if 0 <=? e then 1 else 2 ^ (- e) in
      let k := decimal_point n d in
      let '(c, p) := shortest (PrimFloat.abs x) n d k
                       [1; 2; 3; 4; 5; 6; 7; 8; 9; 10; 11; 12; 13; 14; 15; 16; 17] in
      let '(c, p) := strip_zeros 17 c p in
      let ds := str_of_Z c in
      (if s then "-" else "") ++ format_digits ds (p + Z.of_nat (String.length ds))
  end.

(** *** The text of a quoted string

    [repr(s)]: single quotes, or double quotes when [s] holds a single
    quote and no double quote; the quote, the backslash and the characters
    that do not print are escaped. *)

Fixpoint has_char (c : ascii) (s : string) : bool :=
  match s with
  | EmptyString => false
  | String c' s' => Ascii.eqb c c' || has_char c s'
  end.

Definition hex_digit (n : N) : ascii :=
  ascii_of_N (if (n <? 10)%N then 48 + n else 87 + n).

Definition escape (quote c : ascii) : string :=
  let n := N_of_ascii c in
  if Ascii.eqb c quote || Ascii.eqb c "\" then String "\" (String c "")
  else if (n =? 9)%N then "\t"
  else if (n =? 10)%N then "\n"
  else if (n =? 13)%N then "\r"
  else if (n <? 32)%N || (127 <=? n)%N && (n <=? 160)%N || (n =? 173)%N
  then String "\" (String "x" (String (hex_digit (n / 16)) (String (hex_digit (n mod 16)) "")))
  else String c "".

Fixpoint escape_all (quote : ascii) (s : string) : string :=
  match s with
  | EmptyString => ""
  | String c s' => escape quote c ++ escape_all quote s'
  end.

Definition double_quote : ascii := ascii_of_N 34.

Definition str_repr (s : string) : string :=
  let quote := if has_char "'" s && negb (has_char double_quote s)
               then double_quote else "'"%char in
  String quote (escape_all quote s ++ String quote "").

End ReferenceRuntime.

(** The reference runtime as an instance of the interface. *)
#[export] Instance reference_runtime : PyRuntime := {|
  float_repr := ReferenceRuntime.float_repr;
  str_repr := ReferenceRuntime.str_repr;
  datetime := Z;
  fromisoformat := ReferenceRuntime.fromisoformat;
  add_seconds := ReferenceRuntime.add_seconds;
  isoformat := ReferenceRuntime.isoformat
|}.

(** ** The input of the projector *)

(** The parts of a document, for the statements below. *)
Definition document_field (k : string) (raw : json) : option json :=
  match raw with
  | JDict d => dict_get k d
  | _ => None
  end.

Definition document_metadata (raw : json) : pydict :=
  match document_field "metadata" raw with
  | Some (JDict m) => m
  | _ => []
  end.

Definition document_chunks (raw : json) : list json :=
  match document_field "transcript_chunks" raw with
  | Some (JList chunks) => chunks
  | _ => []
  end.

Section DocumentShape.

Context {RT : PyRuntime}.

Definition metadata_fields : list string :=
  ["transaction_key"; "request_id"; "sha256"; "created"; "duration"; "channels";
   "Filename"; "videolink"; "flattened_transcript"].

(** The timestamp that [metadata.created] denotes. *)
Definition created_timestamp (m : pydict) : option datetime :=
  match dict_get "created" m with
  | Some (JStr s) =>
      match fromisoformat (rstrip_Z s) with
      | Ret base => Some base
      | Raise _ => None
      end
  | _ => None
  end.

Definition is_seconds (v : json) : bool :=
  match as_num v with
  | Some _ => true
  | None => false
  end.

Definition is_chunk (chunk : json) : bool :=
  match chunk with
  | JDict c =>
      dict_mem "speaker" c
      && match dict_get "start" c, dict_get "end" c, dict_get "text" c with
         | Some s, Some e, Some (JStr _) => is_seconds s && is_seconds e
         | _, _, _ => false
         end
  | _ => false
  end.

(** The shape of a raw transcript document: a string [id]; a dict
    [metadata] with its nine fields, of which [created] is a string that
    [fromisoformat] reads once its trailing [Z] is removed; a list
    [transcript_chunks] of dicts with [speaker], with numbers [start] and
    [end], and with a string [text]. *)
Definition is_raw_transcript_document (raw : json) : bool :=
  match raw with
  | JDict d =>
      match dict_get "id" d, dict_get "metadata" d, dict_get "transcript_chunks" d with
      | Some (JStr _), Some (JDict m), Some (JList chunks) =>
          forallb (fun k => dict_mem k m) metadata_fields
          && match created_timestamp m with
             | Some _ => forallb is_chunk chunks
             | None => false
             end
      | _, _, _ => false
      end
  | _ => false
  end.

(** The offset [v] can be added to [base]: [timedelta] takes it and the
    sum is a timestamp. *)
Definition is_offset (base : datetime) (v : json) : bool :=
  match offset_isoformat base v with
  | Ret _ => true
  | Raise _ => false
  end.

Definition chunk_in_range (base : datetime) (chunk : json) : bool :=
  match document_field "start" chunk, document_field "end" chunk with
  | Some s, Some e => is_offset base s && is_offset base e
  | _, _ => false
  end.

(** Every chunk starts and ends at a timestamp. *)
Definition offsets_in_range (raw : json) : bool :=
  match created_timestamp (document_metadata raw) with
  | Some base => forallb (chunk_in_range base) (document_chunks raw)
  | None => false
  end.

End DocumentShape.

(** [raw] with [metadata.created] set to the string [s]. *)
Definition with_created (s : string) (raw : json) : json :=
  match raw with
  | JDict d =>
      match dict_get "metadata" d with
      | Some (JDict m) => JDict (dict_set "metadata" (JDict (dict_set "created" (JStr s) m)) d)
      | _ => raw
      end
  | _ => raw
  end.

(** The fields [start_at] and [end_at] of the records of an output. *)
Definition timing (r : outcome (option (list pydict)))
  : option (list (option json * option json)) :=
  match r with
  | Ret (Some docs) => Some (map (fun doc => (dict_get "start_at" doc, dict_get "end_at" doc)) docs)
  | _ => None
  end.

(** Two runs that raise together or return related values. *)
Definition outcome_rel {A : Type} (R : A -> A -> Prop) (x y : outcome A) : Prop :=
  match x, y with
  | Ret a, Ret b => R a b
  | Raise _, Raise _ => True
  | _, _ => False
  end.

(** Two records with the same [start_at] and the same [end_at]. *)
Definition same_timing (a b : pydict) : Prop :=
  dict_get "start_at" a = dict_get "start_at" b
  /\ dict_get "end_at" a = dict_get "end_at" b.

(** ** The input of the batch driver *)

Section BatchInput.

Context {RT : PyRuntime}.

Variables (self : JSONFlattener) (fs : filesystem).

(** A well-formed file: it exists, loads, and the projector gives [docs]
    for its document. *)
Definition well_formed_file (path : string) (docs : list pydict) : Prop :=
  exists f document,
    fs path = Some f
    /\ load_document f = Ret document
    /\ flatten_for_ai_search self document = Ret (Some docs).

(** A malformed file: it does not exist, or it does not load, or its
    document is rejected by the validator, or the projector gives [None]
    for it. *)
Inductive malformed_file (path : string) : Prop :=
| file_not_found : fs path = None -> malformed_file path
| file_not_loaded f e :
    fs path = Some f -> load_document f = Raise e -> malformed_file path
| file_not_valid f document :
    fs path = Some f -> load_document f = Ret document ->
    validate_document_structure self document = Ret false -> malformed_file path
| file_not_flattened f document :
    fs path = Some f -> load_document f = Ret document ->
    flatten_for_ai_search self document = Ret None -> malformed_file path.

(** The records the projector gives for the document of a file, none when
    there is no such document or no such records. *)
Definition file_records (path : string) : list pydict :=
  match fs path with
  | Some f =>
      match load_document f with
      | Ret document =>
          match flatten_for_ai_search self document with
          | Ret (Some docs) => docs
          | _ => []
          end
      | Raise _ => []
      end
  | None => []
  end.

End BatchInput.

(** ** The input of the statistics *)

(** A document-level record and a chunk-level record as the projector
    builds them, the latter with given offsets. *)
Definition is_file_record (doc : pydict) : Prop :=
  dict_mem "flattened_transcript" doc = true /\ dict_mem "parentDocId" doc = false.

Definition is_chunk_record (doc : pydict) (start end_ : json) : Prop :=
  dict_mem "flattened_transcript" doc = false
  /\ (exists parent, dict_get "parentDocId" doc = Some (JStr parent))
  /\ (exists speaker, dict_get "speaker" doc = Some (JInt speaker))
  /\ (exists text, dict_get "text" doc = Some (JStr text))
  /\ dict_get "start_offset" doc = Some start
  /\ dict_get "end_offset" doc = Some end_.

(** The number [n] of seconds, as an int or as the float of that value. *)
Definition seconds (n : Z) (v : json) : Prop :=
  v = JInt n \/ exists f, float_of_Z n = Ret f /\ v = JFloat f.

(** ** Sample inputs *)

Definition sample_metadata (created : string) : pydict :=
  [("transaction_key", JStr "tk-204"); ("request_id", JStr "req-9"); ("sha256", JStr "9f2c");
   ("created", JStr created); ("duration", JFloat 12.5); ("channels", JInt 1);
   ("Filename", JStr "call.wav"); ("videolink", JStr "https://example.org/v/17");
   ("flattened_transcript", JStr "hello there general")].

Definition sample_chunks : list json :=
  [JDict [("speaker", JInt 0); ("start", JInt 0); ("end", JInt 5); ("text", JStr " hello there ")];
   JDict [("speaker", JInt 1); ("start", JFloat 5); ("end", JFloat 12.5); ("text", JStr "general")]].

Definition sample_document_with (metadata : pydict) : json :=
  JDict [("id", JStr "call-17"); ("metadata", JDict metadata);
         ("transcript_chunks", JList sample_chunks)].

(** A transcript created in 2024. *)
Definition sample_document : json :=
  sample_document_with (sample_metadata "2024-01-01T10:00:00Z").

(** The same transcript with one more field in its metadata. *)
Definition sample_document_extra : json :=
  sample_document_with (sample_metadata "2024-01-01T10:00:00Z" ++ [("extra", JInt 1)])%list.

(** The same transcript created in the last seconds of the year 9999. *)
Definition sample_document_late : json :=
  sample_document_with (sample_metadata "9999-12-31T23:59:59").

(** A transcript one of whose chunks has [null] for text. *)
Definition sample_document_null_text : json :=
  JDict [("id", JStr "call-19");
         ("metadata", JDict (sample_metadata "2024-01-01T10:00:00Z"));
         ("transcript_chunks",
          JList [JDict [("speaker", JInt 0); ("start", JInt 0); ("end", JInt 5);
                        ("text", JNull)]])].

(** The records of [sample_document] on the reference runtime. *)
Definition sample_records : list pydict :=
  Eval vm_compute in
    match flatten_for_ai_search default_flattener sample_document with
    | Ret (Some docs) => docs
    | _ => []
    end.

(** A directory with the sample transcript, a document without
    [metadata], and a file that is not JSON. *)
Definition sample_files : filesystem :=
  fun path =>
    if String.eqb path "good.json"
    then Some {| load_utf8 := Ret sample_document; load_latin1 := Ret sample_document |}
    else if String.eqb path "bad.json"
    then Some {| load_utf8 := Ret (JDict [("id", JStr "call-18")]);
                 load_latin1 := Ret (JDict [("id", JStr "call-18")]) |}
    else if String.eqb path "broken.json"
    then Some {| load_utf8 := Raise JSONDecodeError; load_latin1 := Raise JSONDecodeError |}
    else None.

(** One document-level record and two chunk-level records, from 0 to 5 and
    from 5 to 12 seconds, the first with ints and the second with floats. *)
Definition fixture_file : pydict :=
  [("id", JStr "call-17"); ("flattened_transcript", JStr "hello there general")].

Definition fixture_chunk (i : string) (speaker : Z) (start end_ : json) (text : string) : pydict :=
  [("id", JStr i); ("parentDocId", JStr "call-17"); ("speaker", JInt speaker);
   ("start_offset", start); ("end_offset", end_); ("text", JStr text)].

Definition fixture : list pydict :=
  [fixture_file;
   fixture_chunk "call-17_0" 0 (JInt 0) (JInt 5) "hello there";
   fixture_chunk "call-17_1" 1 (JFloat 5) (JFloat 12) "general"].

(** ** Further operations of the flattener *)

(** [key in v] for a string [key]. *)
Definition py_contains (key : string) (v : json) : outcome bool :=
  match v with
  | JDict d => Ret (dict_mem key d)
  | JList l => Ret (list_mem_str key l)
  | JStr s => Ret (str_contains key s)
  | JNull | JBool _ | JInt _ | JFloat _ => Raise TypeError
  end.

(** *** [extract_transcript_content] *)

(** The first [if] of [extract_transcript_content]: what it appends to
    [content_parts]. *)
Definition flattened_part (document : json) : outcome (list string) :=
  has_metadata <- py_contains "metadata" document ;;
  if has_metadata then
    metadata <- getitem document "metadata" ;;
    has_flattened <- py_contains "flattened_transcript" metadata ;;
    if has_flattened then
      metadata <- getitem document "metadata" ;;
      flattened <- getitem metadata "flattened_transcript" ;;
      match flattened with
      | JStr s => if negb (String.eqb (strip s) "") then Ret [s] else Ret []
      | _ => Ret []
      end
    else Ret []
  else Ret [].

(** The loop [for chunk in chunks], appending to [content_parts]. *)
Fixpoint chunk_parts (chunks : list json) (content_parts : list string)
  : outcome (list string) :=
  match chunks with
  | [] => Ret content_parts
  | chunk :: rest =>
      match chunk with
      | JDict c =>
          if dict_mem "text" c then
            text <- dict_getitem "text" c ;;
            text <- method_strip text ;;
            chunk_parts rest (if negb (String.eqb text "")
                              then (content_parts ++ [text])%list
                              else content_parts)
          else chunk_parts rest content_parts
      | _ => chunk_parts rest content_parts
      end
  end.

(** The body of the [try] of [extract_transcript_content]. *)
Definition extract_body (document : json) : outcome string :=
  content_parts <- flattened_part document ;;
  has_chunks <- py_contains "transcript_chunks" document ;;
  content_parts <-
    (if has_chunks then
       chunks <- getitem document "transcript_chunks" ;;
       match chunks with
       | JList l => chunk_parts l content_parts
       | _ => Ret content_parts
       end
     else Ret content_parts) ;;
  let full_content := join " " content_parts in
  if String.eqb (strip full_content) "" then Ret "" else Ret full_content.

(** [JSONFlattener.extract_transcript_content]. *)
Definition extract_transcript_content (document : json) : outcome string :=
  try_except (extract_body document) (fun _ => Ret "").

(** *** [validate_flattened_document] *)

Definition common_fields : list string :=
  ["@search.action"; "id"; "transaction_key"; "request_id"; "sha256"; "created";
   "duration"; "channels"; "Filename"; "videolink"].

Definition chunk_fields : list string :=
  ["parentDocId"; "speaker"; "start_offset"; "end_offset"; "start_at"; "end_at"; "text"].

(** [isinstance(v, str)] and [isinstance(v, (int, float))]; a [bool] is an
    [int]. *)
Definition is_str (v : json) : bool :=
  match v with
  | JStr _ => true
  | _ => false
  end.

Definition is_numeric (v : json) : bool :=
  match v with
  | JBool _ | JInt _ | JFloat _ => true
  | _ => false
  end.

(** The checks of a chunk-level record. *)
Definition validate_chunk_fields (flat_document : pydict) : outcome bool :=
  if negb (forallb (fun field => dict_mem field flat_document) chunk_fields) then Ret false
  else
    text <- dict_getitem "text" flat_document ;;
    if negb (is_str text) then Ret false
    else
      start_offset <- dict_getitem "start_offset" flat_document ;;
      if negb (is_numeric start_offset) then Ret false
      else
        end_offset <- dict_getitem "end_offset" flat_document ;;
        if negb (is_numeric end_offset) then Ret false
        else
          speaker <- dict_getitem "speaker" flat_document ;;
          if negb (is_numeric speaker) then Ret false else Ret true.

(** The body of the [try] of [validate_flattened_document]. *)
Definition validate_flattened_body (flat_document : pydict) : outcome bool :=
  let is_file_doc := dict_mem "flattened_transcript" flat_document in
  let is_chunk_doc := dict_mem "parentDocId" flat_document in
  if negb (forallb (fun field => dict_mem field flat_document) common_fields) then Ret false
  else
    id <- dict_getitem "id" flat_document ;;
    if negb (is_str id) || negb (truthy id) then Ret false
    else
      file_ok <-
        (if is_file_doc then
           if negb (dict_mem "flattened_transcript" flat_document) then Ret false
           else
             flattened_transcript <- dict_getitem "flattened_transcript" flat_document ;;
             Ret (is_str flattened_transcript)
         else Ret true) ;;
      if negb file_ok then Ret false
      else if is_chunk_doc then validate_chunk_fields flat_document
      else Ret true.

(** [JSONFlattener.validate_flattened_document]. *)
Definition validate_flattened_document (flat_document : pydict) : outcome bool :=
  try_except (validate_flattened_body flat_document) (fun _ => Ret false).

(** *** [get_flattened_key_mapping] *)

(** [s.replace(old, new)]: the occurrences of [old] are replaced from left
    to right; [skip] is the number of characters of the occurrence under
    way that are still to pass. *)
Fixpoint str_replace_from (old new : string) (skip : nat) (s : string) : string :=
  match s with
  | EmptyString => EmptyString
  | String c s' =>
      match skip with
      | S n => str_replace_from old new n s'
      | O =>
          if String.prefix old s
          then new ++ str_replace_from old new (String.length old - 1) s'
          else String c (str_replace_from old new 0 s')
      end
  end.

(** For a non-empty [old]. *)
Definition str_replace (old new s : string) : string := str_replace_from old new 0 s.

Definition known_keys : list string :=
  ["@search.action"; "id"; "parentDocId"; "transaction_key"; "request_id"; "sha256";
   "created"; "duration"; "channels"; "Filename"; "videolink"; "flattened_transcript";
   "speaker"; "start_offset"; "end_offset"; "start_at"; "end_at"; "text"].

(** The key of the original structure that a flat key stands for. *)
Definition original_key_of (flat_key : string) : string :=
  if String.prefix "metadata_" flat_key then str_replace "metadata_" "metadata." flat_key
  else if String.prefix "source_" flat_key then str_replace "source_" "source." flat_key
  else if String.prefix "timestamp_" flat_key then str_replace "timestamp_" "timestamp." flat_key
  else flat_key.

(** The loop [for flat_key in doc.keys()] and the loop [for doc in flattened]
    around it. *)
Definition map_keys (mapping : list (string * string)) (doc : pydict) : list (string * string) :=
  fold_left
    (fun mapping flat_key =>
       if negb (existsb (String.eqb flat_key) known_keys)
       then dict_set flat_key (original_key_of flat_key) mapping
       else mapping)
    (map fst doc) mapping.

Section KeyMapping.

Context {RT : PyRuntime}.

(** The body of the [try] of [get_flattened_key_mapping]. *)
Definition key_mapping_body (self : JSONFlattener) (original_json : json)
  : outcome (list (string * string)) :=
  flattened <- flatten_for_ai_search self original_json ;;
  match flattened with
  | None | Some [] => Ret []
  | Some docs => Ret (fold_left map_keys docs [])
  end.

(** [JSONFlattener.get_flattened_key_mapping]. *)
Definition get_flattened_key_mapping (self : JSONFlattener) (original_json : json)
  : outcome (list (string * string)) :=
  try_except (key_mapping_body self original_json) (fun _ => Ret []).

End KeyMapping.

(** ** Notions of the further properties *)

(** A chunk the validator lets through: a dict with the four fields. *)
Definition chunk_accepted (chunk : json) : Prop :=
  exists c, chunk = JDict c
            /\ forall field, In field required_chunk_fields -> dict_mem field c = true.

Definition is_info (r : log_record) : bool :=
  match fst r with
  | INFO => true
  | _ => false
  end.

(** What the loop over the chunks reports about the chunk at index [i]. *)
Definition chunk_fault (i : nat) (chunk : json) : log_message :=
  match chunk with
  | JDict c =>
      ChunkMissingFields i (filter (fun field => negb (dict_mem field c)) required_chunk_fields)
  | _ => ChunkMustBeDictionary i
  end.

Definition one_fault (logs : list log_record) : Prop :=
  exists info fault,
    logs = (info ++ [fault])%list /\ forallb is_info info = true /\ is_info fault = false.

(** [c in s] for a character [c]. *)
Fixpoint char_in (c : ascii) (s : string) : bool :=
  match s with
  | EmptyString => false
  | String c' s' => Ascii.eqb c' c || char_in c s'
  end.

(** The values that [_flatten] writes: neither a dict nor a list. *)
Definition is_scalar (v : json) : bool :=
  match v with
  | JList _ | JDict _ => false
  | _ => true
  end.

(** [v] under the keys [keys], the outermost first. *)
Fixpoint nest (keys : list string) (v : json) : json :=
  match keys with
  | [] => v
  | key :: rest => JDict [(key, nest rest v)]
  end.

(** What [_flatten] writes for a scalar: [""] for [None], [str(v)] otherwise. *)
Definition scalar_text {RT : PyRuntime} (v : json) : string :=
  match v with
  | JNull => ""
  | _ => py_str v
  end.

(** The flat dict [flattened] with [p] put before every key. *)
Definition prefixed (p : string) (flattened : list (string * string)) : list (string * string) :=
  map (fun kv : string * string => (p ++ fst kv, snd kv)) flattened.

(** The metadata fields that a chunk-level record repeats. *)
Definition chunk_metadata_fields : list string :=
  ["transaction_key"; "request_id"; "sha256"; "created"; "duration"; "channels";
   "Filename"; "videolink"].

(** The length of a chunk whose offsets are ints. *)
Definition int_offsets (chunk : json) : option (Z * Z) :=
  match document_field "start" chunk, document_field "end" chunk with
  | Some (JInt s), Some (JInt e) => Some (s, e)
  | _, _ => None
  end.

Definition has_int_offsets (chunk : json) : bool :=
  match int_offsets chunk with
  | Some _ => true
  | None => false
  end.

Definition chunk_span (chunk : json) : Z :=
  match int_offsets chunk with
  | Some (s, e) => e - s
  | None => 0
  end.

Definition total_span (chunks : list json) : Z :=
  fold_right (fun chunk acc => chunk_span chunk + acc) 0 chunks.

(** The file at [path] holds a document that the validator accepts. *)
Definition file_validates (self : JSONFlattener) (fs : filesystem) (path : string) : bool :=
  match fs path with
  | Some f =>
      match load_document f with
      | Ret document =>
          match validate_document_structure self document with
          | Ret true => true
          | _ => false
          end
      | Raise _ => false
      end
  | None => false
  end.

Definition is_nil {A : Type} (l : list A) : bool :=
  match l with
  | [] => true
  | _ => false
  end.

(** [s] holds nothing but white space. *)
Fixpoint blank (s : string) : bool :=
  match s with
  | EmptyString => true
  | String c s' => isspace c && blank s'
  end.

(** The text of a chunk-level record. *)
Definition record_text (doc : pydict) : string :=
  match dict_get "text" doc with
  | Some (JStr t) => t
  | _ => ""
  end.

(** The transcript that the records of one document hold: the
    [flattened_transcript] of the document-level record, if it is a string
    that is not blank, and the texts of the chunk-level records that are
    not empty, with one space between them. *)
Definition content_of_records (file_doc : pydict) (chunk_docs : list pydict) : string :=
  join " "
    ((match dict_get "flattened_transcript" file_doc with
      | Some (JStr s) => if blank s then [] else [s]
      | _ => []
      end)
     ++ filter (fun t => negb (String.eqb t "")) (map record_text chunk_docs))%list.

(** ** The analyzer of the flattened transcript

    [TranscriptAnalyzer] of [mob/transcript_analyzer.py] reads the list of
    records that [flatten_transcript.py] has written. *)

(** [TranscriptAnalyzer.extract_text_chunks], on the list [self.data];
    [chunks] is the list built so far. An item that is not a dict has no
    [get]. *)
Fixpoint extract_text_chunks (data : list json) (chunks : list string)
  : outcome (list string) :=
  match data with
  | [] => Ret chunks
  | item :: rest =>
      match item with
      | JDict d =>
          if truthy (dict_get_default "text" JNull d) then
            text <- dict_getitem "text" d ;;
            text <- method_strip text ;;
            extract_text_chunks rest (chunks ++ [text])
          else extract_text_chunks rest chunks
      | _ => Raise AttributeError
      end
  end.

(** ** The ingestion pipeline

    [DocumentIngestionPipeline] of [mob/document_ingestion.py], which
    passes every JSON file through [flatten_for_ai_search]. What the
    pipeline prints is not part of the model. *)

(** What the pipeline takes from the operating system: [open] followed by
    [json.load] or by [read], [os.path.getsize], and the clock, of which
    the [n]-th reading gives [int(time.time())] or
    [datetime.now().isoformat()]. *)
Record system : Type := {
  open_json : string -> outcome json;
  open_text : string -> outcome string;
  getsize : string -> outcome Z;
  time_at : nat -> Z;
  now_at : nat -> string
}.

(** A computation that reads the clock: from the number of readings made
    so far to the outcome and the number of readings made then. *)
Definition io (A : Type) : Type := nat -> outcome A * nat.

Definition io_ret {A : Type} (a : A) : io A := fun n => (Ret a, n).

Definition io_raise {A : Type} (e : exn) : io A := fun n => (Raise e, n).

Definition io_bind {A B : Type} (m : io A) (k : A -> io B) : io B :=
  fun n =>
    match m n with
    | (Ret a, n') => k a n'
    | (Raise e, n') => (Raise e, n')
    end.

Notation "x <~ m ;; k" := (io_bind m (fun x => k))
  (at level 61, m at next level, right associativity).

Definition lift {A : Type} (o : outcome A) : io A := fun n => (o, n).

Definition io_try {A : Type} (m : io A) (handler : exn -> io A) : io A :=
  fun n =>
    match m n with
    | (Ret a, n') => (Ret a, n')
    | (Raise e, n') => handler e n'
    end.

(** [s.split(c)[-1]]: what follows the last [c], all of [s] without one. *)
Fixpoint after_last (c : ascii) (s : string) : string :=
  match s with
  | EmptyString => EmptyString
  | String a s' =>
      if char_in c s' then after_last c s'
      else if Ascii.eqb a c then s'
      else String a s'
  end.

(** [os.path.basename] on POSIX paths. *)
Definition basename (path : string) : string := after_last "/" path.

(** [s.lower()] on the Latin-1 range. *)
Definition lower_char (c : ascii) : ascii :=
  let n := N_of_ascii c in
  if ((65 <=? n) && (n <=? 90) || (192 <=? n) && (n <=? 222) && negb (n =? 215))%N
  then ascii_of_N (n + 32)
  else c.

Fixpoint lower (s : string) : string :=
  match s with
  | EmptyString => EmptyString
  | String c s' => String (lower_char c) (lower s')
  end.

Section Ingestion.

Context {RT : PyRuntime}.

Variable sys : system.

Definition read_time : io Z := fun n => (Ret (time_at sys n), S n).

Definition read_now : io string := fun n => (Ret (now_at sys n), S n).

(** [v.get(k, default)]: the method is looked up before the default is
    evaluated, and only a dict has it. *)
Definition get_or (v : json) (k : string) (default : io json) : io json :=
  match v with
  | JDict d => x <~ default ;; io_ret (dict_get_default k x d)
  | _ => io_raise AttributeError
  end.

(** [DocumentIngestionPipeline._process_json]; [None] is [JNull]. *)
Definition _process_json (file_path : string) : io json :=
  io_try (lift (open_json sys file_path)) (fun _ => io_ret JNull).

(** [_process_markdown] and [_process_text], which differ in three
    strings. *)
Definition process_plain (id_prefix file_type data_source file_path : string) : io json :=
  io_try
    (content <~ lift (open_text sys file_path) ;;
     t <~ read_time ;;
     now <~ read_now ;;
     io_ret (JDict [("id", JStr (id_prefix ++ "-" ++ str_of_Z t));
                    ("content", JStr content);
                    ("metadata", JDict [("file_type", JStr file_type);
                                        ("file_name", JStr (basename file_path));
                                        ("language", JStr "en")]);
                    ("source", JDict [("data_source", JStr data_source);
                                      ("path", JStr file_path)]);
                    ("timestamp", JDict [("processed_date", JStr now)])]))
    (fun _ => io_ret JNull).

Definition _process_markdown (file_path : string) : io json :=
  process_plain "md" "markdown" "markdown_processing" file_path.

Definition _process_text (file_path : string) : io json :=
  process_plain "txt" "text" "text_processing" file_path.

(** [_create_standardized_document]. *)
Definition _create_standardized_document (file_path file_name file_extension : string)
    (document_data : json) (source_info : pydict) : io json :=
  doc_id <~ get_or document_data "id"
              (t <~ read_time ;; io_ret (JStr (file_extension ++ "-" ++ str_of_Z t))) ;;
  content <~ get_or document_data "content" (io_ret (JStr "")) ;;
  m <~ get_or document_data "metadata" (io_ret (JDict [])) ;;
  original_file_type <~ get_or m "file_type" (io_ret (JStr file_extension)) ;;
  file_size <~ lift (getsize sys file_path) ;;
  m <~ get_or document_data "metadata" (io_ret (JDict [])) ;;
  page_count <~ get_or m "page_count" (io_ret (JInt 1)) ;;
  m <~ get_or document_data "metadata" (io_ret (JDict [])) ;;
  language <~ get_or m "language" (io_ret (JStr "en")) ;;
  m <~ get_or document_data "metadata" (io_ret (JDict [])) ;;
  author <~ get_or m "author"
              (io_ret (dict_get_default "author" (JStr "Unknown") source_info)) ;;
  m <~ get_or document_data "metadata" (io_ret (JDict [])) ;;
  title <~ get_or m "title" (io_ret (JStr file_name)) ;;
  m <~ get_or document_data "metadata" (io_ret (JDict [])) ;;
  category <~ get_or m "category"
                (io_ret (dict_get_default "category" (JStr "general") source_info)) ;;
  s <~ get_or document_data "source" (io_ret (JDict [])) ;;
  original_format <~ get_or s "original_format" (io_ret (JStr file_extension)) ;;
  ts <~ get_or document_data "timestamp" (io_ret (JDict [])) ;;
  created_date <~ get_or ts "created_date"
                    (now <~ read_now ;;
                     io_ret (dict_get_default "created_date" (JStr now) source_info)) ;;
  ts <~ get_or document_data "timestamp" (io_ret (JDict [])) ;;
  modified_date <~ get_or ts "modified_date" (now <~ read_now ;; io_ret (JStr now)) ;;
  processed_date <~ read_now ;;
  summary <~ get_or document_data "summary" (io_ret (JStr "")) ;;
  keywords <~ get_or document_data "keywords" (io_ret (JStr "")) ;;
  is_active <~ get_or document_data "is_active" (io_ret (JBool true)) ;;
  priority <~ get_or document_data "priority"
                (io_ret (dict_get_default "priority" (JInt 1) source_info)) ;;
  io_ret
    (JDict
       [("id", doc_id);
        ("content", content);
        ("metadata",
         JDict [("file_type", JStr file_extension);
                ("file_name", JStr file_name);
                ("original_file_type", original_file_type);
                ("file_size", JInt file_size);
                ("page_count", page_count);
                ("language", language);
                ("author", author);
                ("title", title);
                ("category", category)]);
        ("source",
         JDict [("data_source",
                 dict_get_default "data_source" (JStr "preprocessed_files") source_info);
                ("container", dict_get_default "container" (JStr "documents") source_info);
                ("path", JStr file_path);
                ("url", dict_get_default "url" (JStr "") source_info);
                ("sharepoint_site", dict_get_default "sharepoint_site" (JStr "") source_info);
                ("blob_container", dict_get_default "blob_container" (JStr "") source_info);
                ("original_format", original_format)]);
        ("timestamp",
         JDict [("created_date", created_date);
                ("modified_date", modified_date);
                ("processed_date", JStr processed_date)]);
        ("summary", summary);
        ("keywords", keywords);
        ("is_active", is_active);
        ("priority", priority)]).

(** The keys of [self.supported_file_types]. *)
Definition supported_file_types : list string := ["json"; "md"; "txt"].

(** What [flatten_for_ai_search] returns, as a value: [None] or a list of
    dicts. *)
Definition records_value (r : option (list pydict)) : json :=
  match r with
  | Some docs => JList (map JDict docs)
  | None => JNull
  end.

(** The body of the [try] of [ingest_preprocessed_document]; the flattener
    of the pipeline is [JSONFlattener()]. *)
Definition ingest_body (file_path : string) (source_info : pydict) : io json :=
  let file_name := basename file_path in
  let file_extension := lower (after_last "." file_name) in
  if negb (existsb (String.eqb file_extension) supported_file_types)
  then io_raise ValueError
  else
    document_data <~ (if String.eqb file_extension "json" then _process_json file_path
                      else if String.eqb file_extension "md" then _process_markdown file_path
                      else _process_text file_path) ;;
    if negb (truthy document_data) then io_raise ValueError
    else
      document_data <~ (if String.eqb file_extension "json"
                        then lift (r <- flatten_for_ai_search default_flattener document_data ;;
                                   Ret (records_value r))
                        else io_ret document_data) ;;
      _create_standardized_document file_path file_name file_extension document_data
        source_info.

(** [DocumentIngestionPipeline.ingest_preprocessed_document]; [None] is
    [JNull]. *)
Definition ingest_preprocessed_document (file_path : string) (source_info : pydict)
  : io json :=
  io_try (ingest_body file_path source_info) (fun _ => io_ret JNull).

(** [DocumentIngestionPipeline.batch_ingest_preprocessed]. *)
Fixpoint batch_ingest_loop (file_paths : list string) (source_info : pydict)
    (documents : list json) : io (list json) :=
  match file_paths with
  | [] => io_ret documents
  | file_path :: rest =>
      document <~ ingest_preprocessed_document file_path source_info ;;
      batch_ingest_loop rest source_info
        (if truthy document then (documents ++ [document])%list else documents)
  end.

Definition batch_ingest_preprocessed (file_paths : list string) (source_info : pydict)
  : io (list json) :=
  batch_ingest_loop file_paths source_info [].

End Ingestion.

(** A system with one transcript and one text file, whose clock advances
    by one second at each reading. *)
Definition sample_system : system :=
  {| open_json := fun path => if String.eqb path "/data/call-17.JSON" then Ret sample_document
                              else Raise OSError;
     open_text := fun path => if String.eqb path "/data/notes.txt" then Ret "hello"
                              else Raise OSError;
     getsize := fun path => if String.eqb path "/data/call-17.JSON" then Ret 900
                            else if String.eqb path "/data/notes.txt" then Ret 5
                            else Raise OSError;
     time_at := fun n => 1700000000 + Z.of_nat n;
     now_at := fun n => "2023-11-14T22:13:" ++ str_of_nat (20 + n) |}.

(** What the projector needs beyond the validator: the nine metadata
    fields, of which [created] is a timestamp; a list of chunks; in every
    chunk a [speaker], numbers [start] and [end] that can be added to the
    timestamp, and a string [text]. Nothing is asked of [id]. *)
Definition flattenable {RT : PyRuntime} (raw : json) : bool :=
  forallb (fun k => dict_mem k (document_metadata raw)) metadata_fields
  && match document_field "transcript_chunks" raw with
     | Some (JList _) => true
     | _ => false
     end
  && forallb is_chunk (document_chunks raw)
  && offsets_in_range raw.

(** * Properties *)

(** ** The validator *)

Section ValidatorProperties.

Variables (sep : string) (depth : Z).

Let self : JSONFlattener := init sep depth.

Lemma validate_missing_required (doc : pydict) :
  dict_mem "id" doc = false \/ dict_mem "metadata" doc = false ->
  validate_document_structure self (JDict doc) = Ret false.
Proof.
  intros H. unfold validate_document_structure, validate_run, validate_body. simpl.
  destruct (dict_mem "id" doc), (dict_mem "metadata" doc); simpl;
    try reflexivity.
  destruct H; discriminate.
Qed.

Lemma validate_chunks_reject (chunks : list json) (chunk : json) :
  forall i,
    In chunk chunks ->
    (forall j, snd (validate_chunk j chunk) = false) ->
    snd (validate_chunks i chunks) = false.
Proof.
  induction chunks as [|c rest IH]; simpl; intros i Hin Hc.
  - contradiction.
  - destruct (validate_chunk i c) as [logs [|]] eqn:E.
    + destruct Hin as [-> | Hin].
      * specialize (Hc i). rewrite E in Hc. discriminate.
      * now apply IH.
    + reflexivity.
Qed.

Lemma validate_chunk_missing_field (c : pydict) (field : string) (i : nat) :
  In field required_chunk_fields -> dict_mem field c = false ->
  snd (validate_chunk i (JDict c)) = false.
Proof.
  intros Hin Hmem. unfold validate_chunk.
  destruct (filter _ required_chunk_fields) eqn:Hf; [|reflexivity].
  assert (Hx : In field (filter (fun f => negb (dict_mem f c)) required_chunk_fields)).
  { apply filter_In. split; [exact Hin | now rewrite Hmem]. }
  rewrite Hf in Hx. contradiction.
Qed.

(** Whatever the first checks say, a dict whose [transcript_chunks] is
    rejected is rejected. *)
Lemma validate_dict_chunks (doc : pydict) (v : json) :
  dict_get "transcript_chunks" doc = Some v ->
  match v with JList chunks => snd (validate_chunks 0 chunks) = false | _ => True end ->
  validate_document_structure self (JDict doc) = Ret false.
Proof.
  intros Hget Hv. unfold validate_document_structure, validate_run, validate_body. simpl.
  destruct (dict_mem "id" doc), (dict_mem "metadata" doc); simpl; try reflexivity.
  destruct (negb _); [reflexivity|].
  destruct (match dict_get "metadata" doc with Some m => m | None => JDict [] end);
    try reflexivity.
  rewrite Hget. destruct v; try reflexivity.
  destruct (validate_chunks 0 l) as [logs valid]. simpl in *. now rewrite Hv.
Qed.

Lemma validate_total (document : json) :
  exists b, validate_document_structure self document = Ret b.
Proof.
  unfold validate_document_structure, validate_run.
  destruct (validate_body self document) as [logs [b|e]]; simpl; eauto.
Qed.

Lemma validate_chunks_log (chunks : list json) :
  forall i,
    snd (validate_chunks i chunks) = false ->
    exists message, In (ERROR, message) (fst (validate_chunks i chunks)).
Proof.
  induction chunks as [|c rest IH]; simpl; intros i H.
  - discriminate.
  - destruct (validate_chunk i c) as [logs [|]] eqn:E.
    + now apply IH.
    + unfold validate_chunk in E.
      destruct c; try (inversion E; eexists; simpl; left; reflexivity).
      destruct (filter _ required_chunk_fields); inversion E.
      eexists. simpl. left. reflexivity.
Qed.

(** A document is rejected only after a warning or an error is logged. *)
Lemma validate_false_logged (document : json) :
  validate_document_structure self document = Ret false ->
  exists level message,
    In (level, message) (validate_log self document) /\ level <> INFO.
Proof.
  unfold validate_document_structure, validate_log, validate_run.
  destruct (validate_body self document) as [logs r] eqn:Hbody. simpl.
  destruct r as [b|e]; simpl.
  - intros Hb. inversion Hb; subst b. clear Hb.
    unfold validate_body in Hbody. destruct document.
    1-4: inversion Hbody.
    + destruct (filter _ (required_keys self)); inversion Hbody.
      exists WARNING. eexists. split; [left; reflexivity | discriminate].
    + destruct (filter _ (required_keys self)); inversion Hbody.
      exists WARNING. eexists. split; [left; reflexivity | discriminate].
    + destruct (filter _ (required_keys self)).
      * destruct (negb _).
        { inversion Hbody. exists ERROR. eexists. split; [left; reflexivity | discriminate]. }
        destruct (match dict_get "metadata" d with Some m => m | None => JDict [] end);
          try (inversion Hbody; exists ERROR; eexists;
               split; [left; reflexivity | discriminate]).
        destruct (dict_get "transcript_chunks" d) as [v|]; [|inversion Hbody].
        destruct v;
          try (inversion Hbody; exists ERROR; eexists;
               split; [right; left; reflexivity | discriminate]).
        destruct (validate_chunks 0 l) as [clogs valid] eqn:Hc.
        inversion Hbody; subst logs valid.
        destruct (validate_chunks_log l 0) as (message & Hin); [now rewrite Hc|].
        rewrite Hc in Hin. exists ERROR, message.
        split; [right; exact Hin | discriminate].
      * inversion Hbody. exists WARNING. eexists.
        split; [left; reflexivity | discriminate].
  - intros _. exists ERROR, (ErrorValidating e).
    split; [apply in_or_app; right; left; reflexivity | discriminate].
Qed.

(** C5. [validate_document_structure] answers [False] on a document without
    the key [id], on a document without the key [metadata], on a document
    whose [transcript_chunks] is not a list, and on a document one of whose
    chunks is a dict that lacks one of [speaker], [start], [end], [text];
    whenever it answers [False] it has logged a warning or an error; and on
    every value whatever it returns a boolean: no exception reaches the
    caller. *)
Theorem validate_rejects_malformed :
  (forall doc, dict_mem "id" doc = false ->
     validate_document_structure self (JDict doc) = Ret false)
  /\ (forall doc, dict_mem "metadata" doc = false ->
        validate_document_structure self (JDict doc) = Ret false)
  /\ (forall doc v, dict_get "transcript_chunks" doc = Some v ->
        (forall chunks, v <> JList chunks) ->
        validate_document_structure self (JDict doc) = Ret false)
  /\ (forall doc chunks c field,
        dict_get "transcript_chunks" doc = Some (JList chunks) ->
        In (JDict c) chunks ->
        In field required_chunk_fields -> dict_mem field c = false ->
        validate_document_structure self (JDict doc) = Ret false)
  /\ (forall document,
        validate_document_structure self document = Ret false ->
        exists level message,
          In (level, message) (validate_log self document) /\ level <> INFO)
  /\ (forall document, exists b, validate_document_structure self document = Ret b).
Proof.
  split; [|split; [|split; [|split; [|split]]]].
  - intros doc H. apply validate_missing_required. now left.
  - intros doc H. apply validate_missing_required. now right.
  - intros doc v Hget Hv. apply (validate_dict_chunks _ Hget).
    destruct v; trivial. now contradiction (Hv l).
  - intros doc chunks c field Hget Hin Hf Hmem.
    apply (validate_dict_chunks _ Hget).
    eapply validate_chunks_reject; [exact Hin|].
    intros j. eapply validate_chunk_missing_field; eassumption.
  - apply validate_false_logged.
  - apply validate_total.
Qed.

End ValidatorProperties.

(** ** Outcomes *)

Lemma bind_ret_inv {A B : Type} (m : outcome A) (k : A -> outcome B) (b : B) :
  bind m k = Ret b -> exists a, m = Ret a /\ k a = Ret b.
Proof.
  destruct m as [a|e]; simpl; intros H; [eauto | discriminate].
Qed.

(** From [x <- m ;; k = Ret b] to [m = Ret a] and [k a = Ret b]. *)
Ltac bind_inv H :=
  let a := fresh "a" in
  let Ha := fresh "Ha" in
  apply bind_ret_inv in H; destruct H as (a & Ha & H).

Ltac bind_inv_as H a Ha :=
  apply bind_ret_inv in H; destruct H as (a & Ha & H).

Lemma try_except_ret {A : Type} (m : outcome A) (d : A) :
  exists a, try_except m (fun _ => Ret d) = Ret a.
Proof.
  destruct m; simpl; eauto.
Qed.

Section ProjectorProperties.

Context {RT : PyRuntime}.

Variable self : JSONFlattener.

(** ** The validator lets through what the projector cannot handle *)

(** Without [transcript_chunks] the body of the projector does not reach
    its end: it stops at the validator or raises. *)
Lemma flatten_body_needs_chunks (d : pydict) (r : option (list pydict)) :
  dict_get "transcript_chunks" d = None ->
  flatten_body self (JDict d) = Ret r ->
  r = None /\ validate_document_structure self (JDict d) = Ret false.
Proof.
  intros Hnone H. unfold flatten_body in H.
  bind_inv_as H valid Hvalid. destruct valid; cbn [negb] in H.
  - do 5 bind_inv H. bind_inv_as H chunks Hchunks.
    simpl in Hchunks. unfold dict_getitem in Hchunks. rewrite Hnone in Hchunks.
    discriminate.
  - inversion H. now split.
Qed.

Lemma flatten_needs_chunks (d : pydict) :
  dict_get "transcript_chunks" d = None ->
  flatten_for_ai_search self (JDict d) = Ret None.
Proof.
  intros Hnone. unfold flatten_for_ai_search.
  destruct (flatten_body self (JDict d)) as [r|e] eqn:Hb; simpl; [|reflexivity].
  now destruct (flatten_body_needs_chunks _ Hnone Hb) as (-> & _).
Qed.

Lemma flatten_body_raises (d : pydict) :
  validate_document_structure self (JDict d) = Ret true ->
  dict_get "transcript_chunks" d = None ->
  exists e, flatten_body self (JDict d) = Raise e.
Proof.
  intros Hvalid Hnone.
  destruct (flatten_body self (JDict d)) as [r|e] eqn:Hb; [|eauto].
  destruct (flatten_body_needs_chunks _ Hnone Hb) as (_ & Hfalse).
  rewrite Hvalid in Hfalse. discriminate.
Qed.

End ProjectorProperties.

(** C9. A document that holds nothing but a non-empty string [id] and a
    dict [metadata] is accepted by [validate_document_structure], while the
    body of [flatten_for_ai_search] raises on it and the handler returns
    [None]; on the document whose [metadata] is empty the exception is the
    [KeyError] of [meta["created"]]. *)
Theorem validated_document_not_flattened {RT : PyRuntime} (sep : string) (depth : Z) :
  (forall (c : ascii) (s : string) (meta : pydict),
     let document := JDict [("id", JStr (String c s)); ("metadata", JDict meta)] in
     validate_document_structure (init sep depth) document = Ret true
     /\ (exists e, flatten_body (init sep depth) document = Raise e)
     /\ flatten_for_ai_search (init sep depth) document = Ret None)
  /\ exists document,
       validate_document_structure (init sep depth) document = Ret true
       /\ flatten_body (init sep depth) document = Raise KeyError
       /\ flatten_for_ai_search (init sep depth) document = Ret None.
Proof.
  split.
  - intros c s meta document. split; [reflexivity|]. split.
    + apply flatten_body_raises; reflexivity.
    + apply flatten_needs_chunks. reflexivity.
  - exists (JDict [("id", JStr "x"); ("metadata", JDict [])]).
    repeat split; reflexivity.
Qed.

(** ** The records of the projector *)

Section Records.

Context {RT : PyRuntime}.

Lemma getitem_dict_get (d : pydict) (k : string) (v : json) :
  getitem (JDict d) k = Ret v <-> dict_get k d = Some v.
Proof.
  simpl. unfold dict_getitem. destruct (dict_get k d); split; intros H;
    inversion H; reflexivity.
Qed.

Lemma getitem_is_dict (x : json) (k : string) (v : json) :
  getitem x k = Ret v -> exists d, x = JDict d /\ dict_get k d = Some v.
Proof.
  destruct x; simpl; try discriminate. intros H. eexists. split; [reflexivity|].
  now apply getitem_dict_get.
Qed.

Lemma dict_mem_get (k : string) (d : pydict) :
  dict_mem k d = true -> exists v, dict_get k d = Some v.
Proof.
  unfold dict_mem. destruct (dict_get k d); [eauto | discriminate].
Qed.

(** What the document-level record holds. *)
Lemma file_doc_of_inv (raw meta : json) (file_doc : pydict) :
  file_doc_of raw meta = Ret file_doc ->
  exists id,
    getitem raw "id" = Ret id
    /\ dict_get "id" file_doc = Some id
    /\ dict_get "@search.action" file_doc = Some (JStr "upload")
    /\ (forall k, In k metadata_fields -> exists v,
          getitem meta k = Ret v /\ dict_get k file_doc = Some v)
    /\ map fst file_doc = "@search.action" :: "id" :: metadata_fields.
Proof.
  unfold file_doc_of. intros H. do 10 bind_inv H. inversion H; subst file_doc; clear H.
  eexists. repeat split; try eassumption; try reflexivity.
  intros k Hk. simpl in Hk.
  repeat (destruct Hk as [<- | Hk]; [eexists; split; [eassumption | reflexivity] |]).
  contradiction.
Qed.

(** What a chunk-level record holds. *)
Lemma chunk_doc_of_inv (raw meta : json) (base : datetime) (i : nat) (chunk : json)
    (doc : pydict) :
  chunk_doc_of raw meta base i chunk = Ret doc ->
  exists id start end_ start_at end_at text,
    getitem raw "id" = Ret id
    /\ getitem chunk "start" = Ret start
    /\ getitem chunk "end" = Ret end_
    /\ offset_isoformat base start = Ret start_at
    /\ offset_isoformat base end_ = Ret end_at
    /\ getitem chunk "text" = Ret (JStr text)
    /\ dict_get "id" doc = Some (JStr (py_str id ++ "_" ++ str_of_nat i))
    /\ dict_get "parentDocId" doc = Some id
    /\ dict_get "start_offset" doc = Some start
    /\ dict_get "end_offset" doc = Some end_
    /\ dict_get "start_at" doc = Some (JStr start_at)
    /\ dict_get "end_at" doc = Some (JStr end_at)
    /\ dict_get "text" doc = Some (JStr (strip text))
    /\ dict_get "@search.action" doc = Some (JStr "upload")
    /\ dict_mem "flattened_transcript" doc = false.
Proof.
  unfold chunk_doc_of. intros H. do 17 bind_inv H. inversion H; subst doc; clear H.
  repeat match goal with
         | H1 : getitem raw "id" = Ret _, H2 : getitem raw "id" = Ret _ |- _ =>
             rewrite H1 in H2; inversion H2; subst; clear H2
         end.
  match goal with
  | H : method_strip ?t = Ret _ |- _ =>
      destruct t; try discriminate; simpl in H; inversion H; subst; clear H
  end.
  do 6 eexists. repeat split; try eassumption; reflexivity.
Qed.

(** The loop appends one record per chunk, in the order of the chunks, the
    record of the chunk at position [j] being built with the index
    [i + j]. *)
Lemma chunk_loop_inv (raw meta : json) (base : datetime) (chunks : list json) :
  forall (i : nat) (docs out : list pydict),
    chunk_loop raw meta base i chunks docs = Ret out ->
    exists recs,
      out = (docs ++ recs)%list
      /\ List.length recs = List.length chunks
      /\ forall j chunk, nth_error chunks j = Some chunk ->
           exists doc, nth_error recs j = Some doc
                       /\ chunk_doc_of raw meta base (i + j) chunk = Ret doc.
Proof.
  induction chunks as [|c rest IH]; simpl; intros i docs out H.
  - inversion H. exists []. rewrite app_nil_r. repeat split.
    intros [|j] chunk Hn; discriminate.
  - bind_inv H. apply IH in H. destruct H as (recs & -> & Hlen & Hnth).
    exists (a :: recs). rewrite <- app_assoc. simpl. repeat split.
    + now rewrite Hlen.
    + intros [|j] chunk Hn; simpl in *.
      * inversion Hn; subst. exists a. now rewrite Nat.add_0_r.
      * destruct (Hnth j chunk Hn) as (doc & Hd & Hc).
        exists doc. split; [assumption|].
        now replace (i + S j)%nat with (S i + j)%nat by lia.
Qed.

(** The loop goes through as soon as every record can be built. *)
Lemma chunk_loop_ok (raw meta : json) (base : datetime) (chunks : list json) :
  forall (i : nat) (docs : list pydict),
    (forall j chunk, nth_error chunks j = Some chunk ->
       exists doc, chunk_doc_of raw meta base (i + j) chunk = Ret doc) ->
    exists out, chunk_loop raw meta base i chunks docs = Ret out.
Proof.
  induction chunks as [|c rest IH]; simpl; intros i docs Hall.
  - eauto.
  - destruct (Hall 0%nat c eq_refl) as (doc & Hdoc).
    rewrite Nat.add_0_r in Hdoc. rewrite Hdoc. simpl.
    apply IH. intros j chunk Hn.
    replace (S i + j)%nat with (i + S j)%nat by lia. now apply Hall.
Qed.

End Records.

(** ** The projector on a raw transcript document *)

Section ProjectorCorrect.

Context {RT : PyRuntime}.

Variable self : JSONFlattener.

Lemma dict_getitem_get (k : string) (d : pydict) (v : json) :
  dict_get k d = Some v -> dict_getitem k d = Ret v.
Proof.
  unfold dict_getitem. now intros ->.
Qed.

Lemma metadata_fields_present (m : pydict) :
  forallb (fun k => dict_mem k m) metadata_fields = true ->
  forall k, In k metadata_fields -> exists v, dict_getitem k m = Ret v.
Proof.
  intros H k Hk. rewrite forallb_forall in H.
  destruct (dict_mem_get _ _ (H k Hk)) as (v & Hv).
  exists v. now apply dict_getitem_get.
Qed.

(** Reads every [metadata] field the goal still looks up. *)
Ltac read_metadata Hall m :=
  repeat match goal with
         | |- context [bind (dict_getitem ?k m) _] =>
             let v := fresh "v" in
             let Hv := fresh "Hv" in
             destruct (Hall k) as (v & Hv); [simpl; tauto|];
             rewrite Hv; cbn [bind]
         end.

Lemma file_doc_of_ok (d m : pydict) (id : json) :
  dict_get "id" d = Some id ->
  forallb (fun k => dict_mem k m) metadata_fields = true ->
  exists file_doc, file_doc_of (JDict d) (JDict m) = Ret file_doc.
Proof.
  intros Hid Hm. pose proof (metadata_fields_present _ Hm) as Hall.
  unfold file_doc_of. cbn [getitem].
  rewrite (dict_getitem_get _ _ Hid). cbn [bind].
  read_metadata Hall m. eauto.
Qed.

Lemma is_chunk_inv (base : datetime) (chunk : json) :
  is_chunk chunk = true ->
  chunk_in_range base chunk = true ->
  exists c speaker start end_ text start_at end_at,
    chunk = JDict c
    /\ dict_get "speaker" c = Some speaker
    /\ dict_get "start" c = Some start
    /\ dict_get "end" c = Some end_
    /\ dict_get "text" c = Some (JStr text)
    /\ offset_isoformat base start = Ret start_at
    /\ offset_isoformat base end_ = Ret end_at.
Proof.
  destruct chunk as [| | | | |?|c]; simpl; try discriminate.
  intros H Hr. apply andb_true_iff in H. destruct H as (Hsp & H).
  destruct (dict_mem_get _ _ Hsp) as (speaker & Hspeaker).
  unfold chunk_in_range in Hr. simpl in Hr.
  destruct (dict_get "start" c) as [start|] eqn:Hst; [|discriminate].
  destruct (dict_get "end" c) as [end_|] eqn:Hen; [|discriminate].
  destruct (dict_get "text" c) as [[| | | |text| |]|] eqn:Htx; try discriminate.
  apply andb_true_iff in Hr. destruct Hr as (Hs & He). unfold is_offset in Hs, He.
  destruct (offset_isoformat base start) as [start_at|] eqn:Hsa; [|discriminate].
  destruct (offset_isoformat base end_) as [end_at|] eqn:Hea; [|discriminate].
  exists c, speaker, start, end_, text, start_at, end_at.
  repeat split; (assumption || reflexivity).
Qed.

Lemma chunk_doc_of_ok (d m : pydict) (id : json) (base : datetime) (i : nat) (chunk : json) :
  dict_get "id" d = Some id ->
  forallb (fun k => dict_mem k m) metadata_fields = true ->
  is_chunk chunk = true ->
  chunk_in_range base chunk = true ->
  exists doc, chunk_doc_of (JDict d) (JDict m) base i chunk = Ret doc.
Proof.
  intros Hid Hm Hc Hr. pose proof (metadata_fields_present _ Hm) as Hall.
  destruct (is_chunk_inv _ _ Hc Hr)
    as (c & speaker & start & end_ & text & start_at & end_at
        & -> & Hsp & Hst & Hen & Htx & Hsa & Hea).
  unfold chunk_doc_of. cbn [getitem].
  rewrite (dict_getitem_get _ _ Hst), (dict_getitem_get _ _ Hen),
    (dict_getitem_get _ _ Hid). cbn [bind].
  read_metadata Hall m.
  rewrite (dict_getitem_get _ _ Hsp). cbn [bind].
  rewrite Hsa. cbn [bind]. rewrite Hea. cbn [bind].
  rewrite (dict_getitem_get _ _ Htx). cbn [bind method_strip].
  eauto.
Qed.

Lemma created_timestamp_inv (m : pydict) (base : datetime) :
  created_timestamp m = Some base ->
  exists s, dict_get "created" m = Some (JStr s) /\ fromisoformat (rstrip_Z s) = Ret base.
Proof.
  unfold created_timestamp.
  destruct (dict_get "created" m) as [[| | | |s| |]|]; try discriminate.
  destruct (fromisoformat (rstrip_Z s)) as [b|] eqn:Hb; [|discriminate].
  intros H. inversion H; subst. eauto.
Qed.

Lemma raw_transcript_document_inv (raw : json) :
  is_raw_transcript_document raw = true ->
  exists d id m chunks base,
    raw = JDict d
    /\ dict_get "id" d = Some (JStr id)
    /\ dict_get "metadata" d = Some (JDict m)
    /\ dict_get "transcript_chunks" d = Some (JList chunks)
    /\ forallb (fun k => dict_mem k m) metadata_fields = true
    /\ created_timestamp m = Some base
    /\ forallb is_chunk chunks = true.
Proof.
  destruct raw as [| | | | | |d]; try discriminate. unfold is_raw_transcript_document.
  destruct (dict_get "id" d) as [[| | | |id| |]|] eqn:Hid; try discriminate.
  destruct (dict_get "metadata" d) as [[| | | | | |m]|] eqn:Hmeta; try discriminate.
  destruct (dict_get "transcript_chunks" d) as [[| | | | |chunks|]|] eqn:Hchunks;
    try discriminate.
  intros H. apply andb_true_iff in H. destruct H as (Hm & H).
  destruct (created_timestamp m) as [base|] eqn:Hb; [|discriminate].
  exists d, id, m, chunks, base. repeat split; (assumption || reflexivity).
Qed.

(** On a validated raw transcript document whose offsets are in range the
    projector returns the document-level record followed by one record per
    chunk. *)
Lemma flatten_valid (raw : json) :
  validate_document_structure self raw = Ret true ->
  is_raw_transcript_document raw = true ->
  offsets_in_range raw = true ->
  exists file_doc chunk_docs,
    flatten_for_ai_search self raw = Ret (Some (file_doc :: chunk_docs)).
Proof.
  intros Hvalid Hshape Hrange.
  destruct (raw_transcript_document_inv _ Hshape)
    as (d & id & m & chunks & base & -> & Hid & Hmeta & Hchunks & Hm & Hbase & Hall).
  unfold offsets_in_range, document_metadata, document_chunks, document_field in Hrange.
  rewrite Hmeta, Hchunks, Hbase in Hrange.
  destruct (created_timestamp_inv _ Hbase) as (created & Hcreated & Hparse).
  destruct (@file_doc_of_ok d m (JStr id) Hid Hm) as (file_doc & Hfile).
  destruct (chunk_loop_ok (JDict d) (JDict m) base chunks 0 [file_doc]) as (out & Hout).
  { intros j chunk Hn. rewrite forallb_forall in Hall, Hrange.
    apply nth_error_In in Hn.
    eapply chunk_doc_of_ok; [exact Hid | exact Hm | now apply Hall | now apply Hrange]. }
  destruct (chunk_loop_inv _ _ _ _ _ _ Hout) as (recs & Hrecs & _).
  simpl in Hrecs. subst out.
  exists file_doc, recs.
  unfold flatten_for_ai_search, flatten_body. rewrite Hvalid. cbn [bind negb getitem].
  rewrite (dict_getitem_get _ _ Hmeta). cbn [bind getitem].
  rewrite (dict_getitem_get _ _ Hcreated). cbn [bind method_rstrip_Z].
  rewrite Hparse. cbn [bind]. rewrite Hfile. cbn [bind].
  rewrite (dict_getitem_get _ _ Hchunks). cbn [bind iterate].
  rewrite Hout. reflexivity.
Qed.

(** What the projector returns is built from a validated dict: the
    document-level record, then, for the chunk at each position [j], the
    record built from it with the index [j]. *)
Lemma flatten_inv (raw : json) (docs : list pydict) :
  flatten_for_ai_search self raw = Ret (Some docs) ->
  exists d id m created base file_doc chunk_docs,
    raw = JDict d
    /\ validate_document_structure self raw = Ret true
    /\ dict_get "id" d = Some id
    /\ dict_get "metadata" d = Some (JDict m)
    /\ dict_get "created" m = Some (JStr created)
    /\ fromisoformat (rstrip_Z created) = Ret base
    /\ file_doc_of raw (JDict m) = Ret file_doc
    /\ docs = file_doc :: chunk_docs
    /\ List.length chunk_docs = List.length (document_chunks raw)
    /\ forall j chunk, nth_error (document_chunks raw) j = Some chunk ->
         exists doc, nth_error chunk_docs j = Some doc
                     /\ chunk_doc_of raw (JDict m) base j chunk = Ret doc.
Proof.
  unfold flatten_for_ai_search. intros H.
  destruct (flatten_body self raw) as [r|] eqn:Hbody; simpl in H; [|discriminate].
  inversion H; subst r; clear H. unfold flatten_body in Hbody.
  bind_inv_as Hbody valid Hvalid. destruct valid; simpl in Hbody; [|discriminate].
  bind_inv_as Hbody meta Hmeta.
  destruct (getitem_is_dict _ _ Hmeta) as (d & -> & Hmeta').
  bind_inv_as Hbody created Hcreated.
  destruct (getitem_is_dict _ _ Hcreated) as (m & -> & Hcreated').
  bind_inv_as Hbody stripped Hstripped.
  destruct created as [| | | |created| |]; try discriminate.
  simpl in Hstripped. inversion Hstripped; subst stripped.
  bind_inv_as Hbody base Hbase. bind_inv_as Hbody file_doc Hfile.
  bind_inv_as Hbody chunks Hchunks. apply getitem_dict_get in Hchunks.
  bind_inv_as Hbody l Hl. destruct chunks as [| | | | |chunks|]; try discriminate.
  simpl in Hl. inversion Hl; subst l.
  bind_inv_as Hbody out Hout. inversion Hbody; subst docs; clear Hbody.
  destruct (chunk_loop_inv _ _ _ _ _ _ Hout) as (recs & -> & Hlen & Hnth).
  destruct (file_doc_of_inv _ _ Hfile) as (id & Hid & _).
  apply getitem_dict_get in Hid.
  exists d, id, m, created, base, file_doc, recs.
  unfold document_chunks, document_field. rewrite Hchunks.
  repeat split; try assumption; reflexivity.
Qed.

End ProjectorCorrect.

(** ** Counting and naming the records *)

Lemma dict_mem_keys (k : string) (d : pydict) :
  dict_mem k d = existsb (String.eqb k) (map fst d).
Proof.
  unfold dict_mem. induction d as [|[k' v] d IH]; simpl; [reflexivity|].
  destruct (String.eqb k k'); [reflexivity | exact IH].
Qed.

Lemma nth_error_same_length {A B : Type} (l : list A) (l' : list B) (i : nat) (x : A) :
  List.length l = List.length l' -> nth_error l i = Some x ->
  exists y, nth_error l' i = Some y.
Proof.
  intros Hlen Hx.
  assert (Hi : (i < List.length l')%nat).
  { rewrite <- Hlen. apply nth_error_Some. congruence. }
  apply nth_error_Some in Hi. destruct (nth_error l' i) as [y|]; [eauto | congruence].
Qed.

Section Claims.

Context {RT : PyRuntime}.

Variable self : JSONFlattener.

(** C1, as the code has it. On a document that passes
    [validate_document_structure], has the shape of a raw transcript
    document with [N] chunks, and whose chunk offsets can all be added to
    its creation time, [flatten_for_ai_search] returns a list of [N + 1]
    records whose first element is the document-level record: it carries
    the [id] of the document and [flattened_transcript], and no
    [parentDocId]. *)
Theorem flatten_record_count (raw : json) :
  validate_document_structure self raw = Ret true ->
  is_raw_transcript_document raw = true ->
  offsets_in_range raw = true ->
  exists file_doc chunk_docs,
    flatten_for_ai_search self raw = Ret (Some (file_doc :: chunk_docs))
    /\ List.length (file_doc :: chunk_docs) = S (List.length (document_chunks raw))
    /\ dict_get "id" file_doc = document_field "id" raw
    /\ dict_get "flattened_transcript" file_doc
       = dict_get "flattened_transcript" (document_metadata raw)
    /\ dict_mem "flattened_transcript" file_doc = true
    /\ dict_mem "parentDocId" file_doc = false.
Proof.
  intros Hvalid Hshape Hrange.
  destruct (flatten_valid self raw Hvalid Hshape Hrange) as (file_doc & chunk_docs & Hflat).
  destruct (flatten_inv _ _ Hflat)
    as (d & id & m & created & base & file_doc' & chunk_docs'
        & -> & _ & Hid & Hmeta & Hcreated & Hbase & Hfile & Heq & Hlen & Hnth).
  inversion Heq; subst file_doc' chunk_docs'; clear Heq.
  destruct (file_doc_of_inv _ _ Hfile) as (id1 & Hid1 & Hfid & _ & Hfields & Hkeys).
  apply getitem_dict_get in Hid1. rewrite Hid in Hid1. inversion Hid1; subst id1.
  destruct (Hfields "flattened_transcript") as (v & Hv & Hfv); [simpl; tauto|].
  apply getitem_dict_get in Hv.
  exists file_doc, chunk_docs. repeat split.
  - exact Hflat.
  - simpl. now rewrite Hlen.
  - simpl. now rewrite Hid.
  - unfold document_metadata. simpl. rewrite Hmeta. now rewrite Hv.
  - unfold dict_mem. now rewrite Hfv.
  - rewrite dict_mem_keys, Hkeys. reflexivity.
Qed.

(** C2. In what [flatten_for_ai_search] returns, every chunk-level record
    has [parentDocId] equal to the [id] of the document-level record, which
    is the [id] of the document, and the record at position [i] is the one
    of the chunk at position [i] of the input: its [id] is the text of the
    [id] of the document, an underscore and the decimal writing of [i], and
    its offsets are those of that chunk. The text of a string [id] is the
    string itself. Such a return exists on every validated raw transcript
    document whose offsets are in range. *)
Theorem chunk_record_ids :
  (forall raw docs,
     flatten_for_ai_search self raw = Ret (Some docs) ->
     exists file_id file_doc chunk_docs,
       docs = file_doc :: chunk_docs
       /\ document_field "id" raw = Some file_id
       /\ dict_get "id" file_doc = Some file_id
       /\ List.length chunk_docs = List.length (document_chunks raw)
       /\ (forall i doc, nth_error chunk_docs i = Some doc ->
             dict_get "parentDocId" doc = dict_get "id" file_doc
             /\ dict_get "id" doc = Some (JStr (py_str file_id ++ "_" ++ str_of_nat i)))
       /\ (forall i chunk, nth_error (document_chunks raw) i = Some chunk ->
             exists doc, nth_error chunk_docs i = Some doc
                         /\ dict_get "start_offset" doc = document_field "start" chunk
                         /\ dict_get "end_offset" doc = document_field "end" chunk))
  /\ (forall s, py_str (JStr s) = s)
  /\ (forall raw,
        validate_document_structure self raw = Ret true ->
        is_raw_transcript_document raw = true ->
        offsets_in_range raw = true ->
        exists docs, flatten_for_ai_search self raw = Ret (Some docs)).
Proof.
  split; [|split; [reflexivity|]].
  - intros raw docs Hflat.
    destruct (flatten_inv _ _ Hflat)
      as (d & id & m & created & base & file_doc & chunk_docs
          & -> & _ & Hid & Hmeta & Hcreated & Hbase & Hfile & -> & Hlen & Hnth).
    destruct (file_doc_of_inv _ _ Hfile) as (id1 & Hid1 & Hfid & _).
    apply getitem_dict_get in Hid1. rewrite Hid in Hid1. inversion Hid1; subst id1.
    exists id, file_doc, chunk_docs.
    split; [reflexivity|]. split; [exact Hid|]. split; [exact Hfid|].
    split; [exact Hlen|]. split.
    + intros i doc Hdoc.
      destruct (nth_error_same_length _ (document_chunks (JDict d)) _ Hlen Hdoc)
        as (chunk & Hc).
      destruct (Hnth i chunk Hc) as (doc' & Hdoc' & Hbuild).
      rewrite Hdoc in Hdoc'. inversion Hdoc'; subst doc'.
      destruct (chunk_doc_of_inv _ _ _ _ _ Hbuild)
        as (id2 & ? & ? & ? & ? & ? & Hid2 & _ & _ & _ & _ & _ & Hdid & Hparent & _).
      apply getitem_dict_get in Hid2. rewrite Hid in Hid2. inversion Hid2; subst id2.
      split; [now rewrite Hparent, Hfid | exact Hdid].
    + intros i chunk Hc.
      destruct (Hnth i chunk Hc) as (doc & Hdoc & Hbuild).
      destruct (chunk_doc_of_inv _ _ _ _ _ Hbuild)
        as (? & start & end_ & ? & ? & ? & _ & Hst & Hen & _ & _ & _ & _ & _ & Hso & Heo & _).
      destruct (getitem_is_dict _ _ Hst) as (c & -> & Hst').
      apply getitem_dict_get in Hen.
      exists doc. simpl. now rewrite Hst', Hen.
  - intros raw Hvalid Hshape Hrange.
    destruct (flatten_valid self raw Hvalid Hshape Hrange) as (file_doc & chunk_docs & Hflat).
    eauto.
Qed.

(** C6, as the code has it. In what [flatten_for_ai_search] returns, the
    document-level record carries the [id] of the document, the marker
    [upload] under [@search.action] and the nine named fields of
    [metadata] with their values; its keys are those eleven and no other.
    Such a return exists on every validated raw transcript document whose
    offsets are in range. *)
Theorem file_record_fields :
  (forall raw file_doc chunk_docs,
     flatten_for_ai_search self raw = Ret (Some (file_doc :: chunk_docs)) ->
     (exists id, document_field "id" raw = Some id /\ dict_get "id" file_doc = Some id)
     /\ dict_get "@search.action" file_doc = Some (JStr "upload")
     /\ (forall k, In k metadata_fields ->
           exists v, dict_get k (document_metadata raw) = Some v
                     /\ dict_get k file_doc = Some v)
     /\ map fst file_doc = "@search.action" :: "id" :: metadata_fields)
  /\ (forall raw,
        validate_document_structure self raw = Ret true ->
        is_raw_transcript_document raw = true ->
        offsets_in_range raw = true ->
        exists file_doc chunk_docs,
          flatten_for_ai_search self raw = Ret (Some (file_doc :: chunk_docs))).
Proof.
  split.
  - intros raw file_doc chunk_docs Hflat.
    destruct (flatten_inv _ _ Hflat)
      as (d & id & m & created & base & file_doc' & chunk_docs'
          & -> & _ & Hid & Hmeta & Hcreated & Hbase & Hfile & Heq & Hlen & Hnth).
    inversion Heq; subst file_doc' chunk_docs'; clear Heq.
    destruct (file_doc_of_inv _ _ Hfile) as (id1 & Hid1 & Hfid & Haction & Hfields & Hkeys).
    apply getitem_dict_get in Hid1.
    split; [exists id1; split; [exact Hid1 | exact Hfid]|].
    split; [exact Haction|]. split; [|exact Hkeys].
    intros k Hk. destruct (Hfields k Hk) as (v & Hv & Hfv).
    exists v. split; [|exact Hfv].
    unfold document_metadata. simpl. rewrite Hmeta. now apply getitem_dict_get.
  - intros raw Hvalid Hshape Hrange. now apply flatten_valid.
Qed.

(** The timestamps of the chunk-level records. *)
Lemma chunk_record_timestamps (raw : json) (docs : list pydict) :
  flatten_for_ai_search self raw = Ret (Some docs) ->
  exists created base file_doc chunk_docs,
    docs = file_doc :: chunk_docs
    /\ dict_get "created" (document_metadata raw) = Some (JStr created)
    /\ fromisoformat (rstrip_Z created) = Ret base
    /\ forall i chunk, nth_error (document_chunks raw) i = Some chunk ->
         exists doc start end_ n_start n_end t_start t_end,
           nth_error chunk_docs i = Some doc
           /\ document_field "start" chunk = Some start
           /\ document_field "end" chunk = Some end_
           /\ as_num start = Some n_start
           /\ as_num end_ = Some n_end
           /\ add_seconds base n_start = Ret t_start
           /\ add_seconds base n_end = Ret t_end
           /\ dict_get "start_at" doc = Some (JStr (isoformat t_start ++ "Z"))
           /\ dict_get "end_at" doc = Some (JStr (isoformat t_end ++ "Z")).
Proof.
  intros Hflat.
  destruct (flatten_inv _ _ Hflat)
    as (d & id & m & created & base & file_doc & chunk_docs
        & -> & _ & Hid & Hmeta & Hcreated & Hbase & Hfile & -> & Hlen & Hnth).
  exists created, base, file_doc, chunk_docs.
  split; [reflexivity|].
  split; [unfold document_metadata; simpl; now rewrite Hmeta|].
  split; [exact Hbase|].
  intros i chunk Hc.
  destruct (Hnth i chunk Hc) as (doc & Hdoc & Hbuild).
  destruct (chunk_doc_of_inv _ _ _ _ _ Hbuild)
    as (? & start & end_ & start_at & end_at & ? & _ & Hst & Hen & Hsa & Hea & _
        & _ & _ & _ & _ & Hdsa & Hdea & _).
  destruct (getitem_is_dict _ _ Hst) as (c & -> & Hst').
  apply getitem_dict_get in Hen.
  unfold offset_isoformat in Hsa, Hea.
  destruct (as_num start) as [n_start|] eqn:Hns; [|discriminate].
  destruct (as_num end_) as [n_end|] eqn:Hne; [|discriminate].
  bind_inv Hsa. bind_inv Hea. inversion Hsa; inversion Hea; subst.
  do 7 eexists. repeat split; try eassumption; reflexivity.
Qed.

End Claims.

(** ** The trailing [Z] of [created] *)

Lemma rstrip_chars_app (p : ascii -> bool) (c : ascii) (s : string) :
  p c = true -> rstrip_chars p (s ++ String c "") = rstrip_chars p s.
Proof.
  intros Hc. induction s as [|a s IH]; simpl.
  - now rewrite Hc.
  - now rewrite IH.
Qed.

Lemma rstrip_Z_app_Z (s : string) : rstrip_Z (s ++ "Z") = rstrip_Z s.
Proof.
  apply rstrip_chars_app. reflexivity.
Qed.

Lemma dict_get_set (k k' : string) (v : json) (d : pydict) :
  dict_get k (dict_set k' v d)
  = if String.eqb k k' then Some v
    else dict_get k d.
Proof.
  induction d as [|[k0 v0] d IH]; simpl.
  - destruct (String.eqb k k'); reflexivity.
  - destruct (String.eqb k' k0) eqn:E0; simpl.
    + apply String.eqb_eq in E0. subst k0.
      destruct (String.eqb k k'); reflexivity.
    + destruct (String.eqb k k0) eqn:E1.
      * apply String.eqb_eq in E1. subst k0.
        rewrite String.eqb_sym in E0. now rewrite E0.
      * exact IH.
Qed.

Lemma outcome_rel_bind {A B : Type} (R' : A -> A -> Prop) (R : B -> B -> Prop)
    (m1 m2 : outcome A) (k1 k2 : A -> outcome B) :
  outcome_rel R' m1 m2 ->
  (forall a b, R' a b -> outcome_rel R (k1 a) (k2 b)) ->
  outcome_rel R (bind m1 k1) (bind m2 k2).
Proof.
  destruct m1, m2; simpl; intros H Hk; try contradiction; auto.
Qed.

Lemma outcome_rel_eq {A : Type} (m : outcome A) : outcome_rel eq m m.
Proof.
  destruct m; simpl; auto.
Qed.

Section CreatedSuffix.

Context {RT : PyRuntime}.

Variable self : JSONFlattener.

(** Two documents that differ in the text of [metadata.created] only. *)
Variables (d1 d2 m1 m2 : pydict) (s1 s2 : string).

Hypothesis Hdoc : forall k, k <> "metadata" -> dict_get k d1 = dict_get k d2.
Hypothesis Hmeta1 : dict_get "metadata" d1 = Some (JDict m1).
Hypothesis Hmeta2 : dict_get "metadata" d2 = Some (JDict m2).
Hypothesis Hfields : forall k, k <> "created" -> dict_get k m1 = dict_get k m2.
Hypothesis Hcreated1 : dict_get "created" m1 = Some (JStr s1).
Hypothesis Hcreated2 : dict_get "created" m2 = Some (JStr s2).
Hypothesis Hstrip : rstrip_Z s1 = rstrip_Z s2.

Lemma suffix_dict_mem (k : string) : dict_mem k d1 = dict_mem k d2.
Proof.
  unfold dict_mem. destruct (String.eqb_spec k "metadata") as [->|Hk].
  - now rewrite Hmeta1, Hmeta2.
  - now rewrite (Hdoc Hk).
Qed.

Lemma suffix_validate :
  validate_document_structure self (JDict d1) = validate_document_structure self (JDict d2).
Proof.
  unfold validate_document_structure, validate_run, validate_body.
  rewrite (filter_ext _ (fun key => negb (dict_mem key d2)))
    by (intros k; now rewrite suffix_dict_mem).
  rewrite Hmeta1, Hmeta2.
  rewrite (Hdoc (k := "id")) by discriminate.
  rewrite (Hdoc (k := "transcript_chunks")) by discriminate.
  reflexivity.
Qed.

(** Reads one field on both sides. *)
Ltac both_read :=
  match goal with
  | |- outcome_rel _ (bind (dict_getitem "created" m1) _) _ =>
      eapply outcome_rel_bind with (R' := fun _ _ => True);
      [unfold dict_getitem; rewrite Hcreated1, Hcreated2; exact I | intros ? ? _]
  | |- outcome_rel _ (bind (dict_getitem ?key m1) _) _ =>
      eapply outcome_rel_bind with (R' := eq);
      [unfold dict_getitem; rewrite (@Hfields key) by discriminate; apply outcome_rel_eq
      | intros ? ? <-]
  | |- outcome_rel _ (bind (dict_getitem ?key d1) _) _ =>
      eapply outcome_rel_bind with (R' := eq);
      [unfold dict_getitem; rewrite (@Hdoc key) by discriminate; apply outcome_rel_eq
      | intros ? ? <-]
  | |- outcome_rel _ (bind ?m _) (bind ?m _) =>
      eapply outcome_rel_bind with (R' := eq); [apply outcome_rel_eq | intros ? ? <-]
  end.

Lemma suffix_file_doc :
  outcome_rel same_timing (file_doc_of (JDict d1) (JDict m1)) (file_doc_of (JDict d2) (JDict m2)).
Proof.
  unfold file_doc_of. cbn [getitem]. repeat both_read.
  cbn [outcome_rel]. split; reflexivity.
Qed.

Lemma suffix_chunk_doc (base : datetime) (i : nat) (chunk : json) :
  outcome_rel same_timing
    (chunk_doc_of (JDict d1) (JDict m1) base i chunk)
    (chunk_doc_of (JDict d2) (JDict m2) base i chunk).
Proof.
  unfold chunk_doc_of. cbn [getitem]. repeat both_read.
  cbn [outcome_rel]. split; reflexivity.
Qed.

Lemma suffix_chunk_loop (base : datetime) (chunks : list json) :
  forall (i : nat) (docs1 docs2 : list pydict),
    Forall2 same_timing docs1 docs2 ->
    outcome_rel (Forall2 same_timing)
      (chunk_loop (JDict d1) (JDict m1) base i chunks docs1)
      (chunk_loop (JDict d2) (JDict m2) base i chunks docs2).
Proof.
  induction chunks as [|c rest IH]; intros i docs1 docs2 Hdocs; simpl.
  - exact Hdocs.
  - eapply outcome_rel_bind; [apply suffix_chunk_doc|].
    intros a b Hab. apply IH. apply Forall2_app; [exact Hdocs|].
    constructor; [exact Hab | constructor].
Qed.

Lemma suffix_flatten_body :
  outcome_rel (fun r1 r2 => timing (Ret r1) = timing (Ret r2))
    (flatten_body self (JDict d1)) (flatten_body self (JDict d2)).
Proof.
  unfold flatten_body. rewrite suffix_validate.
  destruct (validate_document_structure self (JDict d2)) as [valid|]; cbn [bind]; [|exact I].
  destruct (negb valid); [reflexivity|].
  cbn [getitem].
  rewrite (@dict_getitem_get _ _ _ Hmeta1), (@dict_getitem_get _ _ _ Hmeta2).
  cbn [bind getitem].
  rewrite (@dict_getitem_get _ _ _ Hcreated1), (@dict_getitem_get _ _ _ Hcreated2).
  cbn [bind method_rstrip_Z]. rewrite Hstrip.
  destruct (fromisoformat (rstrip_Z s2)) as [base|]; cbn [bind]; [|exact I].
  eapply outcome_rel_bind; [apply suffix_file_doc|].
  intros f1 f2 Hf. both_read. both_read.
  eapply outcome_rel_bind.
  - apply suffix_chunk_loop. constructor; [exact Hf | constructor].
  - intros docs1 docs2 Hdocs. simpl. f_equal.
    induction Hdocs as [|r1 r2 l1 l2 [Hs He] _ IH]; simpl; [reflexivity|].
    now rewrite Hs, He, IH.
Qed.

Lemma suffix_timing :
  timing (flatten_for_ai_search self (JDict d1)) = timing (flatten_for_ai_search self (JDict d2)).
Proof.
  unfold flatten_for_ai_search. pose proof suffix_flatten_body as H.
  destruct (flatten_body self (JDict d1)), (flatten_body self (JDict d2));
    simpl in *; try contradiction; auto.
Qed.

End CreatedSuffix.

Lemma with_created_timing {RT : PyRuntime} (self : JSONFlattener) (raw : json) (s : string) :
  timing (flatten_for_ai_search self (with_created (s ++ "Z") raw))
  = timing (flatten_for_ai_search self (with_created s raw)).
Proof.
  destruct raw as [| | | | | |d]; try reflexivity. simpl.
  destruct (dict_get "metadata" d) as [[| | | | | |m]|]; try reflexivity.
  eapply suffix_timing with (s1 := (s ++ "Z")%string) (s2 := s).
  - intros k Hk. rewrite !dict_get_set.
    apply String.eqb_neq in Hk. now rewrite Hk.
  - rewrite dict_get_set. reflexivity.
  - rewrite dict_get_set. reflexivity.
  - intros k Hk. rewrite !dict_get_set.
    apply String.eqb_neq in Hk. now rewrite Hk.
  - rewrite dict_get_set. reflexivity.
  - rewrite dict_get_set. reflexivity.
  - apply rstrip_Z_app_Z.
Qed.

(** C3. In what [flatten_for_ai_search] returns, with [base] the timestamp
    read from [metadata.created] without its trailing [Z], the record of
    the chunk at position [i] has for [start_at] (resp. [end_at]) the ISO
    writing of [base] plus the [start] (resp. [end]) seconds of that chunk,
    followed by the letter [Z]; two documents that differ only in that
    [created] ends with one more [Z] in the first give the same [start_at]
    and [end_at], record by record; and such a return exists on every
    validated raw transcript document whose offsets are in range. *)
Theorem chunk_timestamps {RT : PyRuntime} (self : JSONFlattener) :
  (forall raw docs,
     flatten_for_ai_search self raw = Ret (Some docs) ->
     exists created base file_doc chunk_docs,
       docs = file_doc :: chunk_docs
       /\ dict_get "created" (document_metadata raw) = Some (JStr created)
       /\ fromisoformat (rstrip_Z created) = Ret base
       /\ forall i chunk, nth_error (document_chunks raw) i = Some chunk ->
            exists doc start end_ n_start n_end t_start t_end,
              nth_error chunk_docs i = Some doc
              /\ document_field "start" chunk = Some start
              /\ document_field "end" chunk = Some end_
              /\ as_num start = Some n_start
              /\ as_num end_ = Some n_end
              /\ add_seconds base n_start = Ret t_start
              /\ add_seconds base n_end = Ret t_end
              /\ dict_get "start_at" doc = Some (JStr (isoformat t_start ++ "Z"))
              /\ dict_get "end_at" doc = Some (JStr (isoformat t_end ++ "Z")))
  /\ (forall raw s,
        timing (flatten_for_ai_search self (with_created (s ++ "Z") raw))
        = timing (flatten_for_ai_search self (with_created s raw)))
  /\ (forall raw,
        validate_document_structure self raw = Ret true ->
        is_raw_transcript_document raw = true ->
        offsets_in_range raw = true ->
        exists docs, flatten_for_ai_search self raw = Ret (Some docs)).
Proof.
  split; [|split].
  - intros raw docs Hflat. now apply (chunk_record_timestamps self).
  - intros raw s. apply with_created_timing.
  - intros raw Hvalid Hshape Hrange.
    destruct (flatten_valid self raw Hvalid Hshape Hrange) as (file_doc & chunk_docs & Hflat).
    eauto.
Qed.

(** ** The batch driver *)

Section Batch.

Context {RT : PyRuntime}.

Variables (self : JSONFlattener) (fs : filesystem).

(** What the projector returns is a validated document's records: the
    document-level record, then the chunk-level records. *)
Lemma flatten_some_inv (raw : json) (docs : list pydict) :
  flatten_for_ai_search self raw = Ret (Some docs) ->
  validate_document_structure self raw = Ret true
  /\ exists file_doc chunk_docs,
       docs = file_doc :: chunk_docs
       /\ dict_mem "flattened_transcript" file_doc = true
       /\ dict_mem "parentDocId" file_doc = false
       /\ Forall (fun doc => dict_mem "parentDocId" doc = true
                             /\ dict_mem "flattened_transcript" doc = false) chunk_docs.
Proof.
  intros Hflat.
  destruct (flatten_inv _ _ Hflat)
    as (d & id & m & created & base & file_doc & chunk_docs
        & -> & Hvalid & _ & _ & _ & _ & Hfile & -> & Hlen & Hnth).
  split; [exact Hvalid|].
  destruct (file_doc_of_inv _ _ Hfile) as (? & _ & _ & _ & Hfields & Hkeys).
  exists file_doc, chunk_docs. split; [reflexivity|]. split; [|split].
  - destruct (Hfields "flattened_transcript") as (v & _ & Hv); [simpl; tauto|].
    unfold dict_mem. now rewrite Hv.
  - rewrite dict_mem_keys, Hkeys. reflexivity.
  - apply Forall_forall. intros doc Hin.
    destruct (In_nth_error _ _ Hin) as (j & Hj).
    destruct (nth_error_same_length _ (document_chunks (JDict d)) _ Hlen Hj) as (chunk & Hc).
    destruct (Hnth j chunk Hc) as (doc' & Hdoc' & Hbuild).
    rewrite Hj in Hdoc'. inversion Hdoc'; subst doc'.
    destruct (chunk_doc_of_inv _ _ _ _ _ Hbuild)
      as (? & ? & ? & ? & ? & ? & _ & _ & _ & _ & _ & _ & _ & Hparent & _ & _ & _ & _ & _ & _ & Hnot).
    split; [unfold dict_mem; now rewrite Hparent | exact Hnot].
Qed.

(** One turn of the loop on a well-formed file and on a malformed one. *)
Lemma process_well_formed (st : batch_state) (path : string) (docs : list pydict) :
  well_formed_file self fs path docs ->
  process_file self fs false st path = count_processed st docs.
Proof.
  intros (f & document & Hfs & Hload & Hflat).
  destruct (flatten_some_inv _ Hflat) as (Hvalid & file_doc & chunk_docs & -> & _).
  unfold process_file. rewrite Hfs, Hload. cbn [bind]. rewrite Hvalid. cbn [bind negb].
  rewrite Hflat. reflexivity.
Qed.

Lemma process_malformed (validate_only : bool) (st : batch_state) (path : string) :
  malformed_file self fs path ->
  process_file self fs validate_only st path = count_error st
  \/ validate_only = true.
Proof.
  intros [Hfs | f e Hfs Hload | f document Hfs Hload Hvalid | f document Hfs Hload Hflat];
    unfold process_file; rewrite Hfs; try rewrite Hload; cbn [bind].
  - now left.
  - now left.
  - rewrite Hvalid. now left.
  - destruct (validate_document_structure self document) as [[|]|]; cbn [bind negb].
    + destruct validate_only; [now right|]. rewrite Hflat. now left.
    + now left.
    + now left.
Qed.

(** Every turn counts its file once, as processed or as an error. *)
Lemma process_file_counts (validate_only : bool) (st : batch_state) (path : string) :
  let st' := process_file self fs validate_only st path in
  processed_count st' + error_count st' = processed_count st + error_count st + 1.
Proof.
  unfold process_file.
  destruct (fs path) as [f|]; [|simpl; lia].
  destruct (load_document f) as [document|]; cbn [bind]; [|simpl; lia].
  destruct (validate_document_structure self document) as [[|]|]; cbn [bind negb];
    try (simpl; lia).
  destruct validate_only; [simpl; lia|].
  destruct (flatten_for_ai_search self document) as [[[|doc docs]|]|]; simpl; lia.
Qed.

Lemma batch_fold_counts (validate_only : bool) (json_files : list string) :
  forall st,
    let st' := fold_left (process_file self fs validate_only) json_files st in
    processed_count st' + error_count st'
    = processed_count st + error_count st + Z.of_nat (List.length json_files).
Proof.
  induction json_files as [|path rest IH]; intros st; simpl.
  - lia.
  - specialize (IH (process_file self fs validate_only st path)). simpl in IH.
    pose proof (process_file_counts validate_only st path) as Hstep. simpl in Hstep.
    rewrite IH, Hstep. lia.
Qed.

(** The records of a turn are those of its file. *)
Lemma process_file_records (st : batch_state) (path : string) :
  flattened_documents (process_file self fs false st path)
  = (flattened_documents st ++ file_records self fs path)%list.
Proof.
  unfold process_file, file_records.
  destruct (fs path) as [f|]; [|simpl; now rewrite app_nil_r].
  destruct (load_document f) as [document|]; cbn [bind]; [|simpl; now rewrite app_nil_r].
  destruct (flatten_for_ai_search self document) as [[docs|]|] eqn:Hflat.
  - destruct (flatten_some_inv _ Hflat) as (Hvalid & file_doc & chunk_docs & -> & _).
    rewrite Hvalid. reflexivity.
  - destruct (validate_document_structure self document) as [[|]|]; simpl;
      now rewrite app_nil_r.
  - destruct (validate_document_structure self document) as [[|]|]; simpl;
      now rewrite app_nil_r.
Qed.

Lemma batch_fold_records (json_files : list string) :
  forall st,
    flattened_documents (fold_left (process_file self fs false) json_files st)
    = (flattened_documents st ++ List.concat (map (file_records self fs) json_files))%list.
Proof.
  induction json_files as [|path rest IH]; intros st; simpl.
  - now rewrite app_nil_r.
  - rewrite IH, process_file_records. now rewrite app_assoc.
Qed.

Lemma file_records_shape (path : string) :
  file_records self fs path = []
  \/ exists file_doc chunk_docs,
       file_records self fs path = file_doc :: chunk_docs
       /\ dict_mem "flattened_transcript" file_doc = true
       /\ dict_mem "parentDocId" file_doc = false
       /\ Forall (fun doc => dict_mem "parentDocId" doc = true
                             /\ dict_mem "flattened_transcript" doc = false) chunk_docs.
Proof.
  unfold file_records.
  destruct (fs path) as [f|]; [|now left].
  destruct (load_document f) as [document|]; [|now left].
  destruct (flatten_for_ai_search self document) as [[docs|]|] eqn:Hflat;
    [|now left|now left].
  right. destruct (flatten_some_inv _ Hflat) as (_ & file_doc & chunk_docs & -> & H).
  exists file_doc, chunk_docs. split; [reflexivity | exact H].
Qed.

End Batch.

Lemma batch_loop_counts {RT : PyRuntime} (self : JSONFlattener) (fs : filesystem)
    (json_files : list string) (validate_only : bool) :
  processed_count (batch_loop self fs validate_only json_files)
  + error_count (batch_loop self fs validate_only json_files)
  = Z.of_nat (List.length json_files).
Proof.
  unfold batch_loop.
  pose proof (batch_fold_counts self fs validate_only json_files
                {| flattened_documents := []; processed_count := 0; error_count := 0 |}) as H.
  cbv zeta in H. rewrite H. simpl. lia.
Qed.

(** C4. With one well-formed file and one malformed file, in either order,
    the driver returns exactly the records of the well-formed file and
    ends with one file counted as processed and one as an error. Whatever
    the files, every one of them is counted once, so that no failure stops
    the loop; the returned list is, file after file in the order of the
    input, the records of each file, which are none or the document-level
    record followed by the chunk-level records. *)
Theorem batch_mixed_files {RT : PyRuntime} (self : JSONFlattener) (fs : filesystem) :
  (forall good bad docs,
     well_formed_file self fs good docs ->
     malformed_file self fs bad ->
     forall json_files,
       json_files = [good; bad] \/ json_files = [bad; good] ->
       batch_loop self fs false json_files
       = {| flattened_documents := docs; processed_count := 1; error_count := 1 |}
       /\ batch_flatten_json self fs json_files false = Ret docs)
  /\ (forall json_files validate_only,
        processed_count (batch_loop self fs validate_only json_files)
        + error_count (batch_loop self fs validate_only json_files)
        = Z.of_nat (List.length json_files))
  /\ (forall json_files,
        json_files <> [] ->
        batch_flatten_json self fs json_files false
        = Ret (List.concat (map (file_records self fs) json_files)))
  /\ (forall path,
        file_records self fs path = []
        \/ exists file_doc chunk_docs,
             file_records self fs path = file_doc :: chunk_docs
             /\ dict_mem "flattened_transcript" file_doc = true
             /\ dict_mem "parentDocId" file_doc = false
             /\ Forall (fun doc => dict_mem "parentDocId" doc = true
                                   /\ dict_mem "flattened_transcript" doc = false)
                  chunk_docs).
Proof.
  pose proof (batch_loop_counts self fs) as Hcount.
  split; [|split; [exact Hcount | split]].
  - intros good bad docs Hgood Hbad json_files Hfiles.
    assert (Hloop : batch_loop self fs false json_files
                    = {| flattened_documents := docs; processed_count := 1; error_count := 1 |}).
    { unfold batch_loop.
      destruct Hfiles as [-> | ->]; simpl.
      - rewrite (process_well_formed _ Hgood).
        destruct (process_malformed false
                    (count_processed
                       {| flattened_documents := []; processed_count := 0; error_count := 0 |}
                       docs) Hbad) as [-> | ?]; [reflexivity | discriminate].
      - destruct (process_malformed false
                    {| flattened_documents := []; processed_count := 0; error_count := 0 |}
                    Hbad) as [-> | ?]; [|discriminate].
        rewrite (process_well_formed _ Hgood). reflexivity. }
    split; [exact Hloop|].
    unfold batch_flatten_json. rewrite Hloop. reflexivity.
  - intros json_files Hne. unfold batch_flatten_json.
    destruct (_ =? 0) eqn:Hz.
    + apply Z.eqb_eq in Hz. rewrite Hcount in Hz.
      destruct json_files; [contradiction | simpl in Hz; lia].
    + unfold batch_loop. now rewrite batch_fold_records.
  - apply file_records_shape.
Qed.

(** C10. [batch_flatten_json] called with an empty list of files raises
    [ZeroDivisionError], from the success rate of its last log line; and
    this is the only way it raises. *)
Theorem batch_empty_raises {RT : PyRuntime} (self : JSONFlattener) (fs : filesystem)
    (validate_only : bool) :
  batch_flatten_json self fs [] validate_only = Raise ZeroDivisionError
  /\ (forall json_files e,
        batch_flatten_json self fs json_files validate_only = Raise e ->
        json_files = [] /\ e = ZeroDivisionError).
Proof.
  split; [reflexivity|].
  intros json_files e. unfold batch_flatten_json.
  destruct (_ =? 0) eqn:Hz; [|discriminate].
  apply Z.eqb_eq in Hz. rewrite batch_loop_counts in Hz.
  intros He. inversion He; subst e. split; [|reflexivity].
  destruct json_files; [reflexivity | simpl in Hz; lia].
Qed.

(** ** The statistics *)

Lemma py_set_pair_str (p1 p2 : string) :
  exists l, py_set [JStr p1; JStr p2] [] = Ret l.
Proof.
  simpl. destruct (String.eqb p2 p1); simpl; eauto.
Qed.

Lemma py_set_pair_int (n1 n2 : Z) :
  exists l, py_set [JInt n1; JInt n2] [] = Ret l.
Proof.
  simpl. destruct (n2 =? n1); simpl; eauto.
Qed.

Lemma seconds_inv (n : Z) (v : json) (f : float) :
  float_of_Z n = Ret f -> seconds n v -> v = JInt n \/ v = JFloat f.
Proof.
  intros Hf [-> | (g & Hg & ->)]; [now left|].
  right. rewrite Hf in Hg. now inversion Hg.
Qed.

(** The statistics of one document-level record and two chunk-level records
    whose offsets are 0 to 5 and 5 to 12 seconds. *)
Lemma statistics_fixture (file_doc c1 c2 : pydict) (s1 e1 s2 e2 : json) :
  is_file_record file_doc ->
  is_chunk_record c1 s1 e1 -> is_chunk_record c2 s2 e2 ->
  seconds 0 s1 -> seconds 5 e1 -> seconds 5 s2 -> seconds 12 e2 ->
  exists stats total,
    get_document_statistics [file_doc; c1; c2] = Ret stats
    /\ dict_get "total_duration" stats = Some total
    /\ py_eqb total (JFloat 12) = true
    /\ dict_get "avg_chunk_duration" stats = Some (JFloat 6)
    /\ dict_get "chunk_documents" stats = Some (JInt 2)
    /\ dict_get "file_documents" stats = Some (JInt 1).
Proof.
  intros (Hft & Hfp) (Hc1f & (p1 & Hp1) & (n1 & Hn1) & (t1 & Ht1) & Hs1 & He1)
         (Hc2f & (p2 & Hp2) & (n2 & Hn2) & (t2 & Ht2) & Hs2 & He2) Hv1 Hv2 Hv3 Hv4.
  assert (Hc1p : dict_mem "parentDocId" c1 = true) by (unfold dict_mem; now rewrite Hp1).
  assert (Hc2p : dict_mem "parentDocId" c2 = true) by (unfold dict_mem; now rewrite Hp2).
  unfold get_document_statistics, statistics_body.
  cbn [filter]. rewrite Hft, Hfp, Hc1f, Hc2f, Hc1p, Hc2p.
  cbn [map]. unfold dict_get_default.
  rewrite Hp1, Hp2, Hn1, Hn2, Ht1, Ht2.
  destruct (py_set_pair_str p1 p2) as (parents & ->).
  destruct (py_set_pair_int n1 n2) as (speakers & ->).
  cbn [bind sum_len py_len duration_loop]. unfold dict_get_default.
  rewrite Hs1, He1, Hs2, He2.
  apply (@seconds_inv 0 s1 0%float eq_refl) in Hv1.
  apply (@seconds_inv 5 e1 5%float eq_refl) in Hv2.
  apply (@seconds_inv 5 s2 5%float eq_refl) in Hv3.
  apply (@seconds_inv 12 e2 12%float eq_refl) in Hv4.
  destruct Hv1 as [-> | ->], Hv2 as [-> | ->], Hv3 as [-> | ->], Hv4 as [-> | ->];
    do 2 eexists; (split; [vm_compute; reflexivity|]); repeat split; reflexivity.
Qed.

(** The two counts are those of the records that hold [flattened_transcript]
    and of the records that hold [parentDocId]. *)
Lemma statistics_classes (flat_documents : list pydict) (stats : pydict) :
  flat_documents <> [] ->
  statistics_body flat_documents = Ret stats ->
  dict_get "file_documents" stats
  = Some (JInt (list_len (filter (dict_mem "flattened_transcript") flat_documents)))
  /\ dict_get "chunk_documents" stats
     = Some (JInt (list_len (filter (dict_mem "parentDocId") flat_documents))).
Proof.
  intros Hne H. destruct flat_documents as [|doc rest]; [contradiction|].
  unfold statistics_body in H. do 5 bind_inv H. inversion H; subst stats.
  split; reflexivity.
Qed.

(** C8. On one document-level record and two chunk-level records whose
    offsets are 0 to 5 and 5 to 12 seconds, [get_document_statistics]
    reports a total duration equal to 12.0, an average chunk duration of
    6.0, two chunk documents and one file document; and whenever it
    reports, the file documents are the records that hold
    [flattened_transcript] and the chunk documents those that hold
    [parentDocId]. *)
Theorem statistics_of_fixture :
  (forall file_doc c1 c2 s1 e1 s2 e2,
     is_file_record file_doc ->
     is_chunk_record c1 s1 e1 -> is_chunk_record c2 s2 e2 ->
     seconds 0 s1 -> seconds 5 e1 -> seconds 5 s2 -> seconds 12 e2 ->
     exists stats total,
       get_document_statistics [file_doc; c1; c2] = Ret stats
       /\ dict_get "total_duration" stats = Some total
       /\ py_eqb total (JFloat 12) = true
       /\ dict_get "avg_chunk_duration" stats = Some (JFloat 6)
       /\ dict_get "chunk_documents" stats = Some (JInt 2)
       /\ dict_get "file_documents" stats = Some (JInt 1))
  /\ (forall flat_documents stats,
        flat_documents <> [] ->
        statistics_body flat_documents = Ret stats ->
        dict_get "file_documents" stats
        = Some (JInt (list_len (filter (dict_mem "flattened_transcript") flat_documents)))
        /\ dict_get "chunk_documents" stats
           = Some (JInt (list_len (filter (dict_mem "parentDocId") flat_documents)))).
Proof.
  split.
  - intros. eapply statistics_fixture; eassumption.
  - intros. now apply statistics_classes.
Qed.

(** ** The generic key flattener *)

Section JsonInduction.

Variable P : json -> Prop.

Hypothesis HNull : P JNull.
Hypothesis HBool : forall b, P (JBool b).
Hypothesis HInt : forall n, P (JInt n).
Hypothesis HFloat : forall f, P (JFloat f).
Hypothesis HStr : forall s, P (JStr s).
Hypothesis HList : forall l, Forall P l -> P (JList l).
Hypothesis HDict : forall d, Forall (fun kv => P (snd kv)) d -> P (JDict d).

(** Induction on a JSON value, with the hypothesis on every element of a
    list and on every value of a dict. *)
Fixpoint json_nested_ind (v : json) : P v :=
  match v with
  | JNull => HNull
  | JBool b => HBool b
  | JInt n => HInt n
  | JFloat f => HFloat f
  | JStr s => HStr s
  | JList l =>
      HList ((fix all (l : list json) : Forall P l :=
                match l with
                | [] => Forall_nil P
                | x :: rest => Forall_cons x (json_nested_ind x) (all rest)
                end) l)
  | JDict d =>
      HDict ((fix all (d : list (string * json)) : Forall (fun kv => P (snd kv)) d :=
                match d with
                | [] => Forall_nil _
                | kv :: rest => Forall_cons kv (json_nested_ind (snd kv)) (all rest)
                end) d)
  end.

End JsonInduction.

Section KeyFlattener.

Context {RT : PyRuntime}.

(** Past the maximal depth nothing is written. *)
Lemma _flatten_beyond_max_depth (self : JSONFlattener) (obj : json) (prefix : string)
    (depth : Z) (flattened : list (string * string)) :
  max_depth self < depth -> _flatten self obj prefix depth flattened = flattened.
Proof.
  intros H. apply Z.gtb_lt in H. destruct obj; simpl; now rewrite H.
Qed.

(** The separator of the flattener has no part in the keys. *)
Lemma _flatten_ignores_separator (sep sep' : string) (depth0 : Z) (obj : json) :
  forall prefix depth flattened,
    _flatten (init sep depth0) obj prefix depth flattened
    = _flatten (init sep' depth0) obj prefix depth flattened.
Proof.
  induction obj as [| | | | |l IH|d IH] using json_nested_ind;
    intros prefix depth flattened; try reflexivity.
  - simpl. destruct (depth >? depth0); [reflexivity|].
    generalize 0%nat. revert flattened.
    induction IH as [|x rest Hx _ IHrest]; intros flattened i; [reflexivity|].
    rewrite Hx. apply IHrest.
  - simpl. destruct (depth >? depth0); [reflexivity|].
    revert flattened.
    induction IH as [|[k x] rest Hx _ IHrest]; intros flattened; [reflexivity|].
    simpl in Hx. unfold _sanitize_key at 1. fold (_sanitize_key (init sep' depth0) k).
    rewrite Hx. apply IHrest.
Qed.

Lemma flatten_json_list_example (sep : string) :
  flatten_json (init sep 10) (JDict [("a", JList [JInt 1; JInt 2])]) ""
  = [("a[0]", "1"); ("a[1]", "2")].
Proof. reflexivity. Qed.

Lemma flatten_json_leading_digit (sep : string) (n : Z) :
  _sanitize_key (init sep 10) "1x" = "field_1x"
  /\ flatten_json (init sep 10) (JDict [("1x", JInt n)]) "" = [("field_1x", str_of_Z n)].
Proof. split; reflexivity. Qed.

(** A value under ten keys is written, a value under eleven keys is not. *)
Lemma flatten_json_depth_example (sep : string) :
  let nest := fun v => JDict [("k", v)] in
  let ten := fun v => nest (nest (nest (nest (nest (nest (nest (nest (nest (nest v))))))))) in
  flatten_json (init sep 10) (ten (JInt 1)) "" = [("kkkkkkkkkk", "1")]
  /\ flatten_json (init sep 10) (nest (ten (JInt 1))) "" = [].
Proof. split; reflexivity. Qed.

(** C7, as the code has it. [flatten_json] joins the key of a nested dict
    to its prefix with nothing in between, whatever the separator of the
    flattener: the value at [b] inside [a] is written under [ab], and not
    under [a_b]. *)
Theorem flatten_json_nested_key (sep : string) :
  flatten_json (init sep 10) (JDict [("a", JDict [("b", JInt 1)])]) "" = [("ab", "1")]
  /\ flatten_json (init sep 10) (JDict [("a", JDict [("b", JInt 1)])]) ""
     <> [("a_b", "1")].
Proof. split; [reflexivity | discriminate]. Qed.

End KeyFlattener.

(** * The properties on the sample inputs *)

Lemma sample_records_flattened :
  flatten_for_ai_search default_flattener sample_document = Ret (Some sample_records).
Proof. vm_compute. reflexivity. Qed.

(** The sample transcript gives three records, the document-level record
    first. *)
Lemma flatten_record_count_witness :
  validate_document_structure default_flattener sample_document = Ret true
  /\ is_raw_transcript_document sample_document = true
  /\ offsets_in_range sample_document = true
  /\ exists file_doc chunk_docs,
       flatten_for_ai_search default_flattener sample_document
       = Ret (Some (file_doc :: chunk_docs))
       /\ List.length (file_doc :: chunk_docs) = 3%nat
       /\ dict_mem "flattened_transcript" file_doc = true.
Proof.
  assert (Hv : validate_document_structure default_flattener sample_document = Ret true)
    by (vm_compute; reflexivity).
  assert (Hs : is_raw_transcript_document sample_document = true)
    by (vm_compute; reflexivity).
  assert (Hr : offsets_in_range sample_document = true) by (vm_compute; reflexivity).
  split; [exact Hv|]. split; [exact Hs|]. split; [exact Hr|].
  destruct (flatten_record_count default_flattener sample_document Hv Hs Hr)
    as (file_doc & chunk_docs & Hflat & Hlen & _ & _ & Hft & _).
  exists file_doc, chunk_docs. split; [exact Hflat|]. split; [exact Hlen | exact Hft].
Defined.

(** The transcript created in the last seconds of the year 9999 passes the
    validator and has the shape of a raw transcript document, yet its first
    chunk ends after the last timestamp and the projector returns [None]. *)
Lemma flatten_record_count_counterexample :
  validate_document_structure default_flattener sample_document_late = Ret true
  /\ is_raw_transcript_document sample_document_late = true
  /\ List.length (document_chunks sample_document_late) = 2%nat
  /\ flatten_body default_flattener sample_document_late = Raise OverflowError
  /\ flatten_for_ai_search default_flattener sample_document_late = Ret None.
Proof. repeat split; vm_compute; reflexivity. Qed.

(** The validator looks for the key [text], not for a string under it: a
    chunk whose text is [null] is accepted, and [strip] raises on it. *)
Lemma flatten_null_text :
  validate_document_structure default_flattener sample_document_null_text = Ret true
  /\ flatten_body default_flattener sample_document_null_text = Raise AttributeError
  /\ flatten_for_ai_search default_flattener sample_document_null_text = Ret None.
Proof. repeat split; vm_compute; reflexivity. Qed.

(** The second chunk of the sample transcript gives the record [call-17_1]
    of parent [call-17]. *)
Lemma chunk_record_ids_witness :
  flatten_for_ai_search default_flattener sample_document = Ret (Some sample_records)
  /\ exists doc,
       nth_error sample_records 2 = Some doc
       /\ dict_get "parentDocId" doc = Some (JStr "call-17")
       /\ dict_get "id" doc = Some (JStr "call-17_1").
Proof.
  split; [exact sample_records_flattened|].
  destruct (proj1 (chunk_record_ids default_flattener) sample_document sample_records
              sample_records_flattened)
    as (file_id & file_doc & chunk_docs & Heq & Hid & Hfid & _ & Hrec & _).
  inversion Heq; subst file_doc chunk_docs; clear Heq.
  inversion Hid; subst file_id; clear Hid.
  eexists. split; [reflexivity|].
  destruct (Hrec 1%nat _ eq_refl) as (Hp & Hi).
  split; [rewrite Hp; reflexivity | exact Hi].
Defined.

(** The second chunk of the sample transcript, from 5 to 12.5 seconds after
    ten o'clock. *)
Lemma chunk_timestamps_witness :
  flatten_for_ai_search default_flattener sample_document = Ret (Some sample_records)
  /\ exists doc,
       nth_error sample_records 2 = Some doc
       /\ dict_get "start_at" doc = Some (JStr "2024-01-01T10:00:05Z")
       /\ dict_get "end_at" doc = Some (JStr "2024-01-01T10:00:12.500000Z").
Proof.
  split; [exact sample_records_flattened|].
  destruct (proj1 (chunk_timestamps default_flattener) sample_document sample_records
              sample_records_flattened)
    as (created & base & file_doc & chunk_docs & Heq & Hcreated & Hbase & Hrec).
  inversion Heq; subst file_doc chunk_docs; clear Heq.
  inversion Hcreated; subst created; clear Hcreated.
  vm_compute in Hbase. inversion Hbase; subst base; clear Hbase.
  destruct (Hrec 1%nat _ eq_refl)
    as (doc & start & end_ & n_start & n_end & t_start & t_end
        & Hdoc & Hst & Hen & Hns & Hne & Hts & Hte & Hsa & Hea).
  exists doc. split; [exact Hdoc|].
  inversion Hst; subst start. inversion Hen; subst end_.
  inversion Hns; subst n_start. inversion Hne; subst n_end.
  vm_compute in Hts. inversion Hts; subst t_start.
  vm_compute in Hte. inversion Hte; subst t_end.
  split; [rewrite Hsa | rewrite Hea]; vm_compute; reflexivity.
Defined.

(** The document-level record of the sample transcript. *)
Lemma file_record_fields_witness :
  exists file_doc chunk_docs,
    sample_records = file_doc :: chunk_docs
    /\ dict_get "id" file_doc = Some (JStr "call-17")
    /\ dict_get "@search.action" file_doc = Some (JStr "upload")
    /\ dict_get "sha256" file_doc = Some (JStr "9f2c")
    /\ List.length file_doc = 11%nat.
Proof.
  eexists. eexists. split; [reflexivity|].
  destruct (proj1 (file_record_fields default_flattener) sample_document _ _
              sample_records_flattened)
    as ((id & Hid & Hfid) & Haction & Hfields & Hkeys).
  inversion Hid; subst id; clear Hid.
  split; [exact Hfid|]. split; [exact Haction|]. split.
  - destruct (Hfields "sha256") as (v & Hv & Hfv); [simpl; tauto|].
    inversion Hv; subst v. exact Hfv.
  - rewrite <- (length_map fst), Hkeys. reflexivity.
Defined.

(** The field [extra] of the metadata is in no record of the output. *)
Lemma file_record_fields_counterexample :
  validate_document_structure default_flattener sample_document_extra = Ret true
  /\ is_raw_transcript_document sample_document_extra = true
  /\ dict_get "extra" (document_metadata sample_document_extra) = Some (JInt 1)
  /\ exists file_doc chunk_docs,
       flatten_for_ai_search default_flattener sample_document_extra
       = Ret (Some (file_doc :: chunk_docs))
       /\ dict_get "extra" file_doc = None.
Proof.
  repeat split; try (vm_compute; reflexivity).
  do 2 eexists. split; vm_compute; reflexivity.
Qed.

(** The driver on the sample directory, the well-formed file first or
    last. *)
Lemma batch_mixed_files_witness :
  batch_loop default_flattener sample_files false ["good.json"; "bad.json"]
  = {| flattened_documents := sample_records; processed_count := 1; error_count := 1 |}
  /\ batch_flatten_json default_flattener sample_files ["bad.json"; "good.json"] false
     = Ret sample_records.
Proof.
  assert (Hgood : well_formed_file default_flattener sample_files "good.json" sample_records).
  { eexists. eexists. split; [reflexivity|]. split; [reflexivity|].
    exact sample_records_flattened. }
  assert (Hbad : malformed_file default_flattener sample_files "bad.json").
  { eapply file_not_valid; [reflexivity | reflexivity | vm_compute; reflexivity]. }
  destruct (batch_mixed_files default_flattener sample_files) as (H & _).
  split.
  - apply (H _ _ _ Hgood Hbad). now left.
  - apply (H _ _ _ Hgood Hbad). now right.
Defined.

(** Four malformed documents. *)
Lemma validate_rejects_malformed_witness :
  validate_document_structure default_flattener (JDict [("metadata", JDict [])]) = Ret false
  /\ validate_document_structure default_flattener (JDict [("id", JStr "call-18")]) = Ret false
  /\ validate_document_structure default_flattener
       (JDict [("id", JStr "call-18"); ("metadata", JDict []);
               ("transcript_chunks", JStr "none")]) = Ret false
  /\ validate_document_structure default_flattener
       (JDict [("id", JStr "call-18"); ("metadata", JDict []);
               ("transcript_chunks",
                JList [JDict [("speaker", JInt 0); ("start", JInt 0); ("end", JInt 5)]])])
     = Ret false.
Proof.
  destruct (validate_rejects_malformed "_" 10) as (H1 & H2 & H3 & H4 & _).
  split; [apply H1; reflexivity|].
  split; [apply H2; reflexivity|].
  split.
  - eapply H3; [reflexivity | discriminate].
  - eapply H4 with (field := "text"); [reflexivity | now left | simpl; tauto | reflexivity].
Defined.

(** The statistics of the fixture. *)
Lemma statistics_of_fixture_witness :
  exists stats total,
    get_document_statistics fixture = Ret stats
    /\ dict_get "total_duration" stats = Some total
    /\ py_eqb total (JFloat 12) = true
    /\ dict_get "avg_chunk_duration" stats = Some (JFloat 6)
    /\ dict_get "chunk_documents" stats = Some (JInt 2)
    /\ dict_get "file_documents" stats = Some (JInt 1).
Proof.
  apply (proj1 statistics_of_fixture fixture_file
           (fixture_chunk "call-17_0" 0 (JInt 0) (JInt 5) "hello there")
           (fixture_chunk "call-17_1" 1 (JFloat 5) (JFloat 12) "general")
           (JInt 0) (JInt 5) (JFloat 5) (JFloat 12)).
  - split; reflexivity.
  - repeat split; try reflexivity; eexists; reflexivity.
  - repeat split; try reflexivity; eexists; reflexivity.
  - left. reflexivity.
  - left. reflexivity.
  - right. exists 5%float. split; reflexivity.
  - right. exists 12%float. split; reflexivity.
Defined.

(** * Further properties *)

(** ** The validator, completely *)

Lemma filter_nil_forall {A : Type} (f : A -> bool) (l : list A) :
  filter f l = [] <-> forall x, In x l -> f x = false.
Proof.
  induction l as [|a l IH]; simpl.
  - split; [intros _ x [] | reflexivity].
  - destruct (f a) eqn:E; split.
    + discriminate.
    + intros H. specialize (H a (or_introl eq_refl)). congruence.
    + intros H x [<- | Hx]; [exact E | now apply IH].
    + intros H. apply IH. intros x Hx. apply H. now right.
Qed.

Lemma validate_chunk_accepts (i : nat) (chunk : json) :
  snd (validate_chunk i chunk) = true <-> chunk_accepted chunk.
Proof.
  unfold chunk_accepted. destruct chunk as [| | | | | |c];
    try (cbn [validate_chunk snd];
         split; [discriminate | intros (c & Hc & _); discriminate]).
  unfold validate_chunk.
  destruct (filter (fun field => negb (dict_mem field c)) required_chunk_fields)
    as [|f fs] eqn:Hf; cbn [snd].
  - split; [intros _ | reflexivity]. exists c. split; [reflexivity|].
    intros field Hin. rewrite filter_nil_forall in Hf. specialize (Hf field Hin).
    now destruct (dict_mem field c).
  - split; [discriminate|]. intros (c' & Hc & Hall). inversion Hc; subst c'.
    assert (Hin : In f (filter (fun field => negb (dict_mem field c)) required_chunk_fields))
      by (rewrite Hf; now left).
    apply filter_In in Hin. destruct Hin as (Hin & Hneg).
    rewrite (Hall f Hin) in Hneg. discriminate.
Qed.

Lemma validate_chunks_accepts (chunks : list json) :
  forall i, snd (validate_chunks i chunks) = true <-> Forall chunk_accepted chunks.
Proof.
  induction chunks as [|c rest IH]; intros i; simpl.
  - split; [constructor | reflexivity].
  - pose proof (validate_chunk_accepts i c) as Hc.
    destruct (validate_chunk i c) as [logs [|]]; simpl in *.
    + rewrite IH. split.
      * intros H. constructor; [now apply Hc | exact H].
      * intros H. now inversion H.
    + split; [discriminate|]. intros H. inversion H; subst.
      destruct Hc as (_ & Hc). now apply Hc.
Qed.

(** X1. [validate_document_structure] answers [True] on a dict exactly when
    its [id] is truthy, its [metadata] is a dict and its
    [transcript_chunks], when there is one, is a list of dicts that all
    have [speaker], [start], [end] and [text]. *)
Theorem validate_accepts_iff (sep : string) (depth : Z) (doc : pydict) :
  validate_document_structure (init sep depth) (JDict doc) = Ret true
  <-> (exists id, dict_get "id" doc = Some id /\ truthy id = true)
      /\ (exists m, dict_get "metadata" doc = Some (JDict m))
      /\ (dict_get "transcript_chunks" doc = None
          \/ exists chunks, dict_get "transcript_chunks" doc = Some (JList chunks)
                            /\ Forall chunk_accepted chunks).
Proof.
  unfold validate_document_structure, validate_run, validate_body. simpl.
  unfold dict_mem.
  destruct (dict_get "id" doc) as [id|] eqn:Hid; simpl.
  2:{ split; [discriminate|]. intros ((id & Hx & _) & _). discriminate. }
  destruct (dict_get "metadata" doc) as [m|] eqn:Hm; simpl.
  2:{ split; [discriminate|]. intros (_ & (m & Hx) & _). discriminate. }
  destruct (truthy id) eqn:Ht; simpl.
  2:{ split; [discriminate|]. intros ((id' & Hx & Hy) & _).
      inversion Hx; subst. congruence. }
  destruct m as [| | | | | |m];
    try (simpl; split; [discriminate | intros (_ & (m' & Hx) & _); discriminate]).
  destruct (dict_get "transcript_chunks" doc) as [v|] eqn:Hc.
  2:{ simpl. split; [|reflexivity]. intros _. repeat split; eauto. }
  destruct v as [| | | | |chunks|];
    try (simpl; split;
         [discriminate | intros (_ & _ & [Hx | (chunks & Hx & _)]); discriminate]).
  pose proof (validate_chunks_accepts chunks 0) as Hall.
  destruct (validate_chunks 0 chunks) as [logs valid]. simpl in *.
  split.
  - intros H. inversion H; subst valid. repeat split; eauto.
    right. exists chunks. split; [reflexivity | now apply Hall].
  - intros (_ & _ & [Hx | (chunks' & Hx & Hf)]); [discriminate|].
    inversion Hx; subst chunks'. apply Hall in Hf. now rewrite Hf.
Qed.

(** X2. [validate_document_structure] answers [False] on every value that
    is not a dict: a list, a string, a number, a boolean or [null]. *)
Theorem validate_rejects_non_dict (sep : string) (depth : Z) :
  (forall l, validate_document_structure (init sep depth) (JList l) = Ret false)
  /\ (forall s, validate_document_structure (init sep depth) (JStr s) = Ret false)
  /\ (forall n, validate_document_structure (init sep depth) (JInt n) = Ret false)
  /\ (forall f, validate_document_structure (init sep depth) (JFloat f) = Ret false)
  /\ (forall b, validate_document_structure (init sep depth) (JBool b) = Ret false)
  /\ validate_document_structure (init sep depth) JNull = Ret false.
Proof.
  unfold validate_document_structure, validate_run, validate_body.
  repeat split; intros; try reflexivity.
  - destruct (filter _ _); reflexivity.
  - destruct (filter _ _); reflexivity.
Qed.

(** ** What the validator logs *)

Lemma validate_chunk_fault (i : nat) (chunk : json) :
  snd (validate_chunk i chunk) = false ->
  validate_chunk i chunk = ([(ERROR, chunk_fault i chunk)], false).
Proof.
  unfold validate_chunk, chunk_fault. destruct chunk as [| | | | | |c]; try reflexivity.
  destruct (filter (fun field => negb (dict_mem field c)) required_chunk_fields);
    [discriminate | reflexivity].
Qed.

(** The loop stops at the first chunk it rejects and reports that one. *)
Lemma validate_chunks_first (chunks : list json) :
  forall k logs,
    validate_chunks k chunks = (logs, false) ->
    exists i chunk,
      nth_error chunks i = Some chunk
      /\ (forall j c, (j < i)%nat -> nth_error chunks j = Some c -> chunk_accepted c)
      /\ ~ chunk_accepted chunk
      /\ logs = [(ERROR, chunk_fault (k + i) chunk)].
Proof.
  induction chunks as [|c rest IH]; intros k logs H; simpl in H.
  - discriminate.
  - pose proof (validate_chunk_accepts k c) as Hacc.
    destruct (validate_chunk k c) as [clogs [|]] eqn:Hc.
    + destruct (IH _ _ H) as (i & chunk & Hn & Hbefore & Hbad & ->).
      exists (S i), chunk. split; [exact Hn|]. split; [|split; [exact Hbad|]].
      * intros [|j] x Hj Hx; simpl in Hx.
        -- inversion Hx; subst x. now apply Hacc.
        -- apply (Hbefore j); [lia | exact Hx].
      * now replace (k + S i)%nat with (S k + i)%nat by lia.
    + exists 0%nat, c. split; [reflexivity|]. split; [intros j x Hj; lia|]. split.
      * intros Hx. apply Hacc in Hx. discriminate.
      * rewrite validate_chunk_fault in Hc by (now rewrite Hc).
        rewrite Nat.add_0_r. inversion H. inversion Hc. subst. reflexivity.
Qed.

Lemma validate_chunks_true_log (chunks : list json) :
  forall k logs, validate_chunks k chunks = (logs, true) -> logs = [].
Proof.
  induction chunks as [|c rest IH]; intros k logs H; simpl in H.
  - now inversion H.
  - destruct (validate_chunk k c) as [clogs [|]] eqn:Hc; [now apply IH in H|].
    inversion H.
Qed.

(** X3. When the validator rejects a dict for its chunks, it has logged the
    transcript schema and then one error about the first chunk it rejects:
    the chunks before it are acceptable, and the error names its index and,
    for a dict, exactly the fields it lacks. *)
Theorem validate_reports_first_chunk (sep : string) (depth : Z) (doc : pydict)
    (id : json) (m : pydict) (chunks : list json) :
  dict_get "id" doc = Some id ->
  truthy id = true ->
  dict_get "metadata" doc = Some (JDict m) ->
  dict_get "transcript_chunks" doc = Some (JList chunks) ->
  validate_document_structure (init sep depth) (JDict doc) = Ret false ->
  exists i chunk,
    nth_error chunks i = Some chunk
    /\ (forall j c, (j < i)%nat -> nth_error chunks j = Some c -> chunk_accepted c)
    /\ ~ chunk_accepted chunk
    /\ validate_log (init sep depth) (JDict doc)
       = [(INFO, DetectedTranscriptSchema); (ERROR, chunk_fault i chunk)].
Proof.
  intros Hid Ht Hm Hc.
  unfold validate_document_structure, validate_log, validate_run, validate_body. simpl.
  unfold dict_mem. rewrite Hid, Hm, Hc, Ht. simpl.
  destruct (validate_chunks 0 chunks) as [logs valid] eqn:Hv. simpl.
  intros H. inversion H; subst valid.
  destruct (validate_chunks_first _ _ Hv) as (i & chunk & Hn & Hbefore & Hbad & ->).
  exists i, chunk. repeat split; assumption.
Qed.

Lemma validate_reports_first_chunk_witness :
  exists i chunk,
    nth_error [JDict [("speaker", JInt 0); ("start", JInt 0); ("end", JInt 1);
                      ("text", JStr "hi")];
               JDict [("speaker", JInt 1); ("start", JInt 1)];
               JStr "not a chunk"] i = Some chunk
    /\ validate_log default_flattener
         (JDict [("id", JStr "call-20"); ("metadata", JDict []);
                 ("transcript_chunks",
                  JList [JDict [("speaker", JInt 0); ("start", JInt 0); ("end", JInt 1);
                                ("text", JStr "hi")];
                         JDict [("speaker", JInt 1); ("start", JInt 1)];
                         JStr "not a chunk"])])
       = [(INFO, DetectedTranscriptSchema); (ERROR, ChunkMissingFields 1 ["end"; "text"])].
Proof.
  destruct (@validate_reports_first_chunk "_" 10
              [("id", JStr "call-20"); ("metadata", JDict []);
               ("transcript_chunks",
                JList [JDict [("speaker", JInt 0); ("start", JInt 0); ("end", JInt 1);
                              ("text", JStr "hi")];
                       JDict [("speaker", JInt 1); ("start", JInt 1)];
                       JStr "not a chunk"])]
              (JStr "call-20") [] _ eq_refl eq_refl eq_refl eq_refl eq_refl)
    as (i & chunk & Hn & _ & _ & Hlog).
  exists i, chunk. split; [exact Hn | reflexivity].
Defined.

Lemma one_fault_single (l : log_level) (msg : log_message) :
  l <> INFO -> one_fault [(l, msg)].
Proof. intros Hl. exists [], (l, msg). repeat split. now destruct l. Qed.

Lemma one_fault_after_info (msg msg' : log_message) (l : log_level) :
  l <> INFO -> one_fault [(INFO, msg); (l, msg')].
Proof. intros Hl. exists [(INFO, msg)], (l, msg'). repeat split. now destruct l. Qed.

Lemma validate_body_log (self : JSONFlattener) (document : json) :
  match validate_body self document with
  | (logs, Ret true) => forallb is_info logs = true
  | (logs, Ret false) => one_fault logs
  | (logs, Raise _) => logs = []
  end.
Proof.
  unfold validate_body. destruct document as [| | | |s|l|d]; try reflexivity.
  - destruct (filter _ _); [reflexivity | apply one_fault_single; discriminate].
  - destruct (filter _ _); [reflexivity | apply one_fault_single; discriminate].
  - destruct (filter _ _); [|apply one_fault_single; discriminate].
    destruct (negb _); [apply one_fault_single; discriminate|].
    destruct (match dict_get "metadata" d with Some m => m | None => JDict [] end);
      try (apply one_fault_single; discriminate).
    destruct (dict_get "transcript_chunks" d) as [v|]; [|reflexivity].
    destruct v; try (apply one_fault_after_info; discriminate).
    destruct (validate_chunks 0 l) as [clogs [|]] eqn:Hv.
    + apply validate_chunks_true_log in Hv. now subst clogs.
    + destruct (validate_chunks_first _ _ Hv) as (i & chunk & _ & _ & _ & ->).
      apply one_fault_after_info. discriminate.
Qed.

(** X4. A document the validator accepts has brought no warning and no
    error to the log, and a document it does not accept (whatever its type)
    has brought exactly one, as the last line. *)
Theorem validate_log_levels (sep : string) (depth : Z) (document : json) :
  (validate_document_structure (init sep depth) document = Ret true
   /\ forallb is_info (validate_log (init sep depth) document) = true)
  \/ (validate_document_structure (init sep depth) document = Ret false
      /\ exists info fault,
           validate_log (init sep depth) document = (info ++ [fault])%list
           /\ forallb is_info info = true
           /\ is_info fault = false).
Proof.
  unfold validate_document_structure, validate_log, validate_run.
  pose proof (validate_body_log (init sep depth) document) as H.
  destruct (validate_body (init sep depth) document) as [logs [[|]|e]]; simpl.
  - left. now split.
  - right. now split.
  - right. split; [reflexivity|]. subst logs.
    exists [], (ERROR, ErrorValidating e). repeat split.
Qed.

(** ** The sanitizer of keys *)

Lemma replace_char_absent (a b : ascii) (s : string) :
  char_in a s = false -> replace_char a b s = s.
Proof.
  induction s as [|c s IH]; simpl; [reflexivity|].
  intros H. apply orb_false_iff in H. destruct H as (Hc & Hs).
  rewrite Hc. now rewrite IH.
Qed.

Lemma replace_char_removes (a b : ascii) (s : string) :
  a <> b -> char_in a (replace_char a b s) = false.
Proof.
  intros Hab. induction s as [|c s IH]; simpl; [reflexivity|].
  rewrite IH, orb_false_r. destruct (Ascii.eqb c a) eqn:Hc; [|exact Hc].
  apply Ascii.eqb_neq. congruence.
Qed.

Lemma replace_char_keeps (a b c : ascii) (s : string) :
  c <> b -> char_in c s = false -> char_in c (replace_char a b s) = false.
Proof.
  intros Hcb. induction s as [|x s IH]; simpl; [reflexivity|].
  intros H. apply orb_false_iff in H. destruct H as (Hx & Hs).
  rewrite (IH Hs), orb_false_r. destruct (Ascii.eqb x a); [|exact Hx].
  apply Ascii.eqb_neq. congruence.
Qed.

Section Sanitizer.

Context {RT : PyRuntime}.

Variable self : JSONFlattener.

Let replaced (key : string) : string :=
  (replace_char "." "_" (replace_char "-" "_" (replace_char " " "_" key)))%char.

Lemma replaced_clean (key : string) :
  char_in " " (replaced key) = false
  /\ char_in "-" (replaced key) = false
  /\ char_in "." (replaced key) = false.
Proof.
  unfold replaced. repeat split.
  - do 2 (apply replace_char_keeps; [discriminate|]).
    apply replace_char_removes. discriminate.
  - apply replace_char_keeps; [discriminate|].
    apply replace_char_removes. discriminate.
  - apply replace_char_removes. discriminate.
Qed.

Lemma replaced_fixed (s : string) :
  char_in " " s = false -> char_in "-" s = false -> char_in "." s = false ->
  replaced s = s.
Proof.
  intros H1 H2 H3. unfold replaced.
  rewrite (@replace_char_absent " " "_" s H1), (@replace_char_absent "-" "_" s H2).
  exact (@replace_char_absent "." "_" s H3).
Qed.

Lemma _sanitize_key_clean (key : string) :
  char_in " " (_sanitize_key self key) = false
  /\ char_in "-" (_sanitize_key self key) = false
  /\ char_in "." (_sanitize_key self key) = false.
Proof.
  destruct (replaced_clean key) as (H1 & H2 & H3).
  unfold _sanitize_key. fold (replaced key).
  destruct (replaced key) as [|c s]; [repeat split|].
  destruct (negb (isalpha c) && negb (Ascii.eqb c "_")); [|now repeat split].
  simpl in *. now repeat split.
Qed.

Lemma _sanitize_key_start (key : string) :
  match _sanitize_key self key with
  | EmptyString => key = ""
  | String c _ => isalpha c || Ascii.eqb c "_" = true
  end.
Proof.
  unfold _sanitize_key. fold (replaced key).
  destruct (replaced key) as [|c s] eqn:Hr.
  - destruct key; [reflexivity | discriminate].
  - destruct (isalpha c) eqn:Ha, (Ascii.eqb c "_") eqn:Hu; cbn [negb andb];
      try (now rewrite Ha, Hu).
    reflexivity.
Qed.

(** X5. A sanitized key holds no space, no hyphen and no dot; it is empty
    only for the empty key, and otherwise starts with a letter or an
    underscore; and sanitizing it again changes nothing. *)
Theorem sanitized_key_shape (key : string) :
  (char_in " " (_sanitize_key self key) = false
   /\ char_in "-" (_sanitize_key self key) = false
   /\ char_in "." (_sanitize_key self key) = false)
  /\ (_sanitize_key self key = "" <-> key = "")
  /\ (forall c rest, _sanitize_key self key = String c rest ->
                     isalpha c = true \/ c = "_"%char)
  /\ _sanitize_key self (_sanitize_key self key) = _sanitize_key self key.
Proof.
  pose proof (_sanitize_key_clean key) as (H1 & H2 & H3).
  pose proof (_sanitize_key_start key) as Hstart.
  split; [now repeat split|]. split; [|split].
  - split.
    + intros H. now rewrite H in Hstart.
    + intros ->. reflexivity.
  - intros c rest H. rewrite H in Hstart.
    apply orb_true_iff in Hstart. destruct Hstart as [Ha | Hu]; [now left|].
    right. now apply Ascii.eqb_eq in Hu.
  - destruct (_sanitize_key self key) as [|c s] eqn:Hk; [reflexivity|].
    unfold _sanitize_key. fold (replaced (String c s)).
    rewrite (@replaced_fixed _ H1 H2 H3).
    destruct (isalpha c), (Ascii.eqb c "_"); simpl in *; (reflexivity || discriminate).
Qed.

End Sanitizer.

(** ** The generic key flattener *)

Lemma new_key_app (current_prefix s : string) :
  (if negb (String.eqb current_prefix "") then current_prefix ++ s else s)
  = current_prefix ++ s.
Proof. destruct current_prefix; reflexivity. Qed.

Lemma str_app_assoc (a b c : string) : (a ++ b) ++ c = a ++ (b ++ c).
Proof. induction a as [|x a IH]; simpl; [reflexivity | now rewrite IH]. Qed.

Lemma str_app_nil_r (a : string) : a ++ "" = a.
Proof. induction a as [|x a IH]; simpl; [reflexivity | now rewrite IH]. Qed.

Lemma str_eqb_app (p a b : string) : String.eqb (p ++ a) (p ++ b) = String.eqb a b.
Proof. induction p as [|x p IH]; simpl; [reflexivity | now rewrite Ascii.eqb_refl]. Qed.

Lemma dict_set_prefixed (p k x : string) (flattened : list (string * string)) :
  dict_set (p ++ k) x (prefixed p flattened) = prefixed p (dict_set k x flattened).
Proof.
  induction flattened as [|[k' x'] rest IH]; simpl; [reflexivity|].
  rewrite str_eqb_app. destruct (String.eqb k k'); simpl; [reflexivity|].
  now rewrite IH.
Qed.

Section KeyFlattenerLaws.

Context {RT : PyRuntime}.

Variable self : JSONFlattener.

Lemma _flatten_scalar (v : json) (prefix : string) (depth : Z)
    (flattened : list (string * string)) :
  is_scalar v = true ->
  _flatten self v prefix depth flattened
  = if depth >? max_depth self then flattened
    else dict_set prefix (scalar_text v) flattened.
Proof. destruct v; (discriminate || reflexivity). Qed.

Lemma _flatten_single (key : string) (v : json) (prefix : string) (depth : Z)
    (flattened : list (string * string)) :
  _flatten self (JDict [(key, v)]) prefix depth flattened
  = if depth >? max_depth self then flattened
    else _flatten self v (prefix ++ _sanitize_key self key) (depth + 1) flattened.
Proof. simpl. now rewrite new_key_app. Qed.

Lemma _flatten_nest (keys : list string) (v : json) :
  is_scalar v = true ->
  forall prefix depth flattened,
    _flatten self (nest keys v) prefix depth flattened
    = if depth + Z.of_nat (List.length keys) <=? max_depth self
      then dict_set (prefix ++ fold_right append "" (map (_sanitize_key self) keys))
             (scalar_text v) flattened
      else flattened.
Proof.
  intros Hv. induction keys as [|key rest IH]; intros prefix depth flattened.
  - cbn [nest List.length map fold_right]. rewrite _flatten_scalar by assumption. rewrite str_app_nil_r.
    destruct (Z.gtb_spec depth (max_depth self)), (Z.leb_spec (depth + Z.of_nat 0) (max_depth self));
      (reflexivity || lia).
  - cbn [nest map fold_right]. rewrite _flatten_single, IH, str_app_assoc.
    rewrite length_cons, Nat2Z.inj_succ.
    destruct (Z.gtb_spec depth (max_depth self)),
      (Z.leb_spec (depth + 1 + Z.of_nat (List.length rest)) (max_depth self)),
      (Z.leb_spec (depth + Z.succ (Z.of_nat (List.length rest))) (max_depth self));
      (reflexivity || lia).
Qed.

(** X6. A scalar under a chain of dict keys is written under the
    sanitized keys put end to end, with nothing between them, if the chain
    has at most [max_depth] keys; a longer chain leaves no trace in the
    output. *)
Theorem flatten_json_nested_chain (keys : list string) (v : json) :
  is_scalar v = true ->
  flatten_json self (nest keys v) ""
  = if Z.of_nat (List.length keys) <=? max_depth self
    then [(fold_right append "" (map (_sanitize_key self) keys), scalar_text v)]
    else [].
Proof.
  intros Hv. unfold flatten_json. rewrite _flatten_nest by assumption. reflexivity.
Qed.

(** X7. Two keys of one dict that are sanitized to the same key collide:
    only the value of the later one is kept. *)
Theorem flatten_json_key_collision (key1 key2 : string) (v1 v2 : json) :
  1 <= max_depth self ->
  is_scalar v1 = true ->
  is_scalar v2 = true ->
  _sanitize_key self key1 = _sanitize_key self key2 ->
  flatten_json self (JDict [(key1, v1); (key2, v2)]) ""
  = [(_sanitize_key self key2, scalar_text v2)].
Proof.
  intros Hd Hv1 Hv2 Hk. unfold flatten_json. cbn [_flatten].
  destruct (Z.gtb_spec 0 (max_depth self)); [lia|].
  cbn [String.eqb negb]. rewrite !_flatten_scalar by assumption.
  destruct (Z.gtb_spec (0 + 1) (max_depth self)); [lia|].
  rewrite Hk. simpl. now rewrite String.eqb_refl.
Qed.

Lemma _flatten_prefixed (p : string) (obj : json) :
  forall q depth flattened,
    _flatten self obj (p ++ q) depth (prefixed p flattened)
    = prefixed p (_flatten self obj q depth flattened).
Proof.
  induction obj as [| | | | |l IH|d IH] using json_nested_ind;
    intros q depth flattened;
    try (simpl; destruct (depth >? max_depth self); [reflexivity | apply dict_set_prefixed]).
  - simpl. destruct (depth >? max_depth self); [reflexivity|].
    generalize 0%nat. revert flattened.
    induction IH as [|x rest Hx _ IHrest]; intros flattened i; [reflexivity|].
    rewrite !new_key_app, str_app_assoc, Hx. apply IHrest.
  - simpl. destruct (depth >? max_depth self); [reflexivity|].
    revert flattened.
    induction IH as [|[k x] rest Hx _ IHrest]; intros flattened; [reflexivity|].
    simpl in Hx. rewrite !new_key_app, str_app_assoc, Hx. apply IHrest.
Qed.

(** X8. The prefix given to [flatten_json] is put before every key and has
    no other effect: the output for a prefix is the output for the empty
    prefix with the prefix before each key. *)
Theorem flatten_json_prefix (nested_json : json) (prefix : string) :
  flatten_json self nested_json prefix
  = prefixed prefix (flatten_json self nested_json "").
Proof.
  unfold flatten_json.
  rewrite <- (_flatten_prefixed prefix nested_json "" 0 []), str_app_nil_r.
  reflexivity.
Qed.

End KeyFlattenerLaws.

Lemma flatten_json_key_collision_witness :
  _sanitize_key default_flattener "a b" = _sanitize_key default_flattener "a-b"
  /\ flatten_json default_flattener (JDict [("a b", JInt 1); ("a-b", JInt 2)]) ""
     = [("a_b", "2")].
Proof.
  split; [reflexivity|].
  exact (@flatten_json_key_collision reference_runtime default_flattener
           "a b" "a-b" (JInt 1) (JInt 2) ltac:(simpl; lia) eq_refl eq_refl eq_refl).
Defined.

Lemma flatten_json_nested_chain_witness :
  flatten_json default_flattener
    (JDict [("call info", JDict [("2nd.speaker", JDict [("name", JStr "Ada")])])]) ""
  = [("call_infofield_2nd_speakername", "Ada")].
Proof.
  exact (@flatten_json_nested_chain reference_runtime default_flattener
           ["call info"; "2nd.speaker"; "name"] (JStr "Ada") eq_refl).
Defined.

(** X9. The separator given to the constructor has no effect on
    [flatten_json]: two flatteners that differ only in it give the same
    output on every input. *)
Theorem flatten_json_ignores_separator {RT : PyRuntime} (sep sep' : string) (depth : Z)
    (nested_json : json) (prefix : string) :
  flatten_json (init sep depth) nested_json prefix
  = flatten_json (init sep' depth) nested_json prefix.
Proof. apply _flatten_ignores_separator. Qed.

(** ** The records of the projector *)

Lemma str_of_nat_inj (i j : nat) : str_of_nat i = str_of_nat j -> i = j.
Proof.
  unfold str_of_nat. intros H.
  assert (Hnil : forall n, Nat.to_uint n <> Decimal.Nil).
  { intros n. rewrite <- (DecimalNat.Unsigned.of_to n) at 1.
    rewrite DecimalNat.Unsigned.to_of. apply DecimalFacts.unorm_nonnil. }
  apply (f_equal NilZero.uint_of_string) in H.
  rewrite !NilZero.usu in H by apply Hnil.
  inversion H. now apply DecimalNat.Unsigned.to_uint_inj.
Qed.

Lemma str_app_inv_head (p a b : string) : p ++ a = p ++ b -> a = b.
Proof.
  induction p as [|c p IH]; simpl; intros H; [exact H|].
  inversion H. now apply IH.
Qed.

Lemma str_length_app (a b : string) :
  String.length (a ++ b) = (String.length a + String.length b)%nat.
Proof. induction a as [|c a IH]; simpl; [reflexivity | now rewrite IH]. Qed.

Lemma str_app_longer (a : string) (c : ascii) (b : string) : a <> a ++ String c b.
Proof.
  intros H. apply (f_equal String.length) in H. rewrite str_length_app in H.
  simpl in H. lia.
Qed.

Section RecordDisplays.

Context {RT : PyRuntime}.

(** The document-level record, item by item. *)
Lemma file_doc_of_display (raw meta : json) (file_doc : pydict) :
  file_doc_of raw meta = Ret file_doc ->
  exists id transaction_key request_id sha256 created duration channels Filename videolink
         flattened_transcript,
    getitem raw "id" = Ret id
    /\ getitem meta "flattened_transcript" = Ret flattened_transcript
    /\ file_doc = [("@search.action", JStr "upload");
                   ("id", id);
                   ("transaction_key", transaction_key);
                   ("request_id", request_id);
                   ("sha256", sha256);
                   ("created", created);
                   ("duration", duration);
                   ("channels", channels);
                   ("Filename", Filename);
                   ("videolink", videolink);
                   ("flattened_transcript", flattened_transcript)]
    /\ getitem meta "transaction_key" = Ret transaction_key
    /\ getitem meta "request_id" = Ret request_id
    /\ getitem meta "sha256" = Ret sha256
    /\ getitem meta "created" = Ret created
    /\ getitem meta "duration" = Ret duration
    /\ getitem meta "channels" = Ret channels
    /\ getitem meta "Filename" = Ret Filename
    /\ getitem meta "videolink" = Ret videolink.
Proof.
  unfold file_doc_of. intros H. do 10 bind_inv H. inversion H; subst file_doc; clear H.
  do 10 eexists. repeat split; eassumption.
Qed.

(** A chunk-level record, item by item. *)
Lemma chunk_doc_of_display (raw meta : json) (base : datetime) (i : nat) (chunk : json)
    (doc : pydict) :
  chunk_doc_of raw meta base i chunk = Ret doc ->
  exists id transaction_key request_id sha256 created duration channels Filename videolink
         speaker start end_ start_at end_at text,
    getitem raw "id" = Ret id
    /\ getitem chunk "speaker" = Ret speaker
    /\ getitem chunk "start" = Ret start
    /\ getitem chunk "end" = Ret end_
    /\ getitem chunk "text" = Ret (JStr text)
    /\ offset_isoformat base start = Ret start_at
    /\ offset_isoformat base end_ = Ret end_at
    /\ doc = [("@search.action", JStr "upload");
              ("id", JStr (py_str id ++ "_" ++ str_of_nat i));
              ("parentDocId", id);
              ("transaction_key", transaction_key);
              ("request_id", request_id);
              ("sha256", sha256);
              ("created", created);
              ("duration", duration);
              ("channels", channels);
              ("Filename", Filename);
              ("videolink", videolink);
              ("speaker", speaker);
              ("start_offset", start);
              ("end_offset", end_);
              ("start_at", JStr start_at);
              ("end_at", JStr end_at);
              ("text", JStr (strip text))]
    /\ getitem meta "transaction_key" = Ret transaction_key
    /\ getitem meta "request_id" = Ret request_id
    /\ getitem meta "sha256" = Ret sha256
    /\ getitem meta "created" = Ret created
    /\ getitem meta "duration" = Ret duration
    /\ getitem meta "channels" = Ret channels
    /\ getitem meta "Filename" = Ret Filename
    /\ getitem meta "videolink" = Ret videolink.
Proof.
  unfold chunk_doc_of. intros H. do 17 bind_inv H. inversion H; subst doc; clear H.
  repeat match goal with
         | H1 : getitem raw "id" = Ret _, H2 : getitem raw "id" = Ret _ |- _ =>
             rewrite H1 in H2; inversion H2; subst; clear H2
         end.
  match goal with
  | H : method_strip ?t = Ret _ |- _ =>
      destruct t; try discriminate; simpl in H; inversion H; subst; clear H
  end.
  do 15 eexists. repeat split; eassumption.
Qed.

Variable self : JSONFlattener.

(** Every record of an output of the projector, from the input. *)
Lemma flatten_records (raw : json) (docs : list pydict) :
  flatten_for_ai_search self raw = Ret (Some docs) ->
  exists d id m base file_doc chunk_docs,
    raw = JDict d
    /\ dict_get "id" d = Some id
    /\ truthy id = true
    /\ dict_get "metadata" d = Some (JDict m)
    /\ docs = file_doc :: chunk_docs
    /\ file_doc_of raw (JDict m) = Ret file_doc
    /\ List.length chunk_docs = List.length (document_chunks raw)
    /\ (forall j chunk, nth_error (document_chunks raw) j = Some chunk ->
          exists doc, nth_error chunk_docs j = Some doc
                      /\ chunk_doc_of raw (JDict m) base j chunk = Ret doc)
    /\ (forall j doc, nth_error chunk_docs j = Some doc ->
          exists chunk, nth_error (document_chunks raw) j = Some chunk
                        /\ chunk_doc_of raw (JDict m) base j chunk = Ret doc).
Proof.
  intros Hflat.
  destruct (flatten_inv _ _ Hflat)
    as (d & id & m & created & base & file_doc & chunk_docs
        & -> & Hvalid & Hid & Hmeta & _ & _ & Hfile & -> & Hlen & Hnth).
  exists d, id, m, base, file_doc, chunk_docs.
  repeat split; try assumption.
  - destruct self as [sep depth keys schema] eqn:Hself.
    revert Hvalid. unfold validate_document_structure, validate_run, validate_body.
    destruct (filter _ _); [|discriminate]. rewrite Hid.
    destruct (truthy id); [reflexivity | discriminate].
  - intros j doc Hj.
    destruct (nth_error_same_length _ (document_chunks (JDict d)) _ Hlen Hj) as (chunk & Hc).
    destruct (Hnth j chunk Hc) as (doc' & Hdoc' & Hbuild).
    rewrite Hj in Hdoc'. inversion Hdoc'; subst doc'. eauto.
Qed.

End RecordDisplays.

Section RecordProperties.

Context {RT : PyRuntime}.

Variable self : JSONFlattener.

Lemma flatten_record_ids (raw : json) (docs : list pydict) :
  flatten_for_ai_search self raw = Ret (Some docs) ->
  exists id file_doc chunk_docs,
    docs = file_doc :: chunk_docs
    /\ dict_get "id" file_doc = Some id
    /\ forall j doc, nth_error chunk_docs j = Some doc ->
         dict_get "id" doc = Some (JStr (py_str id ++ "_" ++ str_of_nat j)).
Proof.
  intros Hflat.
  destruct (flatten_records _ _ Hflat)
    as (d & id & m & base & file_doc & chunk_docs
        & -> & Hid & _ & _ & -> & Hfile & _ & _ & Hback).
  exists id, file_doc, chunk_docs. split; [reflexivity|]. split.
  - destruct (file_doc_of_inv _ _ Hfile) as (id' & Hid' & Hget & _).
    apply getitem_dict_get in Hid'. congruence.
  - intros j doc Hj. destruct (Hback j doc Hj) as (chunk & _ & Hbuild).
    destruct (chunk_doc_of_inv _ _ _ _ _ Hbuild)
      as (id' & ? & ? & ? & ? & ? & Hid' & _ & _ & _ & _ & _ & Hget & _).
    apply getitem_dict_get in Hid'. congruence.
Qed.

(** X10. The records of one output have pairwise distinct [id]s: the
    document-level record differs from every chunk-level record, and two
    chunk-level records differ from each other. *)
Theorem flatten_ids_distinct (raw : json) (docs : list pydict) :
  flatten_for_ai_search self raw = Ret (Some docs) ->
  NoDup (map (dict_get "id") docs).
Proof.
  intros Hflat.
  destruct (flatten_record_ids _ Hflat) as (id & file_doc & chunk_docs & -> & Hfile & Hchunk).
  cbn [map]. constructor.
  - intros Hin. apply in_map_iff in Hin. destruct Hin as (doc & Hdoc & Hin).
    destruct (In_nth_error _ _ Hin) as (j & Hj).
    rewrite (Hchunk j doc Hj), Hfile in Hdoc.
    inversion Hdoc as [Heq]. destruct id; try discriminate Heq.
    simpl in Heq. inversion Heq as [Hs]. symmetry in Hs.
    now apply str_app_longer in Hs.
  - apply NoDup_nth_error. intros i j Hi Heq.
    rewrite length_map in Hi. rewrite !nth_error_map in Heq.
    destruct (nth_error chunk_docs i) as [doc|] eqn:Hdi;
      [|apply nth_error_None in Hdi; lia].
    destruct (nth_error chunk_docs j) as [doc'|] eqn:Hdj; [|discriminate].
    simpl in Heq. rewrite (Hchunk i doc Hdi), (Hchunk j doc' Hdj) in Heq.
    inversion Heq as [Hs]. apply str_app_inv_head in Hs. inversion Hs as [Hn].
    now apply str_of_nat_inj.
Qed.

(** X11. Every chunk-level record repeats the eight metadata fields of the
    input, with the values that the document-level record has for them,
    and does not carry [flattened_transcript]. *)
Theorem chunk_records_repeat_metadata (raw : json) (file_doc : pydict)
    (chunk_docs : list pydict) :
  flatten_for_ai_search self raw = Ret (Some (file_doc :: chunk_docs)) ->
  Forall (fun doc =>
            (forall k, In k chunk_metadata_fields ->
                       exists v, dict_get k (document_metadata raw) = Some v
                                 /\ dict_get k file_doc = Some v
                                 /\ dict_get k doc = Some v)
            /\ dict_mem "flattened_transcript" doc = false) chunk_docs.
Proof.
  intros Hflat.
  destruct (flatten_records _ _ Hflat)
    as (d & id & m & base & file_doc' & chunk_docs'
        & -> & Hid & _ & Hmeta & Hdocs & Hfile & _ & _ & Hback).
  inversion Hdocs; subst file_doc' chunk_docs'; clear Hdocs.
  apply Forall_forall. intros doc Hin.
  destruct (In_nth_error _ _ Hin) as (j & Hj).
  destruct (Hback j doc Hj) as (chunk & _ & Hbuild).
  destruct (file_doc_of_display _ _ Hfile)
    as (? & ? & ? & ? & ? & ? & ? & ? & ? & ?
        & _ & _ & -> & F1 & F2 & F3 & F4 & F5 & F6 & F7 & F8).
  destruct (chunk_doc_of_display _ _ _ _ _ Hbuild)
    as (? & ? & ? & ? & ? & ? & ? & ? & ? & ? & ? & ? & ? & ? & ?
        & _ & _ & _ & _ & _ & _ & _ & -> & G1 & G2 & G3 & G4 & G5 & G6 & G7 & G8).
  rewrite F1 in G1. rewrite F2 in G2. rewrite F3 in G3. rewrite F4 in G4.
  rewrite F5 in G5. rewrite F6 in G6. rewrite F7 in G7. rewrite F8 in G8.
  inversion G1; inversion G2; inversion G3; inversion G4;
    inversion G5; inversion G6; inversion G7; inversion G8; subst.
  unfold document_metadata, document_field. rewrite Hmeta.
  apply getitem_dict_get in F1, F2, F3, F4, F5, F6, F7, F8.
  split; [|reflexivity].
  intros k Hk. simpl in Hk.
  repeat (destruct Hk as [<- | Hk]; [eexists; split; [eassumption | split; reflexivity] |]).
  contradiction.
Qed.

Lemma offset_is_numeric (base : datetime) (v : json) (s : string) :
  offset_isoformat base v = Ret s -> is_numeric v = true.
Proof.
  unfold offset_isoformat. destruct v; simpl; (reflexivity || discriminate).
Qed.

Lemma str_app_nonempty (a : string) (c : ascii) (b : string) :
  String.eqb (a ++ String c b) "" = false.
Proof. destruct a; reflexivity. Qed.

(** X12. What [validate_flattened_document] says of the records of the
    projector. The document-level record passes exactly when the [id] and
    the [flattened_transcript] of the input are strings; a chunk-level
    record passes exactly when the [speaker] of its chunk is a number,
    whatever the [id] of the input is. *)
Theorem validate_flattened_records (raw : json) (file_doc : pydict)
    (chunk_docs : list pydict) :
  flatten_for_ai_search self raw = Ret (Some (file_doc :: chunk_docs)) ->
  exists id flattened_transcript,
    document_field "id" raw = Some id
    /\ dict_get "flattened_transcript" (document_metadata raw) = Some flattened_transcript
    /\ validate_flattened_document file_doc
       = Ret (is_str id && is_str flattened_transcript)
    /\ forall j doc, nth_error chunk_docs j = Some doc ->
         exists chunk speaker,
           nth_error (document_chunks raw) j = Some chunk
           /\ document_field "speaker" chunk = Some speaker
           /\ validate_flattened_document doc = Ret (is_numeric speaker).
Proof.
  intros Hflat.
  destruct (flatten_records _ _ Hflat)
    as (d & id & m & base & file_doc' & chunk_docs'
        & -> & Hid & Htruthy & Hmeta & Hdocs & Hfile & _ & _ & Hback).
  inversion Hdocs; subst file_doc' chunk_docs'; clear Hdocs.
  destruct (file_doc_of_display _ _ Hfile)
    as (id' & ? & ? & ? & ? & ? & ? & ? & ? & flattened_transcript
        & Hid' & Hft & -> & _).
  apply getitem_dict_get in Hid', Hft.
  assert (id' = id) by congruence. subst id'.
  exists id, flattened_transcript.
  unfold document_metadata, document_field. rewrite Hmeta.
  split; [exact Hid|]. split; [exact Hft|]. split.
  - unfold validate_flattened_document, validate_flattened_body. simpl.
    rewrite Htruthy. destruct (is_str id), (is_str flattened_transcript); reflexivity.
  - intros j doc Hj. destruct (Hback j doc Hj) as (chunk & Hc & Hbuild).
    destruct (chunk_doc_of_display _ _ _ _ _ Hbuild)
      as (? & ? & ? & ? & ? & ? & ? & ? & ? & speaker & start & end_ & ? & ? & ?
          & _ & Hsp & _ & _ & _ & Hstart & Hend & -> & _).
    destruct (getitem_is_dict _ _ Hsp) as (c & -> & Hsp').
    exists (JDict c), speaker. split; [exact Hc|]. split; [exact Hsp'|].
    unfold validate_flattened_document, validate_flattened_body, validate_chunk_fields.
    simpl. rewrite str_app_nonempty. simpl.
    rewrite (offset_is_numeric _ _ Hstart), (offset_is_numeric _ _ Hend). simpl.
    destruct (is_numeric speaker); reflexivity.
Qed.

Lemma map_keys_known (mapping : list (string * string)) (doc : pydict) :
  forallb (fun k => existsb (String.eqb k) known_keys) (map fst doc) = true ->
  map_keys mapping doc = mapping.
Proof.
  unfold map_keys. generalize (map fst doc) as keys.
  induction keys as [|k keys IH]; [reflexivity|].
  cbn [forallb fold_left]. intros H. apply andb_true_iff in H. destruct H as (Hk & Hrest).
  rewrite Hk. cbn [negb]. now apply IH.
Qed.

Lemma fold_map_keys_known (docs : list pydict) (mapping : list (string * string)) :
  Forall (fun doc => forallb (fun k => existsb (String.eqb k) known_keys) (map fst doc) = true)
    docs ->
  fold_left map_keys docs mapping = mapping.
Proof.
  induction 1 as [|doc docs Hdoc _ IH]; [reflexivity|].
  cbn [fold_left]. now rewrite (map_keys_known _ _ Hdoc).
Qed.

(** X13. [get_flattened_key_mapping] returns the empty dict on every
    input: every key of every record of the projector is one of the keys
    that the loop skips. *)
Theorem key_mapping_always_empty (original_json : json) :
  get_flattened_key_mapping self original_json = Ret [].
Proof.
  unfold get_flattened_key_mapping, key_mapping_body.
  destruct (flatten_for_ai_search self original_json) as [[docs|]|e] eqn:Hflat;
    try reflexivity.
  cbn [bind].
  destruct (flatten_records _ _ Hflat)
    as (d & id & m & base & file_doc & chunk_docs
        & -> & _ & _ & _ & -> & Hfile & _ & _ & Hback).
  rewrite fold_map_keys_known; [reflexivity|].
  constructor.
  - destruct (file_doc_of_display _ _ Hfile)
      as (? & ? & ? & ? & ? & ? & ? & ? & ? & ? & _ & _ & -> & _).
    reflexivity.
  - apply Forall_forall. intros doc Hin.
    destruct (In_nth_error _ _ Hin) as (j & Hj).
    destruct (Hback j doc Hj) as (chunk & _ & Hbuild).
    destruct (chunk_doc_of_display _ _ _ _ _ Hbuild)
      as (? & ? & ? & ? & ? & ? & ? & ? & ? & ? & ? & ? & ? & ? & ?
          & _ & _ & _ & _ & _ & _ & _ & -> & _).
    reflexivity.
Qed.

End RecordProperties.

(** ** The statistics of the records of the projector *)

Lemma filter_all {A : Type} (f : A -> bool) (l : list A) :
  Forall (fun x => f x = true) l -> filter f l = l.
Proof.
  induction 1 as [|x l Hx _ IH]; simpl; [reflexivity|]. now rewrite Hx, IH.
Qed.

Lemma filter_none {A : Type} (f : A -> bool) (l : list A) :
  Forall (fun x => f x = false) l -> filter f l = [].
Proof.
  induction 1 as [|x l Hx _ IH]; simpl; [reflexivity|]. now rewrite Hx.
Qed.

Lemma Forall2_nth_error {A B : Type} (R : nat -> A -> B -> Prop) (l : list A) :
  forall (l' : list B) (i : nat),
    List.length l' = List.length l ->
    (forall j x, nth_error l j = Some x ->
       exists y, nth_error l' j = Some y /\ R (i + j)%nat x y) ->
    Forall2 (fun x y => exists j, R j x y) l l'.
Proof.
  induction l as [|x l IH]; intros [|y l'] i Hlen Hnth; try discriminate; constructor.
  - destruct (Hnth 0%nat x eq_refl) as (y' & Hy & HR). inversion Hy; subst y'. eauto.
  - apply (IH l' (S i)); [simpl in Hlen; lia|].
    intros j x' Hj. destruct (Hnth (S j) x' Hj) as (y' & Hy & HR).
    exists y'. split; [exact Hy|]. now replace (S i + j)%nat with (i + S j)%nat by lia.
Qed.

Section StatisticsOfRecords.

Context {RT : PyRuntime}.

Variable self : JSONFlattener.

Lemma duration_loop_ints (raw meta : json) (base : datetime) (chunks : list json)
    (chunk_docs : list pydict) :
  Forall2 (fun chunk doc => exists j, chunk_doc_of raw meta base j chunk = Ret doc)
    chunks chunk_docs ->
  forallb has_int_offsets chunks = true ->
  forall acc, duration_loop chunk_docs (NInt acc) = Ret (NInt (acc + total_span chunks)).
Proof.
  induction 1 as [|chunk doc chunks chunk_docs (j & Hbuild) _ IH]; intros Hint acc.
  - simpl. now rewrite Z.add_0_r.
  - cbn [forallb] in Hint. apply andb_true_iff in Hint. destruct Hint as (Hc & Hrest).
    destruct (chunk_doc_of_display _ _ _ _ _ Hbuild)
      as (? & ? & ? & ? & ? & ? & ? & ? & ? & ? & start & end_ & ? & ? & ?
          & _ & _ & Hstart & Hend & _ & _ & _ & -> & _).
    destruct (getitem_is_dict _ _ Hstart) as (c & -> & Hs).
    apply getitem_dict_get in Hend.
    unfold has_int_offsets, int_offsets, document_field in Hc.
    cbn [total_span fold_right]. unfold chunk_span at 1, int_offsets, document_field.
    rewrite Hs, Hend in *.
    destruct start; try discriminate. destruct end_; try discriminate.
    cbn [duration_loop]. unfold dict_get_default. simpl dict_get. cbn.
    rewrite (IH Hrest). f_equal. f_equal. fold (total_span chunks). lia.
Qed.

(** X14. The statistics of the records of one flattened document, when
    they are reported (the helper returns the empty dict on an error):
    the number of chunks plus one as [total_documents], one file document,
    as many chunk documents as the input has chunks and, when every offset
    of the input is an int, the exact sum of the lengths of the chunks as
    [total_duration]. *)
Theorem statistics_of_flattened (raw : json) (docs : list pydict) :
  flatten_for_ai_search self raw = Ret (Some docs) ->
  get_document_statistics docs = Ret []
  \/ exists stats,
       get_document_statistics docs = Ret stats
       /\ dict_get "total_documents" stats
          = Some (JInt (list_len (document_chunks raw) + 1))
       /\ dict_get "file_documents" stats = Some (JInt 1)
       /\ dict_get "chunk_documents" stats = Some (JInt (list_len (document_chunks raw)))
       /\ (forallb has_int_offsets (document_chunks raw) = true ->
           dict_get "total_duration" stats
           = Some (JInt (total_span (document_chunks raw)))).
Proof.
  intros Hflat.
  destruct (@flatten_some_inv _ _ _ _ Hflat)
    as (_ & file_doc & chunk_docs & Hdocs & Hft & Hfp & Hchunks).
  destruct (flatten_records _ _ Hflat)
    as (d & id & m & base & file_doc' & chunk_docs'
        & -> & _ & _ & _ & Hdocs' & _ & Hlen & Hnth & _).
  rewrite Hdocs in Hdocs'. inversion Hdocs'; subst file_doc' chunk_docs'; clear Hdocs'.
  subst docs. unfold get_document_statistics.
  destruct (statistics_body (file_doc :: chunk_docs)) as [stats|e] eqn:Hstats;
    [right | now left].
  exists stats. split; [reflexivity|].
  unfold statistics_body in Hstats. cbn [filter] in Hstats. rewrite Hft, Hfp in Hstats.
  rewrite (@filter_none _ (dict_mem "flattened_transcript") chunk_docs) in Hstats
    by (eapply Forall_impl; [|exact Hchunks]; now intros doc (_ & H)).
  rewrite (@filter_all _ (dict_mem "parentDocId") chunk_docs) in Hstats
    by (eapply Forall_impl; [|exact Hchunks]; now intros doc (H & _)).
  bind_inv_as Hstats parents Hparents. bind_inv_as Hstats text_length Hlength.
  bind_inv_as Hstats speakers Hspeakers. bind_inv_as Hstats total Htotal.
  bind_inv_as Hstats avg Havg. inversion Hstats; subst stats; clear Hstats.
  unfold list_len. cbn [List.length]. rewrite Hlen.
  split; [cbn; f_equal; f_equal; lia|]. split; [reflexivity|]. split; [reflexivity|].
  intros Hint.
  assert (Hrel : Forall2 (fun chunk doc =>
                            exists j, chunk_doc_of (JDict d) (JDict m) base j chunk = Ret doc)
                   (document_chunks (JDict d)) chunk_docs).
  { apply (@Forall2_nth_error json pydict
             (fun j chunk doc => chunk_doc_of (JDict d) (JDict m) base j chunk = Ret doc)
             (document_chunks (JDict d)) chunk_docs 0%nat); [exact Hlen | exact Hnth]. }
  rewrite (@duration_loop_ints _ _ _ _ _ Hrel Hint 0) in Htotal.
  inversion Htotal; subst total. reflexivity.
Qed.

End StatisticsOfRecords.

Lemma statistics_of_flattened_witness :
  flatten_for_ai_search default_flattener sample_document = Ret (Some sample_records)
  /\ exists stats,
       get_document_statistics sample_records = Ret stats
       /\ dict_get "total_documents" stats = Some (JInt 3)
       /\ dict_get "file_documents" stats = Some (JInt 1)
       /\ dict_get "chunk_documents" stats = Some (JInt 2).
Proof.
  split; [exact sample_records_flattened|].
  destruct (@statistics_of_flattened reference_runtime default_flattener sample_document
              sample_records sample_records_flattened)
    as [Hnone | (stats & Hstats & Htotal & Hfile & Hchunk & _)].
  - vm_compute in Hnone. discriminate Hnone.
  - exists stats. repeat split; assumption.
Defined.

(** ** What the batch driver counts *)

Section BatchCounts.

Context {RT : PyRuntime}.

Variables (self : JSONFlattener) (fs : filesystem).

Lemma process_file_validate_only (st : batch_state) (path : string) :
  process_file self fs true st path
  = if file_validates self fs path
    then {| flattened_documents := flattened_documents st;
            processed_count := processed_count st + 1;
            error_count := error_count st |}
    else count_error st.
Proof.
  unfold process_file, file_validates.
  destruct (fs path) as [f|]; [|reflexivity].
  destruct (load_document f) as [document|]; cbn [bind]; [|reflexivity].
  destruct (validate_document_structure self document) as [[|]|]; cbn [bind negb];
    try reflexivity.
  unfold count_processed. now rewrite app_nil_r.
Qed.

Lemma process_file_flatten (st : batch_state) (path : string) :
  process_file self fs false st path
  = if is_nil (file_records self fs path) then count_error st
    else count_processed st (file_records self fs path).
Proof.
  unfold process_file, file_records.
  destruct (fs path) as [f|]; [|reflexivity].
  destruct (load_document f) as [document|]; cbn [bind]; [|reflexivity].
  destruct (flatten_for_ai_search self document) as [[[|doc docs]|]|] eqn:Hflat.
  - destruct (validate_document_structure self document) as [[|]|]; reflexivity.
  - destruct (@flatten_some_inv _ _ _ _ Hflat) as (-> & _). reflexivity.
  - destruct (validate_document_structure self document) as [[|]|]; reflexivity.
  - destruct (validate_document_structure self document) as [[|]|]; reflexivity.
Qed.

Lemma fold_validate_only (json_files : list string) :
  forall st,
    flattened_documents (fold_left (process_file self fs true) json_files st)
    = flattened_documents st
    /\ processed_count (fold_left (process_file self fs true) json_files st)
       = processed_count st + list_len (filter (file_validates self fs) json_files).
Proof.
  induction json_files as [|path rest IH]; intros st.
  - simpl. split; [reflexivity | unfold list_len; simpl; lia].
  - cbn [fold_left filter]. destruct (IH (process_file self fs true st path)) as (-> & ->).
    rewrite process_file_validate_only.
    destruct (file_validates self fs path); unfold list_len; cbn [List.length];
      split; try reflexivity; simpl; lia.
Qed.

Lemma fold_flatten (json_files : list string) :
  forall st,
    processed_count (fold_left (process_file self fs false) json_files st)
    = processed_count st
      + list_len (filter (fun path => negb (is_nil (file_records self fs path))) json_files).
Proof.
  induction json_files as [|path rest IH]; intros st.
  - unfold list_len. simpl. lia.
  - cbn [fold_left filter]. rewrite IH, process_file_flatten.
    destruct (is_nil (file_records self fs path)); unfold list_len; cbn [List.length negb];
      simpl; lia.
Qed.

(** X15. In validate-only mode the batch driver flattens nothing: for a
    list of files that is not empty it returns the empty list, and it
    counts as processed the files whose document the validator accepts,
    whether or not the projector could flatten them. Otherwise it counts
    as processed the files that give records. *)
Theorem batch_validate_only (json_files : list string) :
  (json_files <> [] -> batch_flatten_json self fs json_files true = Ret [])
  /\ processed_count (batch_loop self fs true json_files)
     = list_len (filter (file_validates self fs) json_files)
  /\ processed_count (batch_loop self fs false json_files)
     = list_len (filter (fun path => negb (is_nil (file_records self fs path))) json_files).
Proof.
  split; [|split].
  - intros Hne. unfold batch_flatten_json.
    rewrite batch_loop_counts.
    destruct json_files as [|path rest]; [contradiction|].
    cbn [List.length]. rewrite Nat2Z.inj_succ.
    destruct (Z.eqb_spec (Z.succ (Z.of_nat (List.length rest))) 0) as [H|_]; [lia|].
    unfold batch_loop. now rewrite (proj1 (fold_validate_only _ _)).
  - unfold batch_loop. now rewrite (proj2 (fold_validate_only _ _)).
  - unfold batch_loop. now rewrite fold_flatten.
Qed.

End BatchCounts.

(** ** The transcript content *)

Lemma lstrip_blank (s : string) : blank s = true -> lstrip s = "".
Proof.
  induction s as [|c s IH]; simpl; [reflexivity|].
  intros H. apply andb_true_iff in H. destruct H as (Hc & Hs). now rewrite Hc, IH.
Qed.

Lemma lstrip_not_blank (s : string) :
  blank s = false -> exists c r, lstrip s = String c r /\ isspace c = false.
Proof.
  induction s as [|c s IH]; simpl; [discriminate|].
  destruct (isspace c) eqn:Hc; simpl; [exact IH | eauto].
Qed.

Lemma rstrip_chars_head (p : ascii -> bool) (c : ascii) (r : string) :
  p c = false -> exists r', rstrip_chars p (String c r) = String c r'.
Proof.
  intros Hc. simpl. destruct (rstrip_chars p r); rewrite ?Hc; eauto.
Qed.

Lemma strip_blank (s : string) : blank s = true -> strip s = "".
Proof. intros H. unfold strip. rewrite lstrip_blank by assumption. reflexivity. Qed.

Lemma strip_not_blank (s : string) :
  blank s = false -> exists c r, strip s = String c r /\ isspace c = false.
Proof.
  intros H. apply lstrip_not_blank in H. destruct H as (c & r & Hl & Hc).
  unfold strip, rstrip. rewrite Hl.
  destruct (@rstrip_chars_head isspace c r Hc) as (r' & ->). eauto.
Qed.

(** [not s.strip()] says that [s] is blank. *)
Lemma strip_empty_blank (s : string) : String.eqb (strip s) "" = blank s.
Proof.
  destruct (blank s) eqn:H.
  - rewrite strip_blank by assumption. reflexivity.
  - apply strip_not_blank in H. destruct H as (c & r & -> & _). reflexivity.
Qed.

(** A stripped string is empty or not blank. *)
Lemma strip_nonempty_not_blank (s : string) :
  String.eqb (strip s) "" = false -> blank (strip s) = false.
Proof.
  rewrite strip_empty_blank. intros H.
  apply strip_not_blank in H. destruct H as (c & r & -> & Hc). simpl. now rewrite Hc.
Qed.

Lemma blank_app (a b : string) : blank (a ++ b) = blank a && blank b.
Proof.
  induction a as [|c a IH]; simpl; [reflexivity|]. now rewrite IH, andb_assoc.
Qed.

Lemma blank_join (x : string) (rest : list string) :
  blank x = false -> blank (join " " (x :: rest)) = false.
Proof.
  intros H. destruct rest as [|y rest]; simpl; [exact H|].
  change (blank (x ++ (" " ++ join " " (y :: rest))) = false).
  now rewrite blank_app, H.
Qed.

Lemma join_parts_not_blank (parts : list string) :
  Forall (fun part => blank part = false) parts ->
  (if String.eqb (strip (join " " parts)) "" then "" else join " " parts) = join " " parts.
Proof.
  intros H. rewrite strip_empty_blank. destruct H as [|x rest Hx _]; [reflexivity|].
  rewrite blank_join by assumption. reflexivity.
Qed.

Lemma Forall2_In_r {A B : Type} (R : A -> B -> Prop) (l : list A) (l' : list B) (y : B) :
  Forall2 R l l' -> In y l' -> exists x, R x y.
Proof.
  induction 1 as [|x y' l l' HR _ IH]; intros Hin; [contradiction|].
  destruct Hin as [<- | Hin]; [eauto | now apply IH].
Qed.

Lemma chunk_parts_bad_text (chunks : list json) (c : pydict) (v : json) :
  In (JDict c) chunks ->
  dict_get "text" c = Some v ->
  is_str v = false ->
  forall content_parts, exists e, chunk_parts chunks content_parts = Raise e.
Proof.
  intros Hin Hv Hstr. induction chunks as [|chunk rest IH]; [contradiction|].
  intros content_parts. destruct Hin as [-> | Hin].
  - cbn [chunk_parts]. unfold dict_mem, dict_getitem. rewrite Hv. cbn [bind].
    destruct v; try discriminate; simpl; eauto.
  - specialize (IH Hin). cbn [chunk_parts].
    destruct chunk as [| | | | | |c']; try apply IH.
    destruct (dict_mem "text" c'); [|apply IH].
    destruct (dict_getitem "text" c') as [text|e]; cbn [bind]; [|eauto].
    destruct (method_strip text) as [t|e]; cbn [bind]; [apply IH | eauto].
Qed.

(** X16. One chunk whose [text] is not a string empties the whole
    content: whatever the other chunks and the [flattened_transcript] of
    the document hold, [extract_transcript_content] returns the empty
    string. *)
Theorem extract_voided_by_text (doc : pydict) (chunks : list json) (c : pydict) (v : json) :
  dict_get "transcript_chunks" doc = Some (JList chunks) ->
  In (JDict c) chunks ->
  dict_get "text" c = Some v ->
  is_str v = false ->
  extract_transcript_content (JDict doc) = Ret "".
Proof.
  intros Hchunks Hin Hv Hstr. unfold extract_transcript_content, extract_body.
  destruct (flattened_part (JDict doc)) as [content_parts|e]; [|reflexivity].
  cbn [bind py_contains getitem]. unfold dict_mem, dict_getitem. rewrite Hchunks.
  cbn [bind].
  destruct (@chunk_parts_bad_text chunks c v Hin Hv Hstr content_parts) as (e & ->).
  reflexivity.
Qed.

Lemma extract_voided_by_text_witness :
  extract_transcript_content
    (JDict [("id", JStr "call-21");
            ("metadata", JDict [("flattened_transcript", JStr "hello there")]);
            ("transcript_chunks",
             JList [JDict [("text", JStr "hello")]; JDict [("text", JNull)]])])
  = Ret "".
Proof.
  exact (@extract_voided_by_text
           [("id", JStr "call-21");
            ("metadata", JDict [("flattened_transcript", JStr "hello there")]);
            ("transcript_chunks",
             JList [JDict [("text", JStr "hello")]; JDict [("text", JNull)]])]
           [JDict [("text", JStr "hello")]; JDict [("text", JNull)]]
           [("text", JNull)] JNull eq_refl (or_intror (or_introl eq_refl)) eq_refl eq_refl).
Defined.

Section ContentOfRecords.

Context {RT : PyRuntime}.

Variable self : JSONFlattener.

Lemma flatten_has_chunks (d : pydict) (docs : list pydict) :
  flatten_for_ai_search self (JDict d) = Ret (Some docs) ->
  exists chunks, dict_get "transcript_chunks" d = Some (JList chunks).
Proof.
  unfold flatten_for_ai_search. intros H.
  destruct (flatten_body self (JDict d)) as [r|] eqn:Hbody; simpl in H; [|discriminate].
  inversion H; subst r; clear H. unfold flatten_body in Hbody.
  bind_inv_as Hbody valid Hvalid. destruct valid; simpl in Hbody; [|discriminate].
  do 5 bind_inv Hbody.
  bind_inv_as Hbody chunks Hchunks. apply getitem_dict_get in Hchunks.
  bind_inv_as Hbody l Hl. destruct chunks as [| | | | |chunks|]; try discriminate.
  eauto.
Qed.

Lemma chunk_parts_records (raw meta : json) (base : datetime) (chunks : list json)
    (chunk_docs : list pydict) :
  Forall2 (fun chunk doc => exists j, chunk_doc_of raw meta base j chunk = Ret doc)
    chunks chunk_docs ->
  forall content_parts,
    chunk_parts chunks content_parts
    = Ret (content_parts
           ++ filter (fun t => negb (String.eqb t "")) (map record_text chunk_docs))%list.
Proof.
  induction 1 as [|chunk doc chunks chunk_docs (j & Hbuild) _ IH]; intros content_parts.
  - simpl. now rewrite app_nil_r.
  - destruct (chunk_doc_of_display _ _ _ _ _ Hbuild)
      as (? & ? & ? & ? & ? & ? & ? & ? & ? & ? & ? & ? & ? & ? & text
          & _ & _ & _ & _ & Htext & _ & _ & -> & _).
    destruct (getitem_is_dict _ _ Htext) as (c & -> & Ht).
    cbn [chunk_parts map filter]. unfold dict_mem, dict_getitem. rewrite Ht.
    cbn [bind method_strip]. rewrite IH.
    change (record_text _) with (strip text).
    destruct (String.eqb (strip text) ""); cbn [negb]; [reflexivity|].
    now rewrite <- app_assoc.
Qed.

(** X17. For a document that the projector flattens,
    [extract_transcript_content] returns the transcript that the records
    hold: the [flattened_transcript] of the document-level record, if it
    is a string that is not blank, followed by the texts of the
    chunk-level records that are not empty, in their order and with one
    space between them. *)
Theorem extract_agrees_with_records (raw : json) (file_doc : pydict)
    (chunk_docs : list pydict) :
  flatten_for_ai_search self raw = Ret (Some (file_doc :: chunk_docs)) ->
  extract_transcript_content raw = Ret (content_of_records file_doc chunk_docs).
Proof.
  intros Hflat.
  destruct (flatten_records _ _ Hflat)
    as (d & id & m & base & file_doc' & chunk_docs'
        & -> & _ & _ & Hmeta & Hdocs & Hfile & Hlen & Hnth & _).
  inversion Hdocs; subst file_doc' chunk_docs'; clear Hdocs.
  destruct (@flatten_has_chunks _ _ Hflat) as (chunks & Hchunks).
  assert (Hrel : Forall2 (fun chunk doc =>
                            exists j, chunk_doc_of (JDict d) (JDict m) base j chunk = Ret doc)
                   chunks chunk_docs).
  { unfold document_chunks, document_field in Hlen, Hnth. rewrite Hchunks in Hlen, Hnth.
    apply (@Forall2_nth_error json pydict
             (fun j chunk doc => chunk_doc_of (JDict d) (JDict m) base j chunk = Ret doc)
             chunks chunk_docs 0%nat); [exact Hlen | exact Hnth]. }
  destruct (file_doc_of_display _ _ Hfile)
    as (? & ? & ? & ? & ? & ? & ? & ? & ? & flattened & _ & Hft & -> & _).
  apply getitem_dict_get in Hft.
  unfold extract_transcript_content, extract_body, flattened_part, content_of_records.
  cbn [py_contains getitem bind]. unfold dict_mem, dict_getitem.
  rewrite Hmeta. cbn [bind py_contains getitem]. unfold dict_mem, dict_getitem.
  rewrite Hft. cbn [bind]. rewrite Hchunks. cbn [bind].
  change (dict_get "flattened_transcript" _) with (Some flattened).
  set (texts := filter (fun t => negb (String.eqb t "")) (map record_text chunk_docs)).
  assert (Htexts : Forall (fun part => blank part = false) texts).
  { apply Forall_forall. intros t Ht. apply filter_In in Ht. destruct Ht as (Ht & Hne).
    apply in_map_iff in Ht. destruct Ht as (doc & <- & Hdoc).
    destruct (@Forall2_In_r _ _ _ _ _ doc Hrel Hdoc) as (chunk & j' & Hbuild).
    destruct (chunk_doc_of_display _ _ _ _ _ Hbuild)
      as (? & ? & ? & ? & ? & ? & ? & ? & ? & ? & ? & ? & ? & ? & text
          & _ & _ & _ & _ & _ & _ & _ & -> & _).
    change (record_text _) with (strip text) in *.
    apply strip_nonempty_not_blank. now apply negb_true_iff in Hne. }
  assert (Hparts : forall parts,
             Forall (fun part => blank part = false) parts ->
             (content_parts <- chunk_parts chunks parts ;;
              if String.eqb (strip (join " " content_parts)) "" then Ret ""
              else Ret (join " " content_parts))
             = Ret (join " " (parts ++ texts)%list)).
  { intros parts Hp. rewrite (@chunk_parts_records _ _ _ _ _ Hrel). cbn [bind]. fold texts.
    assert (Hj := @join_parts_not_blank (parts ++ texts)%list
                    (proj2 (Forall_app _ parts texts) (conj Hp Htexts))).
    destruct (String.eqb (strip (join " " (parts ++ texts)%list)) "");
      [f_equal; exact Hj | reflexivity]. }
  destruct flattened as [| | | |s| |]; cbn [bind];
    try (rewrite (Hparts [] (Forall_nil _)); reflexivity).
  rewrite strip_empty_blank. destruct (blank s) eqn:Hs; cbn [negb bind].
  - now rewrite (Hparts [] (Forall_nil _)).
  - rewrite (Hparts [s]); [reflexivity|]. constructor; [exact Hs | constructor].
Qed.

End ContentOfRecords.

(** ** The further properties on the sample transcript *)

Lemma flatten_ids_distinct_witness :
  flatten_for_ai_search default_flattener sample_document = Ret (Some sample_records)
  /\ NoDup (map (dict_get "id") sample_records).
Proof.
  split; [exact sample_records_flattened|].
  exact (@flatten_ids_distinct reference_runtime default_flattener sample_document
           sample_records sample_records_flattened).
Defined.

Lemma chunk_records_repeat_metadata_witness :
  flatten_for_ai_search default_flattener sample_document = Ret (Some sample_records)
  /\ Forall (fun doc => dict_get "sha256" doc = Some (JStr "9f2c")
                        /\ dict_mem "flattened_transcript" doc = false)
       (tl sample_records).
Proof.
  split; [exact sample_records_flattened|].
  assert (H := @chunk_records_repeat_metadata reference_runtime default_flattener
                 sample_document (hd [] sample_records) (tl sample_records)
                 sample_records_flattened).
  eapply Forall_impl; [|exact H].
  intros doc (Hfields & Hnot). split; [|exact Hnot].
  destruct (Hfields "sha256") as (v & Hv & _ & Hdoc); [simpl; tauto|].
  rewrite Hdoc, <- Hv. reflexivity.
Defined.

Lemma validate_flattened_records_witness :
  flatten_for_ai_search default_flattener sample_document = Ret (Some sample_records)
  /\ validate_flattened_document (hd [] sample_records) = Ret true.
Proof.
  split; [exact sample_records_flattened|].
  destruct (@validate_flattened_records reference_runtime default_flattener
              sample_document (hd [] sample_records) (tl sample_records)
              sample_records_flattened)
    as (id & flattened_transcript & Hid & Hft & Hfile & _).
  rewrite Hfile. inversion Hid; subst id. inversion Hft; subst flattened_transcript.
  reflexivity.
Defined.

Lemma extract_agrees_with_records_witness :
  flatten_for_ai_search default_flattener sample_document = Ret (Some sample_records)
  /\ extract_transcript_content sample_document
     = Ret "hello there general hello there general".
Proof.
  split; [exact sample_records_flattened|].
  rewrite (@extract_agrees_with_records reference_runtime default_flattener
             sample_document (hd [] sample_records) (tl sample_records)
             sample_records_flattened).
  reflexivity.
Defined.

(** ** The analyzer on the records of the projector *)

Lemma rstrip_chars_cons (p : ascii -> bool) (c : ascii) (s : string) :
  rstrip_chars p (String c s)
  = match rstrip_chars p s with
    | EmptyString => if p c then EmptyString else String c EmptyString
    | r => String c r
    end.
Proof. reflexivity. Qed.

Lemma rstrip_chars_idem (p : ascii -> bool) (s : string) :
  rstrip_chars p (rstrip_chars p s) = rstrip_chars p s.
Proof.
  induction s as [|c s IH]; [reflexivity|].
  rewrite rstrip_chars_cons. destruct (rstrip_chars p s) as [|a r] eqn:E.
  - destruct (p c) eqn:Hc; [reflexivity|]. simpl. now rewrite Hc.
  - rewrite rstrip_chars_cons, IH. reflexivity.
Qed.

(** Stripping a stripped string changes nothing. *)
Lemma strip_idem (s : string) : strip (strip s) = strip s.
Proof.
  destruct (blank s) eqn:H.
  - assert (Hs : strip s = "") by (apply strip_blank; exact H).
    rewrite Hs. reflexivity.
  - pose proof H as H'. apply strip_not_blank in H'. destruct H' as (c & r & Hs & Hc).
    rewrite Hs. unfold strip at 1. cbn [lstrip]. rewrite Hc, <- Hs.
    unfold strip, rstrip. apply rstrip_chars_idem.
Qed.

Section AnalyzerOfRecords.

Context {RT : PyRuntime}.

Variable self : JSONFlattener.

Lemma extract_text_chunks_records (raw meta : json) (base : datetime) (chunks : list json)
    (chunk_docs : list pydict) :
  Forall2 (fun chunk doc => exists j, chunk_doc_of raw meta base j chunk = Ret doc)
    chunks chunk_docs ->
  forall texts,
    extract_text_chunks (map JDict chunk_docs) texts
    = Ret (texts ++ filter (fun t => negb (String.eqb t "")) (map record_text chunk_docs))%list.
Proof.
  induction 1 as [|chunk doc chunks chunk_docs (j & Hbuild) _ IH]; intros texts.
  - simpl. now rewrite app_nil_r.
  - destruct (chunk_doc_of_display _ _ _ _ _ Hbuild)
      as (? & ? & ? & ? & ? & ? & ? & ? & ? & ? & ? & ? & ? & ? & text
          & _ & _ & _ & _ & _ & _ & _ & -> & _).
    cbn [map extract_text_chunks filter].
    change (dict_get_default "text" JNull _) with (JStr (strip text)).
    change (dict_getitem "text" _) with (Ret (JStr (strip text))).
    change (record_text _) with (strip text).
    cbn [truthy bind method_strip]. rewrite strip_idem, !IH.
    destruct (String.eqb (strip text) ""); cbn [negb]; [reflexivity|].
    now rewrite <- app_assoc.
Qed.

(** X18. On the records that the projector has returned for a document,
    [extract_text_chunks] of the analyzer returns the [text] fields of the
    chunk-level records that are not empty, in their order and as they
    stand: the document-level record gives nothing, and stripping the text
    of a record changes nothing. *)
Theorem analyzer_chunks_of_records (raw : json) (file_doc : pydict)
    (chunk_docs : list pydict) :
  flatten_for_ai_search self raw = Ret (Some (file_doc :: chunk_docs)) ->
  extract_text_chunks (map JDict (file_doc :: chunk_docs)) []
  = Ret (filter (fun t => negb (String.eqb t "")) (map record_text chunk_docs)).
Proof.
  intros Hflat.
  destruct (flatten_records _ _ Hflat)
    as (d & id & m & base & file_doc' & chunk_docs'
        & -> & _ & _ & _ & Hdocs & Hfile & Hlen & Hnth & _).
  inversion Hdocs; subst file_doc' chunk_docs'; clear Hdocs.
  assert (Hrel : Forall2 (fun chunk doc =>
                            exists j, chunk_doc_of (JDict d) (JDict m) base j chunk = Ret doc)
                   (document_chunks (JDict d)) chunk_docs).
  { apply (@Forall2_nth_error json pydict
             (fun j chunk doc => chunk_doc_of (JDict d) (JDict m) base j chunk = Ret doc)
             (document_chunks (JDict d)) chunk_docs 0%nat); [exact Hlen | exact Hnth]. }
  destruct (file_doc_of_display _ _ Hfile)
    as (? & ? & ? & ? & ? & ? & ? & ? & ? & ? & _ & _ & -> & _).
  cbn [map extract_text_chunks].
  change (dict_get_default "text" JNull _) with JNull. cbn [truthy].
  now rewrite (@extract_text_chunks_records _ _ _ _ _ Hrel).
Qed.

End AnalyzerOfRecords.

Lemma analyzer_chunks_of_records_witness :
  flatten_for_ai_search default_flattener sample_document = Ret (Some sample_records)
  /\ extract_text_chunks (map JDict sample_records) [] = Ret ["hello there"; "general"].
Proof.
  split; [exact sample_records_flattened|].
  exact (@analyzer_chunks_of_records reference_runtime default_flattener
           sample_document (hd [] sample_records) (tl sample_records)
           sample_records_flattened).
Defined.

(** ** The ingestion of JSON files *)

Section IngestionProperties.

Context {RT : PyRuntime}.

Variable sys : system.

Lemma create_needs_dict (file_path file_name file_extension : string)
    (document_data : json) (source_info : pydict) (n : nat) :
  (forall d, document_data <> JDict d) ->
  _create_standardized_document sys file_path file_name file_extension document_data
    source_info n
  = (Raise AttributeError, n).
Proof.
  intros H. unfold _create_standardized_document, io_bind, get_or at 1.
  destruct document_data; try reflexivity. now destruct (H d).
Qed.

Lemma ingest_json_none (file_path : string) (source_info : pydict) (n : nat) :
  lower (after_last "." (basename file_path)) = "json" ->
  ingest_preprocessed_document sys file_path source_info n = (Ret JNull, n).
Proof.
  intros Hext. unfold ingest_preprocessed_document, io_try, ingest_body.
  rewrite Hext. cbn [supported_file_types existsb String.eqb Ascii.eqb Bool.eqb orb negb].
  unfold io_bind at 1, _process_json, io_try, lift.
  destruct (open_json sys file_path) as [document_data|e]; [|reflexivity].
  destruct (truthy document_data); cbn [negb]; [|reflexivity].
  unfold io_bind at 1, lift, flatten_for_ai_search.
  destruct (flatten_body default_flattener document_data) as [[docs|]|e];
    cbn [try_except bind records_value];
    rewrite create_needs_dict by discriminate; reflexivity.
Qed.

(** X19. The pipeline never ingests a JSON file: for every path whose
    extension is [json] in any mix of cases, whatever the file holds and
    whatever the system answers, [ingest_preprocessed_document] returns
    [None]. The value that [flatten_for_ai_search] returns is [None] or a
    list, and [_create_standardized_document] calls [get] on it. *)
Theorem ingest_json_returns_none (file_path : string) (source_info : pydict) (n : nat) :
  lower (after_last "." (basename file_path)) = "json" ->
  fst (ingest_preprocessed_document sys file_path source_info n) = Ret JNull.
Proof.
  intros Hext. now rewrite ingest_json_none.
Qed.

(** X20. A batch of JSON files is ingested to the empty list. *)
Theorem batch_ingest_json_empty (file_paths : list string) (source_info : pydict) (n : nat) :
  Forall (fun file_path => lower (after_last "." (basename file_path)) = "json") file_paths ->
  fst (batch_ingest_preprocessed sys file_paths source_info n) = Ret [].
Proof.
  unfold batch_ingest_preprocessed. induction 1 as [|file_path rest Hext _ IH].
  - reflexivity.
  - cbn [batch_ingest_loop]. unfold io_bind. rewrite ingest_json_none by exact Hext.
    exact IH.
Qed.

End IngestionProperties.

Lemma batch_ingest_json_empty_witness :
  fst (batch_ingest_preprocessed sample_system ["/data/call-17.JSON"; "/data/other.json"] []
         0%nat)
  = Ret [].
Proof.
  apply (@batch_ingest_json_empty reference_runtime sample_system).
  repeat constructor.
Defined.

Lemma ingest_json_returns_none_witness :
  lower (after_last "." (basename "/data/call-17.JSON")) = "json"
  /\ flatten_for_ai_search default_flattener sample_document = Ret (Some sample_records)
  /\ fst (ingest_preprocessed_document sample_system "/data/call-17.JSON" [] 0%nat) = Ret JNull.
Proof.
  split; [reflexivity|]. split; [exact sample_records_flattened|].
  exact (@ingest_json_returns_none reference_runtime sample_system "/data/call-17.JSON" []
           0%nat eq_refl).
Defined.

(** ** The domain of the projector *)

Section ProjectorDomain.

Context {RT : PyRuntime}.

Variable self : JSONFlattener.

Lemma validate_true_id (raw : json) :
  validate_document_structure self raw = Ret true ->
  exists d id, raw = JDict d /\ dict_get "id" d = Some id.
Proof.
  unfold validate_document_structure, validate_run, validate_body.
  destruct raw as [| | | |s|l|d]; try discriminate.
  - destruct (filter _ _); discriminate.
  - destruct (filter _ _); discriminate.
  - destruct (filter _ _); [|discriminate].
    destruct (dict_get "id" d) as [id|] eqn:Hid; [|discriminate].
    intros _. exists d, id. now split.
Qed.

Lemma offset_is_seconds (base : datetime) (v : json) (s : string) :
  offset_isoformat base v = Ret s -> is_seconds v = true.
Proof.
  unfold offset_isoformat, is_seconds. destruct (as_num v); [reflexivity | discriminate].
Qed.

Lemma chunk_doc_of_chunk (raw meta : json) (base : datetime) (j : nat) (chunk : json)
    (doc : pydict) :
  chunk_doc_of raw meta base j chunk = Ret doc ->
  is_chunk chunk = true /\ chunk_in_range base chunk = true.
Proof.
  intros Hbuild.
  destruct (chunk_doc_of_display _ _ _ _ _ Hbuild)
    as (? & ? & ? & ? & ? & ? & ? & ? & ? & speaker & start & end_ & start_at & end_at & text
        & _ & Hsp & Hst & Hen & Htx & Hsa & Hea & _).
  destruct (getitem_is_dict _ _ Hsp) as (c & -> & Hsp').
  apply getitem_dict_get in Hst, Hen, Htx.
  unfold is_chunk, chunk_in_range, document_field, is_offset, dict_mem.
  rewrite Hsp', Hst, Hen, Htx, Hsa, Hea.
  now rewrite (offset_is_seconds _ _ Hsa), (offset_is_seconds _ _ Hea).
Qed.

(** X21. The exact domain of the projector: [flatten_for_ai_search]
    returns records exactly for the documents that the validator accepts
    and that have the nine metadata fields with a [created] that
    [fromisoformat] reads, a list of chunks, and in every chunk numbers
    [start] and [end] that can be added to that timestamp and a string
    [text]. For every other input it returns [None]. *)
Theorem flatten_returns_records_iff (raw : json) :
  ((exists docs, flatten_for_ai_search self raw = Ret (Some docs))
   <-> validate_document_structure self raw = Ret true /\ flattenable raw = true)
  /\ (flatten_for_ai_search self raw = Ret None
      \/ exists docs, flatten_for_ai_search self raw = Ret (Some docs)).
Proof.
  split; [split|].
  - intros (docs & Hflat).
    destruct (@flatten_inv _ _ _ _ Hflat)
      as (d & id & m & created & base & file_doc & chunk_docs
          & -> & Hvalid & Hid & Hmeta & Hcreated & Hparse & Hfile & -> & Hlen & Hnth).
    destruct (@flatten_has_chunks _ _ _ _ Hflat) as (chunks & Hchunks).
    split; [exact Hvalid|].
    assert (Hbase : created_timestamp m = Some base).
    { unfold created_timestamp. now rewrite Hcreated, Hparse. }
    assert (Hall : forall chunk, In chunk chunks ->
                                 is_chunk chunk = true /\ chunk_in_range base chunk = true).
    { intros chunk Hin. destruct (In_nth_error _ _ Hin) as (j & Hj).
      unfold document_chunks, document_field in Hnth. rewrite Hchunks in Hnth.
      destruct (Hnth j chunk Hj) as (doc & _ & Hbuild).
      exact (chunk_doc_of_chunk _ _ _ _ _ Hbuild). }
    unfold flattenable, offsets_in_range, document_metadata, document_chunks, document_field.
    rewrite Hmeta, Hchunks, Hbase.
    apply andb_true_iff; split;
      [apply andb_true_iff; split; [apply andb_true_iff; split; [|reflexivity]|]|].
    + destruct (file_doc_of_display _ _ Hfile)
        as (? & ? & ? & ? & ? & ? & ? & ? & ? & ?
            & _ & F0 & _ & F1 & F2 & F3 & F4 & F5 & F6 & F7 & F8).
      apply getitem_dict_get in F0, F1, F2, F3, F4, F5, F6, F7, F8.
      unfold metadata_fields, dict_mem. cbn [forallb].
      now rewrite F0, F1, F2, F3, F4, F5, F6, F7, F8.
    + apply forallb_forall. intros chunk Hin. now apply Hall.
    + apply forallb_forall. intros chunk Hin. now apply Hall.
  - intros (Hvalid & Hdomain).
    destruct (validate_true_id _ Hvalid) as (d & id & -> & Hid).
    unfold flattenable in Hdomain.
    apply andb_true_iff in Hdomain. destruct Hdomain as (Hdomain & Hrange).
    apply andb_true_iff in Hdomain. destruct Hdomain as (Hdomain & Hall).
    apply andb_true_iff in Hdomain. destruct Hdomain as (Hm & Hlist).
    unfold offsets_in_range in Hrange.
    unfold document_metadata, document_chunks, document_field in *.
    destruct (dict_get "transcript_chunks" d) as [[| | | | |chunks|]|] eqn:Hchunks;
      try discriminate.
    destruct (dict_get "metadata" d) as [[| | | | | |m]|] eqn:Hmeta; try discriminate.
    destruct (created_timestamp m) as [base|] eqn:Hbase; [|discriminate].
    destruct (created_timestamp_inv _ Hbase) as (created & Hcreated & Hparse).
    destruct (@file_doc_of_ok d m id Hid Hm) as (file_doc & Hfile).
    destruct (chunk_loop_ok (JDict d) (JDict m) base chunks 0 [file_doc]) as (out & Hout).
    { intros j chunk Hn. rewrite forallb_forall in Hall, Hrange.
      apply nth_error_In in Hn.
      eapply chunk_doc_of_ok; [exact Hid | exact Hm | now apply Hall | now apply Hrange]. }
    exists out.
    unfold flatten_for_ai_search, flatten_body. rewrite Hvalid. cbn [bind negb getitem].
    rewrite (dict_getitem_get _ _ Hmeta). cbn [bind getitem].
    rewrite (dict_getitem_get _ _ Hcreated). cbn [bind method_rstrip_Z].
    rewrite Hparse. cbn [bind]. rewrite Hfile. cbn [bind].
    rewrite (dict_getitem_get _ _ Hchunks). cbn [bind iterate].
    rewrite Hout. reflexivity.
  - unfold flatten_for_ai_search.
    destruct (flatten_body self raw) as [[docs|]|e]; simpl; eauto.
Qed.

End ProjectorDomain.
